(** * mutatio: snapshot acquisition, verification and rotation

    A shallow embedding of [src/mutatio.py].  Python strings are
    [string]s, a directory is the list of its entries in listing order,
    the cached documents of the working directory are a [gmap], and the
    procedures of the script live in a state-and-exception monad whose
    state carries the on-disk layout together with the trace of what the
    process did to the outside world.

    What lies outside the script (the network, the signify tool, the
    diff of the standard library, the clock, the running system, the
    home directories) is a record of functions, [Env].

    The layout on disk is the working directory with its cached
    documents, the snapshots directory with its three slots, and the
    temporary directory with the staged snapshot.  A member name is
    followed where it leads inside this layout: into the staged
    directory for a plain name, into a slot or into the working
    directory for a name that climbs out of a temporary directory
    created under the snapshots directory.  A run that reaches a path
    outside this layout ends as [Unmodelled], and so does a run that
    would resolve a relative working directory from the staged
    directory [verify] has changed into. *)

From Stdlib Require Import ZArith Lia Bool Ascii String List.
From stdpp Require Import base option list strings gmap.

Local Open Scope Z_scope.

(** ** Python string operations used by the script *)

Module PyStr.

Definition nl : ascii := "010"%char.
Definition cr : ascii := "013"%char.
Definition colon : ascii := ":"%char.
Definition slash : ascii := "/"%char.
Definition lparen : ascii := "("%char.
Definition rparen : ascii := ")"%char.
Definition dot : ascii := "."%char.

(** membership of a character in a string seen as a set of characters *)
Fixpoint mem (c : ascii) (chars : string) : bool :=
  match chars with
  | EmptyString => false
  | String d rest => Ascii.eqb c d || mem c rest
  end.

(** [s.split(sep)] for a one-character separator: never empty. *)
Fixpoint split (sep : ascii) (s : string) : list string :=
  match s with
  | EmptyString => [EmptyString]
  | String c rest =>
      if Ascii.eqb c sep then EmptyString :: split sep rest
      else match split sep rest with
           | [] => [String c EmptyString]
           | h :: t => String c h :: t
           end
  end.

(** [s.endswith(suffix)] *)
Fixpoint endswith (suffix s : string) : bool :=
  String.eqb s suffix ||
  match s with
  | EmptyString => false
  | String _ rest => endswith suffix rest
  end.

(** [s.startswith(prefix)] *)
Definition startswith (prefix s : string) : bool := String.prefix prefix s.

(** [s.rstrip(chars)]: drops every trailing character that occurs in
    [chars]; the argument is a set of characters, not a suffix. *)
Fixpoint rstrip (chars s : string) : string :=
  match s with
  | EmptyString => EmptyString
  | String c rest =>
      match rstrip chars rest with
      | EmptyString => if mem c chars then EmptyString else String c EmptyString
      | kept => String c kept
      end
  end.

(** [s.lstrip(chars)]: drops every leading character that occurs in
    [chars]. *)
Fixpoint lstrip (chars s : string) : string :=
  match s with
  | EmptyString => EmptyString
  | String c rest => if mem c chars then lstrip chars rest else s
  end.

(** the ASCII characters for which [str.isspace] holds *)
Definition isspace (c : ascii) : bool :=
  let n := nat_of_ascii c in
  ((9 <=? n)%nat && (n <=? 13)%nat) || ((28 <=? n)%nat && (n <=? 32)%nat).

(** [s.rstrip()] without argument *)
Fixpoint rstrip_space (s : string) : string :=
  match s with
  | EmptyString => EmptyString
  | String c rest =>
      match rstrip_space rest with
      | EmptyString => if isspace c then EmptyString else String c EmptyString
      | kept => String c kept
      end
  end.

(** [s.replace(".", "")] *)
Fixpoint remove_char (d : ascii) (s : string) : string :=
  match s with
  | EmptyString => EmptyString
  | String c rest =>
      if Ascii.eqb c d then remove_char d rest else String c (remove_char d rest)
  end.

(** ["".join(parts)] *)
Definition join (parts : list string) : string :=
  fold_right String.append EmptyString parts.

(** the last element of a (never empty) [split] result: [xs[-1]] *)
Definition last_field (sep : ascii) (s : string) : string :=
  List.last (split sep s) EmptyString.

(** the first element of a [split] result: [xs[0]] *)
Definition first_field (sep : ascii) (s : string) : string :=
  match split sep s with
  | [] => EmptyString
  | h :: _ => h
  end.

(** Text-mode reading translates the line endings CR LF and CR to LF
    (universal newlines). *)
Fixpoint universal_newlines (s : string) : string :=
  match s with
  | EmptyString => EmptyString
  | String c rest =>
      if Ascii.eqb c cr then
        match rest with
        | String d rest' =>
            if Ascii.eqb d nl then String nl (universal_newlines rest')
            else String nl (universal_newlines rest)
        | EmptyString => String nl EmptyString
        end
      else String c (universal_newlines rest)
  end.

(** [f.readlines()] on translated text: lines keep their final LF. *)
Fixpoint keepends (s : string) : list string :=
  match s with
  | EmptyString => []
  | String c rest =>
      if Ascii.eqb c nl then String c EmptyString :: keepends rest
      else match keepends rest with
           | [] => [String c EmptyString]
           | h :: t => String c h :: t
           end
  end.

Definition readlines (data : string) : list string :=
  keepends (universal_newlines data).

(** The prefix of [s] before its last closing parenthesis, if any:
    what the greedy group of the manifest pattern captures once the
    opening parenthesis has been consumed. *)
Fixpoint upto_last_close (s : string) : option string :=
  match s with
  | EmptyString => None
  | String c rest =>
      match upto_last_close rest with
      | Some r => Some (String c r)
      | None => if Ascii.eqb c rparen then Some EmptyString else None
      end
  end.

(** The text after the first opening parenthesis of [s], if any. *)
Fixpoint after_first_open (s : string) : option string :=
  match s with
  | EmptyString => None
  | String c rest => if Ascii.eqb c lparen then Some rest else after_first_open rest
  end.

(** The match of the manifest pattern (a literal opening parenthesis,
    a greedy group of any characters, a literal closing parenthesis)
    inside one line: the dot does not cross a line feed and the star is
    greedy, so a line gives at most one match, from its first opening
    to its last closing parenthesis. *)
Definition paren_group (line : string) : option string :=
  match after_first_open line with
  | Some rest => upto_last_close rest
  | None => None
  end.

(** [re.findall] of the manifest pattern over [text] *)
Definition findall_parens (text : string) : list string :=
  omap paren_group (split nl text).

(** [fnmatch] of a name against the pattern [base*.tgz] *)
Definition matches_base_tgz (name : string) : bool :=
  startswith "base" name && endswith ".tgz" name
  && (8 <=? String.length name)%nat.

End PyStr.

(** ** Files, directories and the three generation slots *)

(** A regular file carries its modification time and its bytes; its size
    is the length of its data.  A directory lists its entries in the
    order the operating system enumerates them. *)
#[warnings="-register-all"] Inductive node :=
| File (mtime : Z) (data : string)
| Dir (entries : list (string * node)).

Definition dirents := list (string * node).

Module Fs.

Fixpoint entry (name : string) (d : dirents) : option node :=
  match d with
  | [] => None
  | (n, x) :: rest => if String.eqb n name then Some x else entry name rest
  end.

(** create or overwrite the entry [name] *)
Fixpoint write (name : string) (x : node) (d : dirents) : dirents :=
  match d with
  | [] => [(name, x)]
  | (n, y) :: rest =>
      if String.eqb n name then (n, x) :: rest else (n, y) :: write name x rest
  end.

Definition names (d : dirents) : list string := map fst d.

(** A name that designates an entry of the directory it is resolved
    in: not empty, not a dot entry, without separator or NUL. *)
Definition plain_name (name : string) : bool :=
  negb (String.eqb name "") && negb (String.eqb name ".")
  && negb (String.eqb name "..")
  && negb (PyStr.mem PyStr.slash name) && negb (PyStr.mem "000"%char name).

Definition is_dir (x : option node) : bool :=
  match x with Some (Dir _) => true | _ => false end.

(** [Path.exists()] *)
Definition exists_ (x : option node) : bool :=
  match x with Some _ => true | None => false end.

End Fs.

Inductive slot := Previous | Current | Upgrade.

Record Slots := {
  previous : option node;
  current : option node;
  upgrade : option node
}.

Definition no_slots : Slots :=
  {| previous := None; current := None; upgrade := None |}.

Definition slot_of (s : slot) (sl : Slots) : option node :=
  match s with
  | Previous => previous sl
  | Current => current sl
  | Upgrade => upgrade sl
  end.

Definition with_slot (s : slot) (x : option node) (sl : Slots) : Slots :=
  match s with
  | Previous => {| previous := x; current := current sl; upgrade := upgrade sl |}
  | Current => {| previous := previous sl; current := x; upgrade := upgrade sl |}
  | Upgrade => {| previous := previous sl; current := current sl; upgrade := x |}
  end.

(** the last path component of [snaps_subdirs[s]] *)
Definition slot_name (s : slot) : string :=
  match s with
  | Previous => "previous"
  | Current => "current"
  | Upgrade => "upgrade"
  end.

(** The temporary directory of one snapshot pipeline: absent, created but
    still empty, or holding the [snapshot] subdirectory. *)
Inductive Staging :=
| NoTemp
| TempEmpty
| TempSnapshot (d : dirents).

(** ** External interactions *)

Inductive event :=
| Urlopen (url : string) (ok : bool)
| GetDocument (url : string) (ok : bool)
| Sleep (seconds : Z)
| Signify (command : string)
| NotifySend (header body urgency : string)
| Mail (subject body : string)
| Stdout (text : string)
| Stderr (text : string).

Inductive exn :=
| IndexError
| FileNotFoundError
| FileExistsError
| NotADirectoryError
| IsADirectoryError
| ShutilError
| RuntimeError
| InvalidURL
| IncompleteRead
| ConnectionResetError.

(** How a call ends: it returns, the process exits through [sys.exit],
    an exception nothing catches propagates, or a path leaves the
    layout this development describes. *)
Inductive outcome (A : Type) :=
| Ret (a : A)
| Exit (code : Z)
| Raise (e : exn)
| Unmodelled.
Arguments Ret {A} a.
Arguments Exit {A} code.
Arguments Raise {A} e.
Arguments Unmodelled {A}.

(** How a request that delivers nothing fails.  [get_binary] and
    [get_document] catch [ValueError], [URLError] and [HTTPError], print
    the error and exit; every other exception propagates: one raised by
    [urlopen] itself (an [InvalidURL], say) before the output file is
    opened, or one raised while the body is read (an [IncompleteRead], a
    connection reset), once the output file is open. *)
Inductive failure :=
| Reported (message : string)
| Uncaught (e : exn)
| Interrupted (e : exn).

(** What lies outside the script.  Network and tool answers may change
    over time, so they are indexed by the number of interactions already
    made. *)
Record Env := {
  (** [request.urlopen(url).read()] in [get_binary]; [None] when the
      request delivers no body *)
  urlopen : nat -> string -> option string;
  (** the lines [get_document] builds from the response, whatever its
      content type; [None] when the request delivers no document *)
  fetch_lines : nat -> string -> option (list string);
  (** how a request that delivers nothing fails; the message is the text
      of the error as [print] shows it *)
  fails : nat -> string -> failure;
  (** [subprocess.getstatusoutput] of the signify command, run in the
      snapshot directory *)
  getstatusoutput : nat -> string -> dirents -> Z * string;
  (** [difflib.context_diff] with the two file labels *)
  context_diff : list string -> list string -> list string;
  (** [urllib.parse.urljoin] *)
  urljoin : string -> string -> string;
  (** modification time given to a file written now *)
  clock : nat -> Z;
  (** [/bsd.rd] of the running system *)
  root_bsd_rd : option node;
  (** contents of [/etc/installurl], if the file exists *)
  installurl : option string;
  (** [os.uname().release] and [platform.machine()] *)
  uname_release : string;
  machine : string;
  (** [which("notify-send")] *)
  has_notify_send : bool;
  (** [os.path.expanduser] of a first path component [~] or [~user]; the
      component itself when no home directory is known *)
  home : string -> string
}.

(** The working directory: cached documents by name, the snapshots
    directory with its slots ([None] while it does not exist yet), the
    temporary directory, and what has happened so far.  [tempdir] is the
    module variable [tempfile.tempdir]: [true] once [main] has set it to
    the snapshots directory, [false] while it is [None] and temporary
    directories go to the default of the system. *)
Record State := {
  docs : gmap string string;
  snaps : option Slots;
  staging : Staging;
  trace : list event;
  tempdir : bool
}.

Definition set_docs (m : gmap string string) (st : State) : State :=
  {| docs := m; snaps := snaps st; staging := staging st; trace := trace st;
     tempdir := tempdir st |}.
Definition set_snaps (x : option Slots) (st : State) : State :=
  {| docs := docs st; snaps := x; staging := staging st; trace := trace st;
     tempdir := tempdir st |}.
Definition set_staging (x : Staging) (st : State) : State :=
  {| docs := docs st; snaps := snaps st; staging := x; trace := trace st;
     tempdir := tempdir st |}.
Definition set_tempdir (x : bool) (st : State) : State :=
  {| docs := docs st; snaps := snaps st; staging := staging st; trace := trace st;
     tempdir := x |}.
Definition add_event (e : event) (st : State) : State :=
  {| docs := docs st; snaps := snaps st; staging := staging st;
     trace := trace st ++ [e]; tempdir := tempdir st |}.

Definition slots (st : State) : Slots := default no_slots (snaps st).

Definition snapshots_dir_exists (st : State) : bool :=
  match snaps st with Some _ => true | None => false end.

(** ** The monad of the script's procedures *)

Definition M (A : Type) : Type := State -> outcome A * State.

Definition ret {A} (a : A) : M A := fun st => (Ret a, st).

Definition bind {A B} (m : M A) (k : A -> M B) : M B :=
  fun st =>
    match m st with
    | (Ret a, st') => k a st'
    | (Exit c, st') => (Exit c, st')
    | (Raise e, st') => (Raise e, st')
    | (Unmodelled, st') => (Unmodelled, st')
    end.

Notation "'let!' x ':=' m 'in' k" := (bind m (fun x => k))
  (at level 10, x pattern, m at level 100, k at level 200, only parsing).

Definition raise {A} (e : exn) : M A := fun st => (Raise e, st).
Definition sys_exit {A} (code : Z) : M A := fun st => (Exit code, st).
Definition unmodelled {A} : M A := fun st => (Unmodelled, st).
Definition emit (e : event) : M unit := fun st => (Ret tt, add_event e st).
Definition tick : M nat := fun st => (Ret (length (trace st)), st).
Definition gets {A} (f : State -> A) : M A := fun st => (Ret (f st), st).
Definition modify (f : State -> State) : M unit := fun st => (Ret tt, f st).
Definition lift {A} (o : outcome A) : M A := fun st => (o, st).

(** [for x in xs: body(x)] *)
Fixpoint for_each {A} (xs : list A) (body : A -> M unit) : M unit :=
  match xs with
  | [] => ret tt
  | x :: rest => let! _ := body x in for_each rest body
  end.

(** [if c: body] *)
Definition when (c : bool) (body : M unit) : M unit :=
  if c then body else ret tt.

(** ** The script's functions *)

Inductive status := bootstrap | same | new.

(** the parsed command line; [mail_opt], [notify_opt], [snapshot_opt] and
    [current_opt] are the options [mail], [notify], [snapshot] and
    [current], renamed apart from the functions and the slot *)
Record Args := {
  quiet : bool;
  mail_opt : bool;
  notify_opt : bool;
  no_temp : bool;
  snapshot_opt : bool;
  packages : bool;
  changelog : bool;
  errata : bool;
  events : bool;
  current_opt : bool;
  innovations : bool;
  hackathons : bool;
  mirror : option string;
  path : string
}.

(** the [signify] dictionary built by [main] *)
Record SignifyCfg := {
  key_dir : string;
  file : string
}.

(** [get_document]: the lines of the document; for an error of the
    [except] clause the error is printed and the process exits with
    status -2, any other error propagates. *)
Definition get_document (env : Env) (url : string) : M (list string) :=
  let! t := tick in
  match fetch_lines env t url with
  | Some content => let! _ := emit (GetDocument url true) in ret content
  | None =>
      let! _ := emit (GetDocument url false) in
      match fails env t url with
      | Reported message => let! _ := emit (Stderr message) in sys_exit (-2)
      | Uncaught e | Interrupted e => raise e
      end
  end.

(** [get_document_changes], given the text of the previous version *)
Definition get_document_changes (env : Env) (previous : string)
    (current : list string) (url : string) : string :=
  let changes := PyStr.join (context_diff env (PyStr.readlines previous) current) in
  if String.eqb changes "" then changes
  else changes +:+ String PyStr.nl EmptyString +:+ url.

(** Whether the document name can be looked up among the cached
    documents of the working directory. *)
Definition cache_name (doc_name : string) : bool :=
  Fs.plain_name doc_name && negb (String.eqb doc_name "snapshots").

(** [get_update_info]; it runs with the working directory as current
    directory, where [doc_name] is resolved. *)
Definition get_update_info (env : Env) (url : string)
    : M (status * option string) :=
  let! doc_from_mirror := get_document env url in
  let doc_name := PyStr.last_field PyStr.slash url in
  if negb (cache_name doc_name) then unmodelled
  else
    let! cached := gets (fun st => docs st !! doc_name) in
    let '(status, changes) :=
      match cached with
      | None => (bootstrap, None)
      | Some previous =>
          let changes := get_document_changes env previous doc_from_mirror url in
          (if String.eqb changes "" then same else new, Some changes)
      end in
    let! _ :=
      match status with
      | new | bootstrap =>
          modify (fun st => set_docs (<[doc_name := PyStr.join doc_from_mirror]> (docs st)) st)
      | same => ret tt
      end in
    ret (status, changes).

(** Where a file name leads from the staged snapshot directory, the
    directory both callers of [get_binary] resolve it in
    ([download_snapshot] through [subdir / f], [check_integrity] relative
    to the directory [verify] changed into). *)
Inductive place :=
| Member (name : string)
| SlotEntry (s : slot) (name : string)
| SlotItself (s : slot)
| WorkingFile (name : string)
| Beyond.

Definition slot_named (name : string) : option slot :=
  if String.eqb name "previous" then Some Previous
  else if String.eqb name "current" then Some Current
  else if String.eqb name "upgrade" then Some Upgrade
  else None.

(** A plain name is an entry of the staged directory.  When the
    temporary directory lies in the snapshots directory ([in_snaps]), two
    steps up lead to the snapshots directory, with the slots as its
    entries, and three steps up to the working directory.  No other path
    is followed. *)
Definition locate (in_snaps : bool) (filename : string) : place :=
  match PyStr.split PyStr.slash filename with
  | [name] => if Fs.plain_name name then Member name else Beyond
  | [up1; up2; name] =>
      if in_snaps && String.eqb up1 ".." && String.eqb up2 ".." then
        match slot_named name with
        | Some s => SlotItself s
        | None => Beyond
        end
      else Beyond
  | [up1; up2; dir; name] =>
      if in_snaps && String.eqb up1 ".." && String.eqb up2 ".."
         && Fs.plain_name name then
        match slot_named dir with
        | Some s => SlotEntry s name
        | None => if String.eqb dir ".." then WorkingFile name else Beyond
        end
      else Beyond
  | _ => Beyond
  end.

(** [open(filename, "wb")] followed by the write of [data]: the file is
    created or truncated wherever the name leads.  A NUL in the name is
    a [ValueError], which the [except] clause of [get_binary] catches. *)
Definition open_write (filename : string) (mtime : Z) (data : string) : M unit :=
  if PyStr.mem "000"%char filename then
    let! _ := emit (Stderr "embedded null byte") in sys_exit (-2)
  else
    let! stg := gets staging in
    match stg with
    | TempSnapshot d =>
        let! in_snaps := gets tempdir in
        match locate in_snaps filename with
        | Member name =>
            match Fs.entry name d with
            | Some (Dir _) => raise IsADirectoryError
            | _ => modify (set_staging (TempSnapshot (Fs.write name (File mtime data) d)))
            end
        | SlotEntry s name =>
            let! sl := gets slots in
            match slot_of s sl with
            | Some (Dir inside) =>
                match Fs.entry name inside with
                | Some (Dir _) => raise IsADirectoryError
                | _ =>
                    modify (set_snaps
                              (Some (with_slot s
                                       (Some (Dir (Fs.write name (File mtime data) inside)))
                                       sl)))
                end
            | Some (File _ _) => raise NotADirectoryError
            | None => raise FileNotFoundError
            end
        | SlotItself s =>
            let! sl := gets slots in
            match slot_of s sl with
            | Some (Dir _) => raise IsADirectoryError
            | _ => modify (set_snaps (Some (with_slot s (Some (File mtime data)) sl)))
            end
        | WorkingFile name =>
            if String.eqb name "snapshots" then raise IsADirectoryError
            else modify (fun st => set_docs (<[name := data]> (docs st)) st)
        | Beyond => unmodelled
        end
    | _ => raise FileNotFoundError
    end.

(** [get_binary]: [urlopen] comes first, then the output file is opened,
    then the body is read and written.  For an error of the [except]
    clause the error is printed and the process exits with status -2; an
    error [urlopen] raises otherwise propagates before the file is
    opened, an error while the body is read propagates and leaves the
    file empty. *)
Definition get_binary (env : Env) (url : string) (filename : string) : M unit :=
  let! t := tick in
  match urlopen env t url with
  | Some body =>
      let! _ := emit (Urlopen url true) in
      open_write filename (clock env t) body
  | None =>
      let! _ := emit (Urlopen url false) in
      match fails env t url with
      | Reported message => let! _ := emit (Stderr message) in sys_exit (-2)
      | Uncaught e => raise e
      | Interrupted e =>
          let! _ := open_write filename (clock env t) EmptyString in
          raise e
      end
  end.

(** [open(path).read()] of a file of the staged snapshot *)
Definition read_text (filename : string) : M string :=
  let! stg := gets staging in
  match stg with
  | TempSnapshot d =>
      match Fs.entry filename d with
      | Some (File _ data) => ret (PyStr.universal_newlines data)
      | Some (Dir _) => raise IsADirectoryError
      | None => raise FileNotFoundError
      end
  | _ => raise FileNotFoundError
  end.

(** [download_snapshot]; [directory] is the temporary directory, and the
    returned path is its [snapshot] subdirectory. *)
Definition download_snapshot (env : Env) (url signify_file : string) : M unit :=
  let! stg := gets staging in
  let! _ :=
    match stg with
    | TempEmpty => modify (set_staging (TempSnapshot []))
    | TempSnapshot _ => raise FileExistsError
    | NoTemp => raise FileNotFoundError
    end in
  let! _ := get_binary env (urljoin env url signify_file) signify_file in
  let! text := read_text signify_file in
  let files := PyStr.findall_parens text in
  for_each files (fun f => get_binary env (urljoin env url f) f).

(** [Path('.').glob('base*.tgz')] in listing order *)
Definition glob_base (d : dirents) : list string :=
  List.filter PyStr.matches_base_tgz (Fs.names d).

(** [name.rstrip('.tgz').lstrip('base')] *)
Definition snapshot_release (name : string) : string :=
  PyStr.lstrip "base" (PyStr.rstrip ".tgz" name).

(** [Path(key_dir, "/etc/signify/openbsd-...-base.pub")]: the second
    component is absolute, so the first is discarded. *)
Definition signify_key (cfg : SignifyCfg) (release : string) : string :=
  "/etc/signify/openbsd-" +:+ release +:+ "-base.pub".

Definition signify_command (cfg : SignifyCfg) (release filename : string) : string :=
  "signify -Cp " +:+ signify_key cfg release +:+ " -x " +:+ file cfg +:+ " " +:+ filename.

(** the names on the lines that end in the marker *)
Definition failed_members (output : string) : list string :=
  map (PyStr.first_field PyStr.colon)
      (List.filter (PyStr.endswith "FAIL") (PyStr.split PyStr.nl output)).

(** [verify] on the staged snapshot.  Its [os.chdir(snapshot)] makes the
    staged directory the current one for the rest of the run: the
    re-fetches of [check_integrity] name their files from there, as
    [locate] has it, and the relative paths of a working directory that
    is not absolute stop naming the slots ([slot_paths] below). *)
Definition verify (env : Env) (cfg : SignifyCfg) (filename : string)
    : M (bool * list string) :=
  let! stg := gets staging in
  match stg with
  | TempSnapshot d =>
      match glob_base d with
      | [] => raise IndexError
      | base :: _ =>
          let command := signify_command cfg (snapshot_release base) filename in
          let! t := tick in
          let! _ := emit (Signify command) in
          let status := getstatusoutput env t command d in
          ret (status.1 =? 0, failed_members status.2)
      end
  | _ => raise FileNotFoundError
  end.

(** [check_integrity] *)
Definition check_integrity (env : Env) (cfg : SignifyCfg) (url : string) : M bool :=
  let! (whole, failed) := verify env cfg "" in
  match failed with
  | [] => ret whole
  | _ :: _ =>
      let! _ := emit (Sleep 300) in
      let! _ := for_each failed (fun f => get_binary env (urljoin env url f) f) in
      let! (whole, failed) := verify env cfg "" in
      ret whole
  end.

(** [os.stat] of [Path(directory, name)] *)
Definition stat_in (directory : option node) (name : string) : outcome node :=
  match directory with
  | None => Raise FileNotFoundError
  | Some (File _ _) => Raise NotADirectoryError
  | Some (Dir d) =>
      match Fs.entry name d with
      | Some x => Ret x
      | None => Raise FileNotFoundError
      end
  end.

(** [filecmp.cmp(f1, f2)] of the standard library with its default
    [shallow=True]: files that are not both regular differ, regular files
    with the same size and modification time are taken as equal without
    being read, files of different sizes differ, and only otherwise are
    the contents compared. *)
Definition cmp (f1 f2 : outcome node) : outcome bool :=
  match f1 with
  | Ret (File m1 d1) =>
      match f2 with
      | Ret (File m2 d2) =>
          if (String.length d1 =? String.length d2)%nat && (m1 =? m2) then Ret true
          else if negb (String.length d1 =? String.length d2)%nat then Ret false
          else Ret (String.eqb d1 d2)
      | Ret (Dir _) => Ret false
      | Exit c => Exit c
      | Raise e => Raise e
      | Unmodelled => Unmodelled
      end
  | Ret (Dir _) =>
      match f2 with
      | Ret _ => Ret false
      | Exit c => Exit c
      | Raise e => Raise e
      | Unmodelled => Unmodelled
      end
  | Exit c => Exit c
  | Raise e => Raise e
  | Unmodelled => Unmodelled
  end.

(** [is_installed] *)
Definition is_installed (env : Env) (snapshot : option node) : outcome bool :=
  let ramdisk_file := "bsd.rd" in
  cmp (stat_in snapshot ramdisk_file)
      (match root_bsd_rd env with
       | Some x => Ret x
       | None => Raise FileNotFoundError
       end).

(** [shutil.move(src, dst)]: the node found at [dst] afterwards.  An
    existing directory receives the source under its own name, a missing
    destination is a rename (or a copy creating the parents), a regular
    file is replaced by a regular file only. *)
Definition shutil_move (src : option node) (src_name : string)
    (dst : option node) : outcome node :=
  match dst with
  | Some (Dir inside) =>
      if Fs.exists_ (Fs.entry src_name inside) then Raise ShutilError
      else match src with
           | Some x => Ret (Dir (inside ++ [(src_name, x)]))
           | None => Raise FileNotFoundError
           end
  | Some (File _ _) =>
      match src with
      | Some (File m data) => Ret (File m data)
      | Some (Dir _) => Raise FileExistsError
      | None => Raise FileNotFoundError
      end
  | None =>
      match src with
      | Some x => Ret x
      | None => Raise FileNotFoundError
      end
  end.

(** [move(subdirectories[from], subdirectories[to])] *)
Definition move_slot (from to : slot) : M unit :=
  let! sl := gets slots in
  match shutil_move (slot_of from sl) (slot_name from) (slot_of to sl) with
  | Ret x => modify (set_snaps (Some (with_slot to (Some x) (with_slot from None sl))))
  | Exit c => sys_exit c
  | Raise e => raise e
  | Unmodelled => unmodelled
  end.

(** [move(snapshot, snaps_subdirs[to])] for the staged snapshot *)
Definition move_staged (to : slot) : M unit :=
  let! stg := gets staging in
  let! sl := gets slots in
  let src := match stg with TempSnapshot d => Some (Dir d) | _ => None end in
  match shutil_move src "snapshot" (slot_of to sl) with
  | Ret x =>
      modify (fun st => set_staging TempEmpty
                          (set_snaps (Some (with_slot to (Some x) sl)) st))
  | Exit c => sys_exit c
  | Raise e => raise e
  | Unmodelled => unmodelled
  end.

(** [rmtree(snaps_subdirs[s])] *)
Definition rmtree_slot (s : slot) : M unit :=
  let! sl := gets slots in
  match slot_of s sl with
  | Some (Dir _) => modify (set_snaps (Some (with_slot s None sl)))
  | Some (File _ _) => raise NotADirectoryError
  | None => raise FileNotFoundError
  end.

(** [rotate] *)
Definition rotate : M unit :=
  let! sl := gets slots in
  let! _ := when (Fs.exists_ (previous sl)) (rmtree_slot Previous) in
  let! sl := gets slots in
  let! _ := when (Fs.exists_ (current sl)) (move_slot Current Previous) in
  move_slot Upgrade Current.

(** [notify] *)
Definition notify (env : Env) (header body urgency : string) : M unit :=
  when (has_notify_send env) (emit (NotifySend header body urgency)).

(** [mail] *)
Definition mail (subject body : string) : M unit :=
  emit (Mail subject body).

(** [feedback] *)
Definition feedback (env : Env) (args : Args) (title body urgency : string)
    : M unit :=
  let! _ := when (notify_opt args) (notify env title body urgency) in
  let! _ := when (mail_opt args) (mail title body) in
  when (negb (quiet args)) (emit (Stdout (body +:+ String PyStr.nl EmptyString))).

(** the components of a path as [pathlib] counts them: empty components
    and single dots are dropped *)
Definition path_parts (p : string) : list string :=
  List.filter (fun c => negb (String.eqb c "") && negb (String.eqb c "."))
              (PyStr.split PyStr.slash p).

(** [Path(args.path).expanduser()]: whether the working directory is
    given by an absolute path.  A path that starts with a slash is
    absolute; otherwise a first component that starts with a tilde is
    replaced by the home directory, and [RuntimeError] is raised when
    none is known. *)
Definition working_dir_absolute (env : Env) (args : Args) : outcome bool :=
  if PyStr.startswith "/" (path args) then Ret true
  else match path_parts (path args) with
       | first :: _ =>
           if PyStr.startswith "~" first then
             if PyStr.startswith "~" (home env first) then Raise RuntimeError
             else Ret (PyStr.startswith "/" (home env first))
           else Ret false
       | [] => Ret false
       end.

Definition anchored (env : Env) (args : Args) : bool :=
  match working_dir_absolute env args with
  | Ret true => true
  | _ => false
  end.

(** The slot paths [snaps_subdirs[s]] when they are used after [verify]
    has changed into the staged directory: an absolute working directory
    keeps them pointing at the slots; relative ones would be resolved
    inside the staged directory, and such a run is not followed. *)
Definition slot_paths (env : Env) (args : Args) : M unit :=
  if anchored env args then ret tt else unmodelled.

(** whether [with tempfile.TemporaryDirectory()] can create its
    directory and the run be followed: the default of the system always
    can; under the snapshots directory, that directory has to exist and
    its path to be absolute *)
Definition temporary_directory_usable (env : Env) (args : Args) (st : State) : bool :=
  negb (tempdir st) || (snapshots_dir_exists st && anchored env args).

(** [with tempfile.TemporaryDirectory() as tmp: body]: the directory is
    created where [tempfile.tempdir] says, and removed however the body
    ends.  Under a snapshots directory given by a relative path the
    directory gets a relative name, which stops naming it once [verify]
    has changed directory: such a run is not followed. *)
Definition with_temporary_directory {A} (env : Env) (args : Args) (body : M A) : M A :=
  fun st =>
    if tempdir st && negb (snapshots_dir_exists st) then (Raise FileNotFoundError, st)
    else if tempdir st && negb (anchored env args) then (Unmodelled, st)
    else
      let '(o, st') := body (set_staging TempEmpty st) in
      (o, set_staging NoTemp st').

(** the keys of [data], in the order [vars(args)] yields them *)
Inductive topic :=
| t_packages | t_changelog | t_errata | t_events
| t_current | t_innovations | t_hackathons.

Definition topics : list topic :=
  [t_packages; t_changelog; t_errata; t_events; t_current; t_innovations; t_hackathons].

Definition requested (args : Args) (k : topic) : bool :=
  match k with
  | t_packages => packages args
  | t_changelog => changelog args
  | t_errata => errata args
  | t_events => events args
  | t_current => current_opt args
  | t_innovations => innovations args
  | t_hackathons => hackathons args
  end.

Definition website_url : string := "https://www.openbsd.org/".

Definition snapshots_url (env : Env) (mirror_url : string) : string :=
  urljoin env mirror_url ("snapshots/" +:+ machine env +:+ "/").

Definition packages_url (env : Env) (mirror_url : string) : string :=
  urljoin env mirror_url ("snapshots/packages/" +:+ machine env +:+ "/").

Definition current_release (env : Env) : string :=
  PyStr.remove_char PyStr.dot (uname_release env).

(** [files_urls["snapshots"]] *)
Definition buildinfo_url (env : Env) (mirror_url : string) : string :=
  urljoin env (snapshots_url env mirror_url) "BUILDINFO".

(** [data[k]["url"]] *)
Definition topic_url (env : Env) (mirror_url : string) (k : topic) : string :=
  match k with
  | t_changelog => urljoin env mirror_url "Changelogs/ChangeLog"
  | t_packages => urljoin env (packages_url env mirror_url) "index.txt"
  | t_events => urljoin env website_url "events.html"
  | t_hackathons => urljoin env website_url "hackathons.html"
  | t_innovations => urljoin env website_url "innovations.html"
  | t_errata => urljoin env website_url ("errata" +:+ current_release env +:+ ".html")
  | t_current => urljoin env website_url "faq/current.html"
  end.

Definition topic_title (k : topic) : string :=
  match k with
  | t_errata => "New OpenBSD security patch."
  | t_changelog => "New OpenBSD CVS commits."
  | t_events => "New OpenBSD event."
  | t_current => "OpenBSD FAQ's following current update."
  | t_innovations => "New OpenBSD innovations."
  | t_hackathons => "OpenBSD hackathons update."
  | t_packages => "OpenBSD package set"
  end.

Definition topic_body (env : Env) (k : topic) : option string :=
  match k with
  | t_packages => Some ("New " +:+ machine env +:+ " package set available.")
  | _ => None
  end.

Definition topic_level (k : topic) : string :=
  match k with
  | t_changelog => "low"
  | t_current | t_packages => "critical"
  | _ => "normal"
  end.

(** Python truth of an optional string *)
Definition truthy (s : option string) : bool :=
  match s with
  | Some t => negb (String.eqb t "")
  | None => false
  end.

(** the mirror URL of [main], with its final slash *)
Definition resolve_mirror (env : Env) (args : Args) : M string :=
  let! mirror_url :=
    if truthy (mirror args) then ret (default "" (mirror args))
    else match installurl env with
         | Some text =>
             let mirror_url := PyStr.rstrip_space (PyStr.universal_newlines text) in
             if String.eqb mirror_url "" then
               let! _ := emit (Stderr "Your /etc/installurl file is empty.") in
               sys_exit (-2)
             else ret mirror_url
         | None =>
             let! _ := emit (Stderr "You do not have a /etc/installurl file.") in
             sys_exit (-2)
         end in
  ret (if PyStr.endswith "/" mirror_url then mirror_url else mirror_url +:+ "/").

(** the loop of [main] over every document but the snapshot's *)
Definition document_checks (env : Env) (args : Args) (mirror_url : string) : M unit :=
  for_each (List.filter (requested args) topics)
    (fun k =>
       let! (status, changes) := get_update_info env (topic_url env mirror_url k) in
       when (truthy changes)
         (feedback env args (topic_title k)
            (if truthy (topic_body env k) then default "" (topic_body env k)
             else default "" changes)
            (topic_level k))).

Definition upgrade_available (env : Env) (args : Args) : M unit :=
  feedback env args "OpenBSD Snapshot" "New Snapshot set available to upgrade." "critical".

(** acquisition and gate, as both pipelines start *)
Definition acquire_and_gate (env : Env) (cfg : SignifyCfg) (url : string) : M bool :=
  let! _ := download_snapshot env url (file cfg) in
  check_integrity env cfg url.

(** the body of [if status == "bootstrap":] *)
Definition bootstrap_pipeline (env : Env) (args : Args) (cfg : SignifyCfg)
    (url : string) : M unit :=
  with_temporary_directory env args
    (let! intact := acquire_and_gate env cfg url in
     when intact
       (let! stg := gets staging in
        let snapshot := match stg with TempSnapshot d => Some (Dir d) | _ => None end in
        let! installed := lift (is_installed env snapshot) in
        let! _ := slot_paths env args in
        if installed then move_staged Current
        else let! _ := move_staged Upgrade in upgrade_available env args)).

(** the body of [if status == "same":] *)
Definition same_pipeline (env : Env) : M unit :=
  let! sl := gets slots in
  when (Fs.exists_ (upgrade sl))
    (let! installed := lift (is_installed env (upgrade sl)) in
     when installed rotate).

(** the body of [if status == "new":] *)
Definition new_pipeline (env : Env) (args : Args) (cfg : SignifyCfg)
    (url : string) : M unit :=
  with_temporary_directory env args
    (let! intact := acquire_and_gate env cfg url in
     when intact
       (let! _ := slot_paths env args in
        let! sl := gets slots in
        let! _ :=
          if negb (Fs.exists_ (upgrade sl)) then move_staged Upgrade
          else let! _ := rmtree_slot Upgrade in move_staged Upgrade in
        upgrade_available env args)).

(** the three branches of [main] on the status of the snapshot document *)
Definition snapshot_pipeline (env : Env) (args : Args) (cfg : SignifyCfg)
    (url : string) (st : status) : M unit :=
  match st with
  | bootstrap => bootstrap_pipeline env args cfg url
  | same => same_pipeline env
  | new => new_pipeline env args cfg url
  end.

(** [if args.snapshot:] in [main]: the snapshot document is checked,
    [tempfile.tempdir] is set from [--no-temp], and the branch of the
    status is taken. *)
Definition snapshot_check (env : Env) (args : Args) (cfg : SignifyCfg)
    (mirror_url : string) : M unit :=
  let! (status, changes) := get_update_info env (buildinfo_url env mirror_url) in
  let! _ := modify (set_tempdir (no_temp args)) in
  snapshot_pipeline env args cfg (snapshots_url env mirror_url) status.

Definition main_signify : SignifyCfg :=
  {| key_dir := "/etc/signify/"; file := "SHA256.sig" |}.

(** [main], for a working directory that exists or can be created: the
    mirror, the working directory with its home directory expanded, the
    documents, the snapshot. *)
Definition main (env : Env) (args : Args) : M unit :=
  let! mirror_url := resolve_mirror env args in
  let! _ := lift (working_dir_absolute env args) in
  let! _ := document_checks env args mirror_url in
  when (snapshot_opt args) (snapshot_check env args main_signify mirror_url).

(** the state a process starts from: nothing staged, nothing happened,
    [tempfile.tempdir] not set *)
Definition at_start (cache : gmap string string) (sn : option Slots) : State :=
  {| docs := cache; snaps := sn; staging := NoTemp; trace := []; tempdir := false |}.

(** ** Statements of the specification *)

(** The verdict as the specification words it: the pass flag holds
    exactly when the tool exited with success and no member failed. *)
Definition verdict_as_claimed (exit_status : Z) (verdict : bool * list string) : Prop :=
  verdict.1 = true <-> (exit_status = 0 /\ verdict.2 = []).

(** Every substring enclosed in parentheses, as the specification words
    the manifest parse: each opening parenthesis starts a name that runs
    to the next closing one. *)
Fixpoint enclosed_from (inside : option string) (s : string) : list string :=
  match s with
  | EmptyString => []
  | String c rest =>
      match inside with
      | None =>
          if Ascii.eqb c PyStr.lparen then enclosed_from (Some EmptyString) rest
          else enclosed_from None rest
      | Some acc =>
          if Ascii.eqb c PyStr.rparen then acc :: enclosed_from None rest
          else if Ascii.eqb c PyStr.nl then enclosed_from None rest
          else enclosed_from (Some (acc +:+ String c EmptyString)) rest
      end
  end.

Definition parenthesized (text : string) : list string := enclosed_from None text.

Fixpoint occurrences (c : ascii) (s : string) : nat :=
  match s with
  | EmptyString => 0%nat
  | String d rest => ((if Ascii.eqb d c then 1 else 0) + occurrences c rest)%nat
  end.

(** the manifest format: a line describes one member, so it holds at
    most one opening and one closing parenthesis *)
Definition one_member_per_line (text : string) : Prop :=
  Forall (fun line => (occurrences PyStr.lparen line <= 1)%nat /\
                      (occurrences PyStr.rparen line <= 1)%nat)
         (PyStr.split PyStr.nl text).

(** The process outlives a failed fetch of a binary file, as the
    specification words it: [main] still returns. *)
Definition survives_failed_fetch (env : Env) (args : Args) (st : State) : Prop :=
  (exists u, In (Urlopen u false) (trace (main env args st).2)) ->
  (main env args st).1 = Ret tt.

(** ** Measures and predicates on runs *)

Definition is_signify (e : event) : bool :=
  match e with Signify _ => true | _ => false end.
Definition is_sleep (e : event) : bool :=
  match e with Sleep _ => true | _ => false end.

(** how many times the verifier was run, and how many cool-downs were
    waited, in a trace *)
Definition invocations (tr : list event) : nat := length (List.filter is_signify tr).
Definition cooldowns (tr : list event) : nat := length (List.filter is_sleep tr).

(** [m] runs the verifier at most [i] times and waits at most [c]
    cool-downs, from any state *)
Definition adds_at_most {A} (m : M A) (i c : nat) : Prop :=
  forall st,
    (invocations (trace (m st).2) <= invocations (trace st) + i)%nat /\
    (cooldowns (trace (m st).2) <= cooldowns (trace st) + c)%nat.

(** The staged directory after the members [names] were fetched again,
    one interaction each, starting at interaction number [t]. *)
Fixpoint refetched (env : Env) (url : string) (t : nat) (names : list string)
    (d : dirents) : dirents :=
  match names with
  | [] => d
  | g :: more =>
      refetched env url (S t) more
        (Fs.write g (File (clock env t) (default "" (urlopen env t (urljoin env url g)))) d)
  end.

(** the state after a run of fetches that all succeeded *)
Definition after_fetches (env : Env) (url : string) (names : list string)
    (d : dirents) (st : State) : State :=
  {| docs := docs st; snaps := snaps st;
     staging := TempSnapshot (refetched env url (length (trace st)) names d);
     trace := trace st ++ map (fun g => Urlopen (urljoin env url g) true) names;
     tempdir := tempdir st |}.

(** a member name the gate can fetch again into the directory [d] *)
Definition writable_in (d : dirents) (g : string) : Prop :=
  Fs.plain_name g = true /\ Fs.is_dir (Fs.entry g d) = false.

Definition option_list {A} (o : option A) : list A :=
  match o with Some a => [a] | None => [] end.

Fixpoint last_char (s : string) : option ascii :=
  match s with
  | EmptyString => None
  | String c EmptyString => Some c
  | String _ rest => last_char rest
  end.

Definition first_char (s : string) : option ascii :=
  match s with
  | EmptyString => None
  | String c _ => Some c
  end.

(** a character, if there is one, that does not occur in [chars] *)
Definition outside (chars : string) (c : option ascii) : Prop :=
  match c with
  | Some x => PyStr.mem x chars = false
  | None => True
  end.

(** [m] leaves the part [proj] of the state as it found it, however it
    ends *)
Definition preserves {A B} (proj : State -> B) (m : M A) : Prop :=
  forall st, proj (m st).2 = proj st.

Definition failed_fetch (e : event) : bool :=
  match e with Urlopen _ false => true | _ => false end.

(** a trace without failed fetch of a binary file *)
Definition clean (tr : list event) : Prop := existsb failed_fetch tr = false.

(** every event [m] records passes the filter [ok] *)
Definition emits_only {A} (ok : event -> bool) (m : M A) : Prop :=
  forall st, exists tr, trace (m st).2 = trace st ++ tr /\ forallb ok tr = true.

(** what a call of [get_binary] records: its request, and at most the
    report of an error *)
Definition request_or_report (e : event) : bool :=
  match e with
  | Urlopen _ _ | Stderr _ => true
  | _ => false
  end.

(** a request to the network that failed, for a document or a binary *)
Definition failed_network (e : event) : bool :=
  match e with
  | Urlopen _ false | GetDocument _ false => true
  | _ => false
  end.

Definition request_url (e : event) : string :=
  match e with
  | Urlopen url _ | GetDocument url _ => url
  | _ => EmptyString
  end.

(** how a call ended, whatever it would have returned *)
Inductive ending :=
| Returned
| Exited (code : Z)
| Raised (e : exn)
| Lost.

Definition ending_of {A} (o : outcome A) : ending :=
  match o with
  | Ret _ => Returned
  | Exit c => Exited c
  | Raise e => Raised e
  | Unmodelled => Lost
  end.

(** What follows a failed request [e] made at interaction [t]: for an
    error the script catches, its report on the standard error and exit
    status -2; for an error [urlopen] raises and nothing catches, that
    exception at once; for an error while the body is read, no return
    either, and at most one report. *)
Definition aftermath (env : Env) (t : nat) (e : event) (report : list event)
    (how : ending) : Prop :=
  match fails env t (request_url e) with
  | Reported message => report = [Stderr message] /\ how = Exited (-2)
  | Uncaught x => report = [] /\ how = Raised x
  | Interrupted x =>
      how <> Returned /\ (report = [] \/ exists message, report = [Stderr message])
  end.

(** [m] makes no request after one that failed: the first failed
    request is followed by its aftermath and nothing else *)
Definition ends_after_failure {A} (env : Env) (m : M A) : Prop :=
  forall st, exists tr,
    trace (m st).2 = trace st ++ tr /\
    (existsb failed_network tr = false \/
     exists tr0 e report,
       tr = tr0 ++ e :: report /\ failed_network e = true /\
       existsb failed_network tr0 = false /\
       aftermath env (length (trace st ++ tr0)) e report (ending_of (m st).1)).

(** member names that stay inside the staged directory *)
Definition plain_names (names : list string) : Prop :=
  Forall (fun f => Fs.plain_name f = true) names.

(** the checksum file served for [manifest_url] at interaction [t] lists
    plain file names only *)
Definition flat_manifest (env : Env) (t : nat) (manifest_url : string) : Prop :=
  forall body, urlopen env t manifest_url = Some body ->
    plain_names (PyStr.findall_parens (PyStr.universal_newlines body)).

(** the verifier reports plain file names only *)
Definition flat_reports (env : Env) : Prop :=
  forall t command d, plain_names (failed_members (getstatusoutput env t command d).2).

(** ** Sample surroundings *)

(** Surroundings with a given network and a given signify tool, a
    literal [urljoin] and nothing else of note. *)
Definition stub_env (net : nat -> string -> option string)
    (tool : nat -> string -> dirents -> Z * string) : Env :=
  {| urlopen := net;
     fetch_lines := fun _ _ => Some [];
     getstatusoutput := tool;
     context_diff := fun a b => if decide (a = b) then [] else ["*** previous"];
     urljoin := String.append;
     clock := fun t => Z.of_nat t;
     root_bsd_rd := Some (File 0 "kernel");
     installurl := Some "https://mirror.example/pub/OpenBSD";
     uname_release := "6.3";
     machine := "amd64";
     has_notify_send := false;
     fails := fun _ _ => Reported "<urlopen error timed out>";
     home := fun _ => "/home/user" |}.

(** the surroundings [env] with another [/bsd.rd] on the running system *)
Definition with_root (rd : option node) (env : Env) : Env :=
  {| urlopen := urlopen env; fetch_lines := fetch_lines env;
     getstatusoutput := getstatusoutput env; context_diff := context_diff env;
     urljoin := urljoin env; clock := clock env; root_bsd_rd := rd;
     installurl := installurl env; uname_release := uname_release env;
     machine := machine env; has_notify_send := has_notify_send env;
     fails := fails env; home := home env |}.

(** the surroundings [env] with another answer for every document *)
Definition with_document (lines : list string) (env : Env) : Env :=
  {| urlopen := urlopen env; fetch_lines := fun _ _ => Some lines;
     getstatusoutput := getstatusoutput env; context_diff := context_diff env;
     urljoin := urljoin env; clock := clock env; root_bsd_rd := root_bsd_rd env;
     installurl := installurl env; uname_release := uname_release env;
     machine := machine env; has_notify_send := has_notify_send env;
     fails := fails env; home := home env |}.

(** the surroundings [env] with another way for requests to fail *)
Definition with_failure (how : failure) (env : Env) : Env :=
  {| urlopen := urlopen env; fetch_lines := fetch_lines env;
     getstatusoutput := getstatusoutput env; context_diff := context_diff env;
     urljoin := urljoin env; clock := clock env; root_bsd_rd := root_bsd_rd env;
     installurl := installurl env; uname_release := uname_release env;
     machine := machine env; has_notify_send := has_notify_send env;
     fails := fun _ _ => how; home := home env |}.

Definition quiet_env : Env :=
  stub_env (fun _ _ => None) (fun _ _ _ => (0, EmptyString)).

(** a staged snapshot holding only its base archive *)
Definition staged_base : State :=
  {| docs := ∅; snaps := None;
     staging := TempSnapshot [("base63.tgz", File 0 "archive")];
     trace := []; tempdir := false |}.

(** the state in which [download_snapshot] is called: a fresh temporary
    directory *)
Definition fresh_tmp : State :=
  {| docs := ∅; snaps := None; staging := TempEmpty; trace := []; tempdir := false |}.

(** tool output naming the members [A] and [B] as failed *)
Definition two_failures : string :=
  "A: FAIL" +:+ String PyStr.nl "B: FAIL".

(** a network serving every request, a tool failing [A] and [B] on its
    first run and passing afterwards, and one that never passes *)
Definition passes_second : Env :=
  stub_env (fun _ _ => Some "fresh")
    (fun t _ _ => if (t =? 0)%nat then (1, two_failures) else (0, EmptyString)).
Definition never_passes : Env :=
  stub_env (fun _ _ => Some "fresh") (fun _ _ _ => (1, two_failures)).

(** a network serving [manifest] as the checksum file and some bytes for
    every other request *)
Definition manifest_env (manifest : string) : Env :=
  stub_env (fun _ url => if PyStr.endswith "SHA256.sig" url then Some manifest
                         else Some "member")
           (fun _ _ _ => (0, EmptyString)).

(** a manifest in the format of the mirror, naming [bsd.rd] twice *)
Definition sample_manifest : string :=
  "untrusted comment: verify with openbsd-63-base.pub" +:+ String PyStr.nl
  ("SHA256 (base63.tgz) = ab" +:+ String PyStr.nl
  ("SHA256 (bsd.rd) = cd" +:+ String PyStr.nl
  ("SHA256 (bsd.rd) = cd" +:+ String PyStr.nl EmptyString))).

(** a mirror caught in the middle of a sync: everything can be fetched,
    but [bsd.rd] fails its checksum on every verification *)
Definition mirror_in_sync : Env :=
  stub_env (fun _ url => if PyStr.endswith "SHA256.sig" url then Some sample_manifest
                         else Some "member")
           (fun _ _ _ => (1, "bsd.rd: FAIL")).

(** a previous upgrade waiting in its slot *)
Definition waiting_upgrade : Slots :=
  {| previous := None;
     current := Some (Dir [("bsd.rd", File 1 "kernel-1")]);
     upgrade := Some (Dir [("bsd.rd", File 2 "kernel-2")]) |}.

(** the cache of a host that saw an earlier snapshot *)
Definition earlier_build : gmap string string :=
  {[ "BUILDINFO" := "Build date: 1" ]}.

(** [-S] alone on the command line *)
Definition snapshot_only : Args :=
  {| quiet := false; mail_opt := false; notify_opt := false; no_temp := false;
     snapshot_opt := true; packages := false; changelog := false; errata := false;
     events := false; current_opt := false; innovations := false;
     hackathons := false; mirror := Some "m/"; path := "/home/user/obsd" |}.

(** [-s -S] on the command line: the errata page and the snapshot *)
Definition errata_and_snapshot : Args :=
  {| quiet := false; mail_opt := false; notify_opt := false; no_temp := false;
     snapshot_opt := true; packages := false; changelog := false; errata := true;
     events := false; current_opt := false; innovations := false;
     hackathons := false; mirror := Some "m/"; path := "/home/user/obsd" |}.

(** a mirror whose snapshot verifies, announcing a new build *)
Definition sound_mirror : Env :=
  with_document ["Build date: 2"] (manifest_env sample_manifest).

(** [-S -t] on the command line: the temporary directory goes under the
    snapshots directory *)
Definition snapshot_no_temp : Args :=
  {| quiet := false; mail_opt := false; notify_opt := false; no_temp := true;
     snapshot_opt := true; packages := false; changelog := false; errata := false;
     events := false; current_opt := false; innovations := false;
     hackathons := false; mirror := Some "m/"; path := "/home/user/obsd" |}.

(** a checksum file whose second member climbs out of the temporary
    directory into the upgrade slot *)
Definition manifest_into_slot : string :=
  "SHA256 (base63.tgz) = ab" +:+ String PyStr.nl
  ("SHA256 (../../upgrade/bsd.rd) = cd" +:+ String PyStr.nl EmptyString).

(** a checksum file whose second member climbs out of the temporary
    directory onto the cached snapshot document *)
Definition manifest_onto_cache : string :=
  "SHA256 (base63.tgz) = ab" +:+ String PyStr.nl
  ("SHA256 (../../../BUILDINFO) = cd" +:+ String PyStr.nl EmptyString).

(** a mirror serving [manifest] and announcing a new build, with a
    verifier that rejects the snapshot without naming a member *)
Definition rejecting_mirror (manifest : string) : Env :=
  with_document ["Build date: 2"]
    (stub_env (fun _ url => if PyStr.endswith "SHA256.sig" url then Some manifest
                            else Some "member")
              (fun _ _ _ => (1, "signify: verification failed"))).

(** ** Further measures on runs *)

(** work on a snapshot: a fetch of a binary, a run of the verifier, a
    cool-down *)
Definition snapshot_work (e : event) : bool :=
  match e with
  | Urlopen _ _ | Signify _ | Sleep _ => true
  | _ => false
  end.

(** the messages the command line allows: standard output unless
    [--quiet], mail with [--mail], a popup with [--notify] when
    [notify-send] is installed *)
Definition allowed (env : Env) (args : Args) (e : event) : bool :=
  match e with
  | Stdout _ => negb (quiet args)
  | Mail _ _ => mail_opt args
  | NotifySend _ _ _ => notify_opt args && has_notify_send env
  | _ => true
  end.

(** a message to the user, through any sink *)
Definition is_feedback (e : event) : bool :=
  match e with
  | Stdout _ | Mail _ _ | NotifySend _ _ _ => true
  | _ => false
  end.

Fixpoint all_space (s : string) : bool :=
  match s with
  | EmptyString => true
  | String c rest => PyStr.isspace c && all_space rest
  end.

(** [-s -l] on the command line: two documents, no snapshot *)
Definition documents_only : Args :=
  {| quiet := false; mail_opt := false; notify_opt := false; no_temp := false;
     snapshot_opt := false; packages := false; changelog := true; errata := true;
     events := false; current_opt := false; innovations := false;
     hackathons := false; mirror := Some "m/"; path := "/home/user/obsd" |}.

(** a network that answers the first [n] interactions for documents and
    fails afterwards *)
Definition down_after (n : nat) : Env :=
  {| urlopen := fun _ _ => Some "member";
     fetch_lines := fun t _ => if (t <? n)%nat then Some [] else None;
     getstatusoutput := fun _ _ _ => (0, EmptyString);
     context_diff := fun a b => if decide (a = b) then [] else ["*** previous"];
     urljoin := String.append;
     clock := fun t => Z.of_nat t;
     root_bsd_rd := Some (File 0 "kernel");
     installurl := None;
     uname_release := "6.3";
     machine := "amd64";
     has_notify_send := false;
     fails := fun _ _ => Reported "<urlopen error timed out>";
     home := fun _ => "/home/user" |}.

Definition is_document_failure (e : event) : bool :=
  match e with GetDocument _ false => true | _ => false end.

Definition is_digit (c : ascii) : bool :=
  let n := nat_of_ascii c in (48 <=? n)%nat && (n <=? 57)%nat.

Fixpoint all_digits (s : string) : bool :=
  match s with
  | EmptyString => true
  | String c rest => is_digit c && all_digits rest
  end.

(** the mirror URL with the final slash [main] gives it *)
Definition with_final_slash (base : string) : string :=
  if PyStr.endswith "/" base then base else base +:+ "/".

(** the command line [-S] without [--mirror] *)
Definition no_mirror_option : Args :=
  {| quiet := false; mail_opt := false; notify_opt := false; no_temp := false;
     snapshot_opt := true; packages := false; changelog := false; errata := true;
     events := false; current_opt := false; innovations := false;
     hackathons := false; mirror := None; path := "/home/user/obsd" |}.

(** the surroundings [env] with another [/etc/installurl] *)
Definition with_installurl (text : option string) (env : Env) : Env :=
  {| urlopen := urlopen env; fetch_lines := fetch_lines env;
     getstatusoutput := getstatusoutput env; context_diff := context_diff env;
     urljoin := urljoin env; clock := clock env; root_bsd_rd := root_bsd_rd env;
     installurl := text; uname_release := uname_release env;
     machine := machine env; has_notify_send := has_notify_send env;
     fails := fails env; home := home env |}.

(** a slot that can take the staged snapshot through [shutil.move]: it
    is empty, or it holds a directory without an entry [snapshot] *)
Definition receives (old : option node) : Prop :=
  match old with
  | None => True
  | Some (Dir inside) => Fs.entry "snapshot" inside = None
  | Some (File _ _) => False
  end.

(** what such a slot holds once the staged directory [d] was moved to
    it: [d] itself, or the old directory with [d] inside *)
Definition received (old : option node) (d : dirents) : node :=
  match old with
  | Some (Dir inside) => Dir (inside ++ [("snapshot", Dir d)])
  | _ => Dir d
  end.

(** a node that is not a regular file *)
Definition not_a_file (x : option node) : Prop :=
  match x with
  | Some (File _ _) => False
  | _ => True
  end.

(** the directory a run has staged, if any *)
Definition staged (st : State) : dirents :=
  match staging st with
  | TempSnapshot d => d
  | _ => []
  end.

(** ** Formats *)

(** a line of text as the documents are cached: characters other than
    line feed and carriage return, closed by one line feed *)
Fixpoint lf_line (l : string) : bool :=
  match l with
  | EmptyString => false
  | String c EmptyString => Ascii.eqb c PyStr.nl
  | String c rest =>
      negb (Ascii.eqb c PyStr.nl) && negb (Ascii.eqb c PyStr.cr) && lf_line rest
  end.

(** lines joined by line feeds, without a final one *)
Fixpoint join_nl (parts : list string) : string :=
  match parts with
  | [] => EmptyString
  | [p] => p
  | p :: rest => p +:+ String PyStr.nl (join_nl rest)
  end.

(** the line signify prints for a member: its name, a colon and the
    result *)
Definition report_line (r : string * bool) : string :=
  r.1 +:+ (if r.2 then ": OK" else ": FAIL").

(** the output of a signify check of the listed members *)
Definition signify_report (results : list (string * bool)) : string :=
  join_nl (map report_line results).

(** the line of the checksum file for a member and its digest *)
Definition member_line (m : string * string) : string :=
  "SHA256 (" +:+ m.1 +:+ ") = " +:+ m.2.

(** a signed checksum file: the lines of the signature, one line per
    member, and the final line feed *)
Definition manifest_text (header : list string) (members : list (string * string)) : string :=
  join_nl (header ++ map member_line members ++ [EmptyString]).

(** a mirror that serves the checksum file and its first member and
    then fails *)
Definition fails_from (n : nat) : Env :=
  stub_env (fun t url => if (t <? n)%nat
                         then (if PyStr.endswith "SHA256.sig" url then Some sample_manifest
                               else Some "member")
                         else None)
           (fun _ _ _ => (0, EmptyString)).

(** a checksum file that lists the boot image only *)
Definition manifest_without_base : string :=
  "SHA256 (bsd.rd) = cd" +:+ String PyStr.nl EmptyString.

(** the name under which the document of a topic is cached *)
Definition topic_cache_name (env : Env) (mirror_url : string) (k : topic) : string :=
  PyStr.last_field PyStr.slash (topic_url env mirror_url k).

(** every document on the command line, no snapshot *)
Definition every_document : Args :=
  {| quiet := false; mail_opt := true; notify_opt := false; no_temp := false;
     snapshot_opt := false; packages := true; changelog := true; errata := true;
     events := true; current_opt := true; innovations := true;
     hackathons := true; mirror := Some "m/"; path := "/home/user/obsd" |}.

(** a page served with carriage-return line endings *)
Definition crlf_page : list string :=
  [String "a" (String PyStr.cr (String PyStr.nl EmptyString))].

(** * Properties *)

Ltac run :=
  unfold bind, ret, gets, tick, emit, modify, raise, sys_exit, unmodelled,
    lift, when; cbn.

(** ** Filters on what a run records *)

Lemma emits_only_bind {A B} ok (m : M A) (k : A -> M B) :
  emits_only ok m -> (forall a, emits_only ok (k a)) -> emits_only ok (bind m k).
Proof.
  intros Hm Hk st. unfold bind. destruct (Hm st) as (tr1 & H1 & Hc1).
  destruct (m st) as [[a| | |] st1]; cbn [snd] in *; try solve [exists tr1; auto].
  specialize (Hk a). destruct (Hk st1) as (tr2 & H2 & Hc2).
  exists (tr1 ++ tr2). rewrite H2, H1, app_assoc. split; [reflexivity|].
  rewrite forallb_app, Hc1, Hc2. reflexivity.
Qed.

Lemma emits_only_for_each {A} ok (xs : list A) (body : A -> M unit) :
  (forall x, emits_only ok (body x)) -> emits_only ok (for_each xs body).
Proof.
  intros Hb. induction xs as [|x xs IH].
  - intros st. exists []. rewrite app_nil_r. split; reflexivity.
  - cbn [for_each]. apply emits_only_bind; [apply Hb | intros _; exact IH].
Qed.

Lemma emits_only_still {A} ok (m : M A) :
  (forall st, trace (m st).2 = trace st) -> emits_only ok m.
Proof. intros H st. exists []. rewrite app_nil_r. split; [apply H | reflexivity]. Qed.

Lemma emits_only_emit ok e : ok e = true -> emits_only ok (emit e).
Proof. intros H st. exists [e]. split; [reflexivity|]. cbn. rewrite H. reflexivity. Qed.

Lemma emits_only_with_temporary_directory {A} ok env args (body : M A) :
  emits_only ok body -> emits_only ok (with_temporary_directory env args body).
Proof.
  intros Hb st. unfold with_temporary_directory.
  destruct (tempdir st && negb (snapshots_dir_exists st));
    [exists []; rewrite app_nil_r; split; reflexivity|].
  destruct (tempdir st && negb (anchored env args));
    [exists []; rewrite app_nil_r; split; reflexivity|].
  destruct (Hb (set_staging TempEmpty st)) as (tr & H & Hc).
  destruct (body (set_staging TempEmpty st)) as [o st1]. exists tr. split; [exact H | exact Hc].
Qed.

Lemma emits_only_not_in {A} ok (m : M A) st e :
  emits_only ok m -> ok e = false -> In e (trace (m st).2) -> In e (trace st).
Proof.
  intros Hm He Hin. destruct (Hm st) as (tr & Htr & Hall).
  rewrite Htr in Hin. apply in_app_or in Hin as [Hin|Hin]; [exact Hin|].
  rewrite forallb_forall in Hall. rewrite (Hall e Hin) in He. discriminate.
Qed.

Create HintDb filtered.

Ltac filtered :=
  repeat first
    [ solve [ eauto with filtered ]
    | apply emits_only_bind
    | apply emits_only_for_each
    | apply emits_only_with_temporary_directory
    | progress intros
    | progress cbv zeta
    | match goal with
      | |- emits_only _ (match ?x with _ => _ end) => destruct x
      | |- emits_only _ (let '(_, _) := ?x in _) => destruct x
      | |- emits_only _ (when ?c _) => unfold when; destruct c
      end
    | solve [ apply emits_only_emit; reflexivity ]
    | solve [ apply emits_only_still; let st := fresh "st" in intros st; reflexivity ] ].

Ltac open_main :=
  unfold main, snapshot_check, snapshot_pipeline, bootstrap_pipeline, same_pipeline,
    new_pipeline, acquire_and_gate, upgrade_available, document_checks,
    resolve_mirror, download_snapshot, read_text, check_integrity, verify,
    get_update_info, get_document, get_binary, open_write, slot_paths, rotate,
    move_staged, move_slot, rmtree_slot.

Lemma split_whole sep l : PyStr.mem sep l = false -> PyStr.split sep l = [l].
Proof.
  induction l as [|c l IH]; [reflexivity|].
  cbn [PyStr.mem PyStr.split]. intros H. apply orb_false_iff in H as [Hc Hl].
  rewrite Ascii.eqb_sym, Hc, (IH Hl). reflexivity.
Qed.


(** ** The verifier *)

Lemma verify_runs env cfg filename st d base rest :
  staging st = TempSnapshot d ->
  glob_base d = base :: rest ->
  verify env cfg filename st =
    (let command := signify_command cfg (snapshot_release base) filename in
     let status := getstatusoutput env (length (trace st)) command d in
     (Ret (status.1 =? 0, failed_members status.2), add_event (Signify command) st)).
Proof.
  intros Hs Hg. unfold verify. run. rewrite Hs, Hg. reflexivity.
Qed.

Lemma verify_returns env cfg filename st v st' :
  verify env cfg filename st = (Ret v, st') ->
  exists d base rest,
    staging st = TempSnapshot d /\ glob_base d = base :: rest /\
    let command := signify_command cfg (snapshot_release base) filename in
    let status := getstatusoutput env (length (trace st)) command d in
    v = (status.1 =? 0, failed_members status.2) /\
    st' = add_event (Signify command) st.
Proof.
  unfold verify. run. destruct (staging st) eqn:Hs; try discriminate.
  destruct (glob_base d) as [|base rest] eqn:Hg; try discriminate.
  cbn. intros [= <- <-]. exists d, base, rest. auto.
Qed.

(** Without a base archive in the snapshot, the list index fails and the
    exception is not caught. *)
Lemma verify_without_base_archive env cfg filename st d :
  staging st = TempSnapshot d ->
  glob_base d = [] ->
  verify env cfg filename st = (Raise IndexError, st).
Proof.
  intros Hs Hg. unfold verify. run. rewrite Hs, Hg. reflexivity.
Qed.

(** *** The release token *)

Lemma rstrip_suffix chars suffix s :
  PyStr.rstrip chars suffix = EmptyString ->
  s <> EmptyString ->
  outside chars (last_char s) ->
  PyStr.rstrip chars (s +:+ suffix) = s.
Proof.
  intros Hsuf. induction s as [|c s IH]; intros Hne Hlast; [contradiction|].
  change (String c s +:+ suffix) with (String c (s +:+ suffix)).
  cbn [PyStr.rstrip]. destruct s as [|c' s'].
  - change (EmptyString +:+ suffix) with suffix. rewrite Hsuf.
    cbn in Hlast. rewrite Hlast. reflexivity.
  - rewrite IH; [reflexivity | discriminate | exact Hlast].
Qed.

Lemma last_char_app_nonempty s t :
  t <> EmptyString -> last_char (s +:+ t) = last_char t.
Proof.
  intros Ht. induction s as [|c s IH]; [reflexivity|].
  change (String c s +:+ t) with (String c (s +:+ t)).
  cbn [last_char]. destruct (s +:+ t) eqn:Hst; [|exact IH].
  destruct s; [cbn in Hst; contradiction | discriminate].
Qed.

(** Where the two strips do give the token: the token does not start
    with one of the letters of [base] and does not end with one of the
    characters of [.tgz]. *)
Lemma snapshot_release_of_safe_token token :
  outside "base" (first_char token) ->
  outside ".tgz" (last_char token) ->
  snapshot_release ("base" +:+ token +:+ ".tgz") = token.
Proof.
  intros Hfirst Hlast. unfold snapshot_release.
  replace ("base" +:+ token +:+ ".tgz") with (("base" +:+ token) +:+ ".tgz")
    by reflexivity.
  rewrite rstrip_suffix.
  - destruct token as [|c token]; [reflexivity|].
    unfold outside, first_char in Hfirst.
    change (PyStr.lstrip "base" ("base" +:+ String c token)) with
      (if PyStr.mem c "base" then PyStr.lstrip "base" token else String c token).
    rewrite Hfirst. reflexivity.
  - reflexivity.
  - discriminate.
  - destruct token as [|c token]; [reflexivity|].
    rewrite last_char_app_nonempty by discriminate. exact Hlast.
Qed.

Example snapshot_release_63 : snapshot_release "base63.tgz" = "63".
Proof. reflexivity. Qed.

(** C8: the two strips remove sets of characters, not the prefix and
    the suffix: for the base archive [base-current.tgz] the token handed
    to the key path is [-curren], not [-current]. *)
Theorem snapshot_release_eats_token_characters :
  snapshot_release "base-current.tgz" = "-curren" /\
  signify_key main_signify (snapshot_release "base-current.tgz") =
    "/etc/signify/openbsd--curren-base.pub" /\
  PyStr.matches_base_tgz "base-current.tgz" = true.
Proof. repeat split. Qed.

(** C1, as stated, fails: the tool exits with status 0 while its output
    names [bsd.rd] on a line ending in FAIL, and [verify] still returns a
    true pass flag next to the non-empty list of failed members. *)
Lemma verify_passes_despite_fail_line :
  let env := stub_env (fun _ _ => None) (fun _ _ _ => (0, "bsd.rd: FAIL")) in
  exists st',
    verify env main_signify "" staged_base = (Ret (true, ["bsd.rd"]), st') /\
    ~ verdict_as_claimed 0 (true, ["bsd.rd"]).
Proof.
  cbn zeta. eexists. split; [vm_compute; reflexivity|].
  unfold verdict_as_claimed. cbn. intros [H _]. destruct (H eq_refl) as [_ H']. discriminate.
Qed.

(** C1, amended: on a snapshot with a base archive, [verify] returns,
    its pass flag is true exactly when the exit status of the tool is 0,
    whatever the output says, and its failed members are the names before
    the first colon of the output lines ending in FAIL, in output order. *)
Theorem verify_pass_is_exit_status env cfg filename st d base rest :
  staging st = TempSnapshot d ->
  glob_base d = base :: rest ->
  let status :=
    getstatusoutput env (length (trace st))
      (signify_command cfg (snapshot_release base) filename) d in
  exists whole st',
    verify env cfg filename st = (Ret (whole, failed_members status.2), st') /\
    (whole = true <-> status.1 = 0).
Proof.
  intros Hs Hg status. eexists _, _. split.
  - rewrite (verify_runs _ _ _ _ _ _ _ Hs Hg). reflexivity.
  - cbn. apply Z.eqb_eq.
Qed.

Lemma verify_pass_is_exit_status_witness :
  let env := stub_env (fun _ _ => None) (fun _ _ _ => (0, "bsd.rd: FAIL")) in
  exists whole st',
    verify env main_signify "" staged_base = (Ret (whole, ["bsd.rd"]), st') /\
    (whole = true <-> 0 = 0).
Proof.
  exact (verify_pass_is_exit_status
           (stub_env (fun _ _ => None) (fun _ _ _ => (0, "bsd.rd: FAIL")))
           main_signify "" staged_base
           [("base63.tgz", File 0 "archive")] "base63.tgz" [] eq_refl eq_refl).
Defined.

(** ** The integrity gate *)

(** C10: when the first verification names no failed member, the gate
    returns its pass flag at once: one verifier run, no cool-down, no
    fetch, the staged files untouched; the flag may well be false. *)
Theorem check_integrity_without_failed_members env cfg url st whole st1 :
  verify env cfg "" st = (Ret (whole, []), st1) ->
  check_integrity env cfg url st = (Ret whole, st1) /\
  (exists command, trace st1 = trace st ++ [Signify command]) /\
  staging st1 = staging st.
Proof.
  intros Hv. split.
  - unfold check_integrity, bind. rewrite Hv. reflexivity.
  - apply verify_returns in Hv as (d & base & rest & Hs & Hg & Hv & ->).
    split; [eexists; reflexivity | reflexivity].
Qed.

Lemma check_integrity_without_failed_members_witness :
  let env := stub_env (fun _ _ => None) (fun _ _ _ => (1, "signify: verification failed")) in
  let st1 := add_event (Signify "signify -Cp /etc/signify/openbsd-63-base.pub -x SHA256.sig ") staged_base in
  check_integrity env main_signify "https://mirror.example/" staged_base = (Ret false, st1) /\
  (exists command, trace st1 = trace staged_base ++ [Signify command]) /\
  staging st1 = staging staged_base.
Proof.
  exact (check_integrity_without_failed_members
           (stub_env (fun _ _ => None) (fun _ _ _ => (1, "signify: verification failed")))
           main_signify "https://mirror.example/" staged_base false _ eq_refl).
Defined.

(** *** Fetching into the staged snapshot *)

Lemma entry_write g n x d :
  Fs.entry g (Fs.write n x d) = if String.eqb n g then Some x else Fs.entry g d.
Proof.
  induction d as [|[m y] d IH]; cbn.
  - destruct (String.eqb n g); reflexivity.
  - destruct (String.eqb m n) eqn:Hmn; cbn.
    + apply String.eqb_eq in Hmn as ->. destruct (String.eqb n g); reflexivity.
    + destruct (String.eqb m g) eqn:Hmg.
      * apply String.eqb_eq in Hmg as ->. rewrite String.eqb_sym, Hmn. reflexivity.
      * exact IH.
Qed.

Lemma writable_after_write d n m data g :
  writable_in d g -> writable_in (Fs.write n (File m data) d) g.
Proof.
  intros [Hp Hd]. split; [exact Hp|].
  rewrite entry_write. destruct (String.eqb n g); [reflexivity | exact Hd].
Qed.

Lemma glob_base_write d n x base rest :
  glob_base d = base :: rest ->
  exists rest', glob_base (Fs.write n x d) = base :: rest'.
Proof.
  unfold glob_base, Fs.names. revert base rest.
  induction d as [|[m y] d IH]; cbn; intros base rest H; [discriminate|].
  destruct (String.eqb m n); cbn.
  - eexists. exact H.
  - destruct (PyStr.matches_base_tgz m).
    + injection H as <- _. eexists. reflexivity.
    + eapply IH. exact H.
Qed.

Lemma glob_base_refetched env url names : forall t d base rest,
  glob_base d = base :: rest ->
  exists rest', glob_base (refetched env url t names d) = base :: rest'.
Proof.
  induction names as [|g names IH]; cbn; intros t d base rest H.
  - eauto.
  - destruct (glob_base_write d g (File (clock env t) (default "" (urlopen env t (urljoin env url g)))) _ _ H)
      as [rest' H'].
    eapply IH. exact H'.
Qed.

(** a plain name holds neither separator nor NUL, and leads into the
    staged directory wherever the temporary directory lies *)
Lemma plain_name_chars f :
  Fs.plain_name f = true ->
  PyStr.mem PyStr.slash f = false /\ PyStr.mem "000"%char f = false.
Proof.
  unfold Fs.plain_name. intros H.
  apply andb_true_iff in H as [H Hnul]. apply andb_true_iff in H as [_ Hslash].
  apply negb_true_iff in Hnul, Hslash. auto.
Qed.

Lemma locate_plain in_snaps f :
  Fs.plain_name f = true -> locate in_snaps f = Member f.
Proof.
  intros Hp. destruct (plain_name_chars f Hp) as [Hs _].
  unfold locate. rewrite (split_whole _ _ Hs), Hp. reflexivity.
Qed.

Lemma open_write_member f mtime data st d :
  staging st = TempSnapshot d ->
  writable_in d f ->
  open_write f mtime data st =
    (Ret tt, set_staging (TempSnapshot (Fs.write f (File mtime data) d)) st).
Proof.
  intros Hs [Hp Hd]. destruct (plain_name_chars f Hp) as [_ Hnul].
  unfold open_write. rewrite Hnul. run. rewrite Hs. cbn.
  rewrite (locate_plain _ _ Hp).
  destruct (Fs.entry f d) as [[|]|]; try discriminate; reflexivity.
Qed.

Lemma get_binary_fails env url f st message :
  urlopen env (length (trace st)) url = None ->
  fails env (length (trace st)) url = Reported message ->
  get_binary env url f st =
    (Exit (-2), add_event (Stderr message) (add_event (Urlopen url false) st)).
Proof. intros H Hf. unfold get_binary. run. rewrite H. cbn. rewrite Hf. reflexivity. Qed.

Lemma get_binary_writes env url f st d body :
  urlopen env (length (trace st)) url = Some body ->
  staging st = TempSnapshot d ->
  writable_in d f ->
  get_binary env url f st =
    (Ret tt,
     set_staging (TempSnapshot (Fs.write f (File (clock env (length (trace st))) body) d))
       (add_event (Urlopen url true) st)).
Proof.
  intros H Hs Hw. unfold get_binary, bind, tick, emit. rewrite H.
  rewrite (open_write_member f _ body (add_event (Urlopen url true) st) d Hs Hw).
  reflexivity.
Qed.

Lemma open_write_records f mtime data :
  emits_only request_or_report (open_write f mtime data).
Proof. unfold open_write. filtered. Qed.
#[local] Hint Resolve open_write_records : filtered.

Lemma get_binary_records env url f : emits_only request_or_report (get_binary env url f).
Proof. unfold get_binary. filtered. Qed.

Lemma for_each_fetches env url names : forall st d,
  staging st = TempSnapshot d ->
  Forall (writable_in d) names ->
  (forall i g, names !! i = Some g ->
     urlopen env (length (trace st) + i) (urljoin env url g) <> None) ->
  for_each names (fun f => get_binary env (urljoin env url f) f) st =
    (Ret tt, after_fetches env url names d st).
Proof.
  induction names as [|g names IH]; intros st d Hs Hw Hnet.
  - cbn. unfold ret, after_fetches. cbn. rewrite app_nil_r, <- Hs. destruct st; reflexivity.
  - cbn [for_each]. unfold bind.
    destruct (urlopen env (length (trace st)) (urljoin env url g)) as [body|] eqn:Hb.
    2:{ exfalso. apply (Hnet 0%nat g eq_refl). rewrite Nat.add_0_r. exact Hb. }
    inversion Hw as [|? ? Hg Hw']; subst.
    rewrite (get_binary_writes _ _ _ _ _ _ Hb Hs Hg).
    rewrite (IH _ (Fs.write g (File (clock env (length (trace st))) body) d)).
    + unfold after_fetches. cbn. rewrite length_app. cbn.
      rewrite Hb. cbn. rewrite Nat.add_1_r, <- app_assoc. reflexivity.
    + reflexivity.
    + eapply Forall_impl; [exact Hw'|]. intros x. apply writable_after_write.
    + intros i x Hx. cbn. rewrite length_app. cbn.
      replace (length (trace st) + 1 + i)%nat with (length (trace st) + S i)%nat by lia.
      apply Hnet. exact Hx.
Qed.

(** *** Counting verifier runs and cool-downs *)

Arguments invocations : simpl never.
Arguments cooldowns : simpl never.

Lemma invocations_app tr1 tr2 :
  invocations (tr1 ++ tr2) = (invocations tr1 + invocations tr2)%nat.
Proof. unfold invocations. rewrite List.filter_app, length_app. reflexivity. Qed.

Lemma cooldowns_app tr1 tr2 :
  cooldowns (tr1 ++ tr2) = (cooldowns tr1 + cooldowns tr2)%nat.
Proof. unfold cooldowns. rewrite List.filter_app, length_app. reflexivity. Qed.

Lemma invocations_cons e tr :
  invocations (e :: tr) = ((if is_signify e then 1 else 0) + invocations tr)%nat.
Proof. unfold invocations. cbn. destruct (is_signify e); reflexivity. Qed.

Lemma cooldowns_cons e tr :
  cooldowns (e :: tr) = ((if is_sleep e then 1 else 0) + cooldowns tr)%nat.
Proof. unfold cooldowns. cbn. destruct (is_sleep e); reflexivity. Qed.

Lemma invocations_nil : invocations [] = 0%nat.
Proof. reflexivity. Qed.

Lemma cooldowns_nil : cooldowns [] = 0%nat.
Proof. reflexivity. Qed.

Ltac count :=
  cbn [trace add_event set_staging set_snaps set_docs fst snd] in *;
  rewrite ?invocations_app, ?cooldowns_app, ?invocations_cons, ?cooldowns_cons,
    ?invocations_nil, ?cooldowns_nil in *;
  cbn [is_signify is_sleep] in *.

Lemma fetches_count_nothing (names : list string) (h : string -> string) :
  invocations (map (fun g => Urlopen (h g) true) names) = 0%nat /\
  cooldowns (map (fun g => Urlopen (h g) true) names) = 0%nat.
Proof.
  induction names as [|g names [IH1 IH2]]; [split; reflexivity|].
  cbn [map]. count. rewrite IH1, IH2. split; reflexivity.
Qed.

Lemma requests_count_nothing tr :
  forallb request_or_report tr = true ->
  invocations tr = 0%nat /\ cooldowns tr = 0%nat.
Proof.
  induction tr as [|e tr IH]; [split; reflexivity|].
  cbn [forallb]. intros H. apply andb_true_iff in H as [He H].
  destruct (IH H) as [IH1 IH2]. count. rewrite IH1, IH2.
  destruct e; try discriminate He; split; reflexivity.
Qed.

Lemma get_binary_counts env url f st :
  invocations (trace (get_binary env url f st).2) = invocations (trace st) /\
  cooldowns (trace (get_binary env url f st).2) = cooldowns (trace st).
Proof.
  destruct (get_binary_records env url f st) as (tr & -> & Hall).
  destruct (requests_count_nothing tr Hall) as [Hi Hc]. count. lia.
Qed.

Lemma for_each_fetch_counts env url names : forall st,
  let st' := (for_each names (fun f => get_binary env (urljoin env url f) f) st).2 in
  invocations (trace st') = invocations (trace st) /\
  cooldowns (trace st') = cooldowns (trace st).
Proof.
  induction names as [|g names IH]; intros st; cbn; [auto|].
  unfold bind.
  pose proof (get_binary_counts env (urljoin env url g) g st) as Hc.
  destruct (get_binary env (urljoin env url g) g st) as [[[]| | |] st1]; cbn in *; try exact Hc.
  specialize (IH st1). cbn in IH. destruct IH, Hc. split; congruence.
Qed.

Lemma adds_weaken {A} (m : M A) i c i' c' :
  adds_at_most m i c -> (i <= i')%nat -> (c <= c')%nat -> adds_at_most m i' c'.
Proof. intros H Hi Hc st. destruct (H st). lia. Qed.

Lemma adds_ret {A} (a : A) : adds_at_most (ret a) 0 0.
Proof. intros st. cbn. lia. Qed.

Lemma adds_bind {A B} (m : M A) (k : A -> M B) i1 c1 i2 c2 :
  adds_at_most m i1 c1 -> (forall a, adds_at_most (k a) i2 c2) ->
  adds_at_most (bind m k) (i1 + i2) (c1 + c2).
Proof.
  intros Hm Hk st. unfold bind. specialize (Hm st).
  destruct (m st) as [[a| | |] st1]; cbn [snd] in *; try lia.
  specialize (Hk a st1). lia.
Qed.

Lemma adds_sleep n : adds_at_most (emit (Sleep n)) 0 1.
Proof. intros st. unfold emit. count. lia. Qed.

Lemma adds_verify env cfg filename : adds_at_most (verify env cfg filename) 1 0.
Proof.
  intros st. unfold verify. run. destruct (staging st); cbn [snd]; try lia.
  destruct (glob_base d); cbn [snd raise]; try lia.
  count. lia.
Qed.

Lemma adds_fetches env url names :
  adds_at_most (for_each names (fun f => get_binary env (urljoin env url f) f)) 0 0.
Proof.
  intros st. destruct (for_each_fetch_counts env url names st). lia.
Qed.

Lemma check_integrity_bounds env cfg url : adds_at_most (check_integrity env cfg url) 2 1.
Proof.
  unfold check_integrity.
  apply (adds_bind _ _ 1 0 1 1); [apply adds_verify|].
  intros [whole [|f fs]].
  - eapply adds_weaken; [apply adds_ret | lia | lia].
  - apply (adds_weaken _ (0 + (0 + (1 + 0))) (1 + (0 + (0 + 0)))); [|lia|lia].
    apply adds_bind; [apply adds_sleep|]. intros _.
    apply adds_bind; [apply adds_fetches|]. intros _.
    apply adds_bind; [apply adds_verify|]. intros [whole' failed'].
    apply adds_ret.
Qed.



(** the stub that fails on every run: not intact, after two runs *)
Example check_integrity_never_passes :
  let r := check_integrity never_passes main_signify "m/" staged_base in
  r.1 = Ret false /\ invocations (trace r.2) = 2%nat /\ cooldowns (trace r.2) = 1%nat.
Proof. vm_compute. auto. Qed.

(** ** The manifest parse and the acquirer *)

Lemma append_snoc acc c r :
  (acc +:+ String c EmptyString) +:+ r = acc +:+ String c r.
Proof.
  induction acc as [|a acc IH]; [reflexivity|].
  change (String a ((acc +:+ String c EmptyString) +:+ r) = String a (acc +:+ String c r)).
  rewrite IH. reflexivity.
Qed.

Lemma append_empty s : s +:+ EmptyString = s.
Proof.
  induction s as [|a s IH]; [reflexivity|].
  change (String a (s +:+ EmptyString) = String a s). rewrite IH. reflexivity.
Qed.

Lemma split_cons_inv sep s : exists h t, PyStr.split sep s = h :: t.
Proof.
  induction s as [|c s (h & t & IH)]; cbn; [eauto|].
  destruct (Ascii.eqb c sep); [eauto|]. rewrite IH. eauto.
Qed.

Lemma split_without_sep sep s :
  Forall (fun line => PyStr.mem sep line = false) (PyStr.split sep s).
Proof.
  induction s as [|c s IH]; cbn; [repeat constructor|].
  destruct (Ascii.eqb c sep) eqn:Hc; [constructor; [reflexivity | exact IH]|].
  rewrite Ascii.eqb_sym in Hc.
  destruct (PyStr.split sep s) as [|h t].
  - constructor; [cbn; rewrite Hc; reflexivity | constructor].
  - inversion IH as [|? ? Hh Ht]; subst. constructor; [|exact Ht].
    cbn. rewrite Hc. exact Hh.
Qed.

(** the scan of the specification restarts at every line feed *)
Lemma enclosed_by_lines text : forall inside,
  enclosed_from inside text =
    match PyStr.split PyStr.nl text with
    | [] => []
    | h :: t => enclosed_from inside h ++ flat_map (enclosed_from None) t
    end.
Proof.
  induction text as [|c text IH]; intros inside; cbn [PyStr.split enclosed_from].
  - destruct inside; reflexivity.
  - destruct (Ascii.eqb c PyStr.nl) eqn:Hnl.
    + apply Ascii.eqb_eq in Hnl as ->.
      assert (Hrest : enclosed_from None text = flat_map (enclosed_from None) (PyStr.split PyStr.nl text)).
      { rewrite (IH None). destruct (PyStr.split PyStr.nl text); reflexivity. }
      destruct inside as [acc|]; cbn; rewrite Hrest; reflexivity.
    + destruct (split_cons_inv PyStr.nl text) as (h & t & Hsp).
      pose proof IH as IH'. rewrite Hsp in IH'. rewrite Hsp.
      cbn [enclosed_from]. rewrite Hnl.
      destruct inside as [acc|].
      * destruct (Ascii.eqb c PyStr.rparen); [cbn; rewrite IH'; reflexivity | apply IH'].
      * destruct (Ascii.eqb c PyStr.lparen); apply IH'.
Qed.

Lemma no_close_no_group s : forall inside,
  occurrences PyStr.rparen s = 0%nat ->
  enclosed_from inside s = [] /\ PyStr.upto_last_close s = None.
Proof.
  induction s as [|c s IH]; intros inside H;
    cbn [occurrences enclosed_from PyStr.upto_last_close] in *; [destruct inside; auto|].
  destruct (Ascii.eqb c PyStr.rparen) eqn:Hc; [discriminate|].
  cbn in H. split.
  - destruct inside as [acc|].
    + destruct (Ascii.eqb c PyStr.nl); apply IH; exact H.
    + destruct (Ascii.eqb c PyStr.lparen); apply IH; exact H.
  - destruct (IH None H) as [_ ->]. reflexivity.
Qed.

Lemma enclosed_inside s : forall acc,
  PyStr.mem PyStr.nl s = false ->
  (occurrences PyStr.rparen s <= 1)%nat ->
  enclosed_from (Some acc) s =
    option_list (option_map (String.append acc) (PyStr.upto_last_close s)).
Proof.
  induction s as [|c s IH]; intros acc Hnl Hn; [reflexivity|].
  cbn [PyStr.mem] in Hnl. cbn [occurrences] in Hn. rewrite Ascii.eqb_sym in Hnl.
  apply orb_false_iff in Hnl as [Hc Hnl].
  cbn [enclosed_from PyStr.upto_last_close]. rewrite Hc.
  destruct (Ascii.eqb c PyStr.rparen) eqn:Hr.
  - try rewrite Hr in Hn.
    assert (H0 : occurrences PyStr.rparen s = 0%nat) by lia.
    destruct (no_close_no_group s None H0) as [-> ->].
    cbn [option_map option_list]. rewrite append_empty. reflexivity.
  - try rewrite Hr in Hn.
    rewrite (IH (acc +:+ String c EmptyString) Hnl) by lia.
    destruct (PyStr.upto_last_close s); cbn [option_map option_list];
      [rewrite append_snoc|]; reflexivity.
Qed.

Lemma enclosed_line line :
  PyStr.mem PyStr.nl line = false ->
  (occurrences PyStr.rparen line <= 1)%nat ->
  enclosed_from None line = option_list (PyStr.paren_group line).
Proof.
  unfold PyStr.paren_group.
  induction line as [|c line IH]; intros Hnl Hn; [reflexivity|].
  cbn [PyStr.mem] in Hnl. cbn [occurrences] in Hn.
  apply orb_false_iff in Hnl as [_ Hnl].
  cbn [enclosed_from PyStr.after_first_open].
  destruct (Ascii.eqb c PyStr.lparen).
  - rewrite (enclosed_inside line EmptyString Hnl) by lia.
    destruct (PyStr.upto_last_close line); reflexivity.
  - apply IH; [exact Hnl | lia].
Qed.

(** On a manifest with one member per line the pattern of the script
    finds the parenthesized names of the specification. *)
Lemma findall_parens_refines text :
  one_member_per_line text ->
  PyStr.findall_parens text = parenthesized text.
Proof.
  unfold one_member_per_line, parenthesized, PyStr.findall_parens. intros Hone.
  rewrite (enclosed_by_lines text None).
  pose proof (split_without_sep PyStr.nl text) as Hnl.
  assert (Hall : forall lines,
            Forall (fun line => PyStr.mem PyStr.nl line = false) lines ->
            Forall (fun line => (occurrences PyStr.lparen line <= 1)%nat /\
                                (occurrences PyStr.rparen line <= 1)%nat) lines ->
            omap PyStr.paren_group lines = flat_map (enclosed_from None) lines).
  { induction lines as [|l lines IH]; intros H1 H2; [reflexivity|].
    inversion H1; inversion H2; subst. cbn.
    rewrite (enclosed_line l) by tauto. rewrite <- IH by assumption.
    destruct (PyStr.paren_group l); reflexivity. }
  rewrite (Hall _ Hnl Hone). destruct (PyStr.split PyStr.nl text); reflexivity.
Qed.

Lemma read_text_file name st d m data :
  staging st = TempSnapshot d ->
  Fs.entry name d = Some (File m data) ->
  read_text name st = (Ret (PyStr.universal_newlines data), st).
Proof. intros Hs He. unfold read_text. run. rewrite Hs, He. reflexivity. Qed.

Lemma entry_refetched env url names : forall t d g,
  In g names \/ Fs.exists_ (Fs.entry g d) = true ->
  Fs.exists_ (Fs.entry g (refetched env url t names d)) = true.
Proof.
  induction names as [|n names IH]; intros t d g H; cbn [refetched].
  - destruct H as [[]|H]; exact H.
  - apply IH. rewrite entry_write.
    destruct (String.eqb n g) eqn:Hn; [right; reflexivity|].
    destruct H as [[->|H]|H]; [rewrite String.eqb_refl in Hn; discriminate | left; exact H | right; exact H].
Qed.

(** C6, as stated, fails: a line holding two parenthesized names gives
    one greedy match, so the acquirer asks for one file whose name runs
    from the first opening to the last closing parenthesis instead of the
    two names. *)
Lemma download_snapshot_two_names_on_a_line :
  parenthesized "(a)(b)" = ["a"; "b"] /\
  trace (download_snapshot (manifest_env "(a)(b)") "m/" "SHA256.sig" fresh_tmp).2 =
    [Urlopen "m/SHA256.sig" true; Urlopen "m/a)(b" true].
Proof. split; vm_compute; reflexivity. Qed.

(** C6, amended: when every line of the manifest holds at most one
    opening and one closing parenthesis, the names are plain file names
    and every fetch succeeds, the acquirer fetches the manifest and then
    exactly the parenthesized names, in their order in the text and with
    their repetitions, into the staged directory. *)
Theorem download_snapshot_fetches_members env url signify_file st body :
  let t0 := length (trace st) in
  let text := PyStr.universal_newlines body in
  let files := parenthesized text in
  staging st = TempEmpty ->
  one_member_per_line text ->
  Fs.plain_name signify_file = true ->
  urlopen env t0 (urljoin env url signify_file) = Some body ->
  Forall (fun f => Fs.plain_name f = true) files ->
  (forall i f, files !! i = Some f ->
     urlopen env (t0 + 1 + i) (urljoin env url f) <> None) ->
  exists st' d',
    download_snapshot env url signify_file st = (Ret tt, st') /\
    trace st' =
      trace st ++ Urlopen (urljoin env url signify_file) true
                  :: map (fun f => Urlopen (urljoin env url f) true) files /\
    staging st' = TempSnapshot d' /\
    (forall f, In f files -> Fs.exists_ (Fs.entry f d') = true) /\
    snaps st' = snaps st /\ docs st' = docs st.
Proof.
  intros t0 text files Hs Hone Hp Hb Hplain Hnet.
  unfold download_snapshot.
  unfold bind at 1. unfold gets at 1. rewrite Hs.
  unfold bind at 1. unfold modify at 1.
  set (st1 := set_staging (TempSnapshot []) st).
  unfold bind at 1.
  rewrite (get_binary_writes env _ signify_file st1 [] body); [| exact Hb | reflexivity | split; [exact Hp | reflexivity]].
  set (d1 := Fs.write signify_file (File (clock env (length (trace st1))) body) []).
  set (st2 := set_staging (TempSnapshot d1) (add_event (Urlopen (urljoin env url signify_file) true) st1)).
  unfold bind at 1.
  rewrite (read_text_file signify_file st2 d1 (clock env (length (trace st1))) body);
    [| reflexivity | unfold d1; cbn; rewrite String.eqb_refl; reflexivity].
  fold text. rewrite (findall_parens_refines text Hone). fold files.
  rewrite (for_each_fetches env url files st2 d1).
  - eexists _, _. split; [reflexivity|]. split.
    + cbn. rewrite <- app_assoc. reflexivity.
    + split; [reflexivity|]. split; [|split; reflexivity].
      intros f Hf. apply entry_refetched. left. exact Hf.
  - reflexivity.
  - eapply Forall_impl; [exact Hplain|]. intros f Hf. split; [exact Hf|].
    unfold d1. cbn. destruct (String.eqb signify_file f); reflexivity.
  - intros i f Hi. replace (length (trace st2)) with (t0 + 1)%nat.
    + apply Hnet. exact Hi.
    + unfold st2, st1, t0. cbn. rewrite length_app. reflexivity.
Qed.

Lemma download_snapshot_fetches_members_witness :
  exists st' d',
    download_snapshot (manifest_env sample_manifest) "m/" "SHA256.sig" fresh_tmp = (Ret tt, st') /\
    trace st' =
      [Urlopen "m/SHA256.sig" true; Urlopen "m/base63.tgz" true;
       Urlopen "m/bsd.rd" true; Urlopen "m/bsd.rd" true] /\
    staging st' = TempSnapshot d' /\
    (forall f, In f ["base63.tgz"; "bsd.rd"; "bsd.rd"] -> Fs.exists_ (Fs.entry f d') = true) /\
    snaps st' = snaps fresh_tmp /\ docs st' = docs fresh_tmp.
Proof.
  assert (Hone : one_member_per_line (PyStr.universal_newlines sample_manifest)).
  { repeat (constructor; [split; vm_compute; lia|]). constructor. }
  assert (Hplain : Forall (fun f => Fs.plain_name f = true)
                     (parenthesized (PyStr.universal_newlines sample_manifest))).
  { repeat constructor. }
  assert (Hnet : forall (i : nat) (f : string),
            parenthesized (PyStr.universal_newlines sample_manifest) !! i = Some f ->
            urlopen (manifest_env sample_manifest) (0 + 1 + i)
              (urljoin (manifest_env sample_manifest) "m/" f) <> None).
  { intros i f _. cbn. destruct (PyStr.endswith _ _); discriminate. }
  exact (download_snapshot_fetches_members (manifest_env sample_manifest) "m/" "SHA256.sig"
           fresh_tmp sample_manifest eq_refl Hone eq_refl eq_refl Hplain Hnet).
Defined.

(** ** The installed-state comparator *)

(** C4, as stated, fails: the two boot images differ in their last byte
    but have the same size and the same modification time, and the
    comparison, shallow by default, answers true without reading them. *)
Lemma is_installed_same_stamp_other_bytes :
  is_installed (with_root (Some (File 7 "kernel-B")) quiet_env)
    (Some (Dir [("bsd.rd", File 7 "kernel-A")])) = Ret true /\
  "kernel-A" <> "kernel-B".
Proof. split; [reflexivity | discriminate]. Qed.

(** C4, amended: for two regular files the answer is true exactly when
    their contents are identical or their sizes and modification times
    both agree; identical files always give true, and files that differ
    give false as soon as their modification times differ. *)
Theorem is_installed_compares env snapshot m1 d1 m2 d2 :
  Fs.entry "bsd.rd" snapshot = Some (File m1 d1) ->
  root_bsd_rd env = Some (File m2 d2) ->
  exists b,
    is_installed env (Some (Dir snapshot)) = Ret b /\
    (b = true <-> d1 = d2 \/ (String.length d1 = String.length d2 /\ m1 = m2)) /\
    (d1 = d2 -> b = true) /\
    (d1 <> d2 -> m1 <> m2 -> b = false).
Proof.
  intros He Hr. unfold is_installed, stat_in, cmp. rewrite He, Hr.
  destruct (String.length d1 =? String.length d2)%nat eqn:Hl;
    destruct (m1 =? m2) eqn:Hm; cbn [andb negb].
  - apply Nat.eqb_eq in Hl. apply Z.eqb_eq in Hm.
    exists true. repeat split; auto. intros _ Hne. contradiction.
  - apply Nat.eqb_eq in Hl. apply Z.eqb_neq in Hm.
    exists (String.eqb d1 d2). split; [reflexivity|]. split; [|split].
    + rewrite String.eqb_eq. split; [auto | intros [H|[_ H]]; [exact H | contradiction]].
    + apply String.eqb_eq.
    + intros Hd _. apply String.eqb_neq. exact Hd.
  - apply Nat.eqb_neq in Hl.
    exists false. split; [reflexivity|]. split; [|split].
    + split; [discriminate | intros [->|[H _]]; contradiction].
    + intros ->. contradiction.
    + reflexivity.
  - apply Nat.eqb_neq in Hl.
    exists false. split; [reflexivity|]. split; [|split].
    + split; [discriminate | intros [->|[H _]]; contradiction].
    + intros ->. contradiction.
    + reflexivity.
Qed.

Lemma is_installed_compares_witness :
  exists b,
    is_installed (with_root (Some (File 9 "kernel-B")) quiet_env)
      (Some (Dir [("bsd.rd", File 7 "kernel-A")])) = Ret b /\
    (b = true <-> "kernel-A" = "kernel-B" \/
                  (String.length "kernel-A" = String.length "kernel-B" /\ 7 = 9)) /\
    ("kernel-A" = "kernel-B" -> b = true) /\
    ("kernel-A" <> "kernel-B" -> 7 <> 9 -> b = false).
Proof.
  exact (is_installed_compares (with_root (Some (File 9 "kernel-B")) quiet_env)
           [("bsd.rd", File 7 "kernel-A")] 7 "kernel-A" 9 "kernel-B" eq_refl eq_refl).
Defined.

(** ** The generation rotator *)

(** C5: with a snapshot in the upgrade slot, and whether or not the
    previous and current slots are occupied, [rotate] returns and leaves
    the old current generation as previous, the old upgrade as current
    and the upgrade slot empty; the old previous generation is gone. *)
Theorem rotate_shifts_generations st sl up :
  snaps st = Some sl ->
  upgrade sl = Some up ->
  (forall m data, previous sl <> Some (File m data)) ->
  rotate st =
    (Ret tt,
     set_snaps (Some {| previous := current sl; current := Some up; upgrade := None |}) st).
Proof.
  intros Hsn Hup Hprev. destruct st as [dc sn stg tr td]. cbn in Hsn. subst sn.
  destruct sl as [p c u]. cbn in Hup. subst u.
  unfold rotate, bind, gets, when, slots. cbn.
  destruct p as [[m data|inside]|]; [exfalso; exact (Hprev m data eq_refl)| |];
    destruct c as [x|]; reflexivity.
Qed.

Lemma rotate_shifts_generations_witness :
  let old_current := Dir [("bsd.rd", File 1 "kernel-1")] in
  let staged := Dir [("bsd.rd", File 2 "kernel-2")] in
  let st := at_start ∅ (Some {| previous := None; current := Some old_current;
                                upgrade := Some staged |}) in
  rotate st =
    (Ret tt,
     set_snaps (Some {| previous := Some old_current; current := Some staged;
                        upgrade := None |}) st).
Proof.
  intros old_current staged st.
  refine (rotate_shifts_generations st
            {| previous := None; current := Some old_current; upgrade := Some staged |}
            staged eq_refl eq_refl _).
  intros m data H. discriminate H.
Defined.

(** ** What the procedures leave untouched *)

Lemma preserves_bind {A B C} (proj : State -> C) (m : M A) (k : A -> M B) :
  preserves proj m -> (forall a, preserves proj (k a)) -> preserves proj (bind m k).
Proof.
  intros Hm Hk st. unfold bind. specialize (Hm st).
  destruct (m st) as [[a| | |] st1]; cbn [snd] in *; try exact Hm.
  rewrite (Hk a st1). exact Hm.
Qed.

Lemma preserves_for_each_in {A C} (proj : State -> C) (xs : list A) (body : A -> M unit) :
  Forall (fun x => preserves proj (body x)) xs -> preserves proj (for_each xs body).
Proof.
  induction 1 as [|x xs Hx _ IH]; [intros st; reflexivity|].
  cbn [for_each]. apply preserves_bind; [exact Hx | intros _; exact IH].
Qed.

Lemma preserves_for_each {A C} (proj : State -> C) (xs : list A) (body : A -> M unit) :
  (forall x, preserves proj (body x)) -> preserves proj (for_each xs body).
Proof.
  intros Hb. apply preserves_for_each_in. apply Forall_forall. intros x _. apply Hb.
Qed.

Ltac frame :=
  repeat first
    [ solve [ eauto with frame ]
    | apply preserves_bind
    | apply preserves_for_each
    | progress intros
    | progress cbv zeta
    | match goal with
      | |- preserves _ (match ?x with _ => _ end) => destruct x
      | |- preserves _ (let '(_, _) := ?x in _) => destruct x
      | |- preserves _ (when ?c _) => unfold when; destruct c
      | |- preserves _ (if ?c then _ else _) => destruct c
      end
    | solve [ let st := fresh "st" in intros st; reflexivity ] ].

Create HintDb frame.

(** *** Plain member names stay in the staged directory *)

Lemma open_write_plain_keeps_snaps f mtime data :
  Fs.plain_name f = true -> preserves snaps (open_write f mtime data).
Proof.
  intros Hp st. unfold open_write. rewrite (proj2 (plain_name_chars f Hp)). run.
  destruct (staging st); cbn; try reflexivity. rewrite (locate_plain _ _ Hp).
  destruct (Fs.entry f d) as [[|]|]; reflexivity.
Qed.

Lemma open_write_plain_keeps_docs f mtime data :
  Fs.plain_name f = true -> preserves docs (open_write f mtime data).
Proof.
  intros Hp st. unfold open_write. rewrite (proj2 (plain_name_chars f Hp)). run.
  destruct (staging st); cbn; try reflexivity. rewrite (locate_plain _ _ Hp).
  destruct (Fs.entry f d) as [[|]|]; reflexivity.
Qed.
#[local] Hint Resolve open_write_plain_keeps_snaps open_write_plain_keeps_docs : frame.

Lemma get_binary_plain_keeps_snaps env url f :
  Fs.plain_name f = true -> preserves snaps (get_binary env url f).
Proof. intros Hp. unfold get_binary. frame. Qed.

Lemma get_binary_plain_keeps_docs env url f :
  Fs.plain_name f = true -> preserves docs (get_binary env url f).
Proof. intros Hp. unfold get_binary. frame. Qed.

Lemma fetches_keep_snaps env url names :
  plain_names names ->
  preserves snaps (for_each names (fun f => get_binary env (urljoin env url f) f)).
Proof.
  intros H. apply preserves_for_each_in. eapply Forall_impl; [exact H|].
  intros f Hf. apply get_binary_plain_keeps_snaps. exact Hf.
Qed.

Lemma fetches_keep_docs env url names :
  plain_names names ->
  preserves docs (for_each names (fun f => get_binary env (urljoin env url f) f)).
Proof.
  intros H. apply preserves_for_each_in. eapply Forall_impl; [exact H|].
  intros f Hf. apply get_binary_plain_keeps_docs. exact Hf.
Qed.

Lemma verify_keeps_snaps env cfg filename : preserves snaps (verify env cfg filename).
Proof. unfold verify. frame. Qed.
Lemma verify_keeps_docs env cfg filename : preserves docs (verify env cfg filename).
Proof. unfold verify. frame. Qed.
#[local] Hint Resolve verify_keeps_snaps verify_keeps_docs : frame.

(** the members the acquirer asks for are the names the checksum file
    lists, whenever it gets that far *)
Lemma download_snapshot_unfolds env url signify_file st :
  staging st = TempEmpty ->
  Fs.plain_name signify_file = true ->
  let st1 := set_staging (TempSnapshot []) st in
  download_snapshot env url signify_file st =
    match urlopen env (length (trace st)) (urljoin env url signify_file) with
    | Some body =>
        for_each (PyStr.findall_parens (PyStr.universal_newlines body))
          (fun f => get_binary env (urljoin env url f) f)
          (set_staging
             (TempSnapshot (Fs.write signify_file (File (clock env (length (trace st))) body) []))
             (add_event (Urlopen (urljoin env url signify_file) true) st1))
    | None =>
        match get_binary env (urljoin env url signify_file) signify_file st1 with
        | (Ret _, st') => (Raise FileNotFoundError, st')
        | other => other
        end
    end.
Proof.
  intros Hs Hp st1. unfold download_snapshot.
  unfold bind at 1. unfold gets at 1. rewrite Hs.
  unfold bind at 1. unfold modify at 1. fold st1.
  unfold bind at 1.
  destruct (urlopen env (length (trace st)) (urljoin env url signify_file)) as [body|] eqn:Hb.
  - rewrite (get_binary_writes env _ signify_file st1 [] body);
      [| exact Hb | reflexivity | split; [exact Hp | reflexivity]].
    unfold bind at 1.
    erewrite read_text_file;
      [reflexivity | reflexivity | cbn; rewrite String.eqb_refl; reflexivity].
  - assert (Hnone : forall st2, get_binary env (urljoin env url signify_file) signify_file st1
                                <> (Ret tt, st2)).
    { intros st2. unfold get_binary, bind, tick, emit. change (trace st1) with (trace st).
      rewrite Hb. destruct (fails env _ _); cbn; try discriminate.
      destruct (open_write signify_file _ _ _) as [[[]| | |] st3]; discriminate. }
    destruct (get_binary env (urljoin env url signify_file) signify_file st1)
      as [[[]| | |] st2] eqn:Hg; try reflexivity.
    exfalso. exact (Hnone st2 eq_refl).
Qed.

Lemma download_snapshot_keeps_snaps env url signify_file st :
  Fs.plain_name signify_file = true ->
  flat_manifest env (length (trace st)) (urljoin env url signify_file) ->
  snaps (download_snapshot env url signify_file st).2 = snaps st.
Proof.
  intros Hp Hflat. destruct (staging st) eqn:Hs;
    try (unfold download_snapshot, bind, gets, raise; rewrite Hs; reflexivity).
  rewrite (download_snapshot_unfolds env url signify_file st Hs Hp). cbn zeta.
  destruct (urlopen env (length (trace st)) (urljoin env url signify_file)) as [body|] eqn:Hb.
  - rewrite (fetches_keep_snaps env url _ (Hflat body Hb)). reflexivity.
  - pose proof (get_binary_plain_keeps_snaps env (urljoin env url signify_file) signify_file Hp
                  (set_staging (TempSnapshot []) st)) as Hk.
    destruct (get_binary _ _ _ _) as [[[]| | |] st2]; exact Hk.
Qed.

Lemma download_snapshot_keeps_docs env url signify_file st :
  Fs.plain_name signify_file = true ->
  flat_manifest env (length (trace st)) (urljoin env url signify_file) ->
  docs (download_snapshot env url signify_file st).2 = docs st.
Proof.
  intros Hp Hflat. destruct (staging st) eqn:Hs;
    try (unfold download_snapshot, bind, gets, raise; rewrite Hs; reflexivity).
  rewrite (download_snapshot_unfolds env url signify_file st Hs Hp). cbn zeta.
  destruct (urlopen env (length (trace st)) (urljoin env url signify_file)) as [body|] eqn:Hb.
  - rewrite (fetches_keep_docs env url _ (Hflat body Hb)). reflexivity.
  - pose proof (get_binary_plain_keeps_docs env (urljoin env url signify_file) signify_file Hp
                  (set_staging (TempSnapshot []) st)) as Hk.
    destruct (get_binary _ _ _ _) as [[[]| | |] st2]; exact Hk.
Qed.

Lemma check_integrity_keeps_snaps env cfg url :
  flat_reports env -> preserves snaps (check_integrity env cfg url).
Proof.
  intros Hflat st. unfold check_integrity. unfold bind at 1.
  pose proof (verify_keeps_snaps env cfg "" st) as Hv0.
  destruct (verify env cfg "" st) as [[[whole failed]| | |] st0] eqn:Hv; try exact Hv0.
  apply verify_returns in Hv as (d & base & rest & _ & _ & Hres & ->).
  cbn zeta in Hres. injection Hres as _ ->.
  match goal with |- context [failed_members ?out] => set (failed := failed_members out) end.
  assert (Hplain : plain_names failed) by apply Hflat.
  destruct failed as [|f fs]; [reflexivity|].
  rewrite (preserves_bind snaps (emit (Sleep 300))); [reflexivity | intros s; reflexivity |].
  intros _. apply preserves_bind; [apply fetches_keep_snaps; exact Hplain|].
  intros _. frame.
Qed.

Lemma check_integrity_keeps_docs env cfg url :
  flat_reports env -> preserves docs (check_integrity env cfg url).
Proof.
  intros Hflat st. unfold check_integrity. unfold bind at 1.
  pose proof (verify_keeps_docs env cfg "" st) as Hv0.
  destruct (verify env cfg "" st) as [[[whole failed]| | |] st0] eqn:Hv; try exact Hv0.
  apply verify_returns in Hv as (d & base & rest & _ & _ & Hres & ->).
  cbn zeta in Hres. injection Hres as _ ->.
  match goal with |- context [failed_members ?out] => set (failed := failed_members out) end.
  assert (Hplain : plain_names failed) by apply Hflat.
  destruct failed as [|f fs]; [reflexivity|].
  rewrite (preserves_bind docs (emit (Sleep 300))); [reflexivity | intros s; reflexivity |].
  intros _. apply preserves_bind; [apply fetches_keep_docs; exact Hplain|].
  intros _. frame.
Qed.

Lemma acquire_and_gate_keeps_snaps env cfg url st :
  Fs.plain_name (file cfg) = true ->
  flat_manifest env (length (trace st)) (urljoin env url (file cfg)) ->
  flat_reports env ->
  snaps (acquire_and_gate env cfg url st).2 = snaps st.
Proof.
  intros Hp Hm Hr. unfold acquire_and_gate, bind.
  pose proof (download_snapshot_keeps_snaps env url (file cfg) st Hp Hm) as Hd.
  destruct (download_snapshot env url (file cfg) st) as [[[]| | |] st0]; try exact Hd.
  rewrite (check_integrity_keeps_snaps env cfg url Hr st0). exact Hd.
Qed.

Lemma acquire_and_gate_keeps_docs env cfg url st :
  Fs.plain_name (file cfg) = true ->
  flat_manifest env (length (trace st)) (urljoin env url (file cfg)) ->
  flat_reports env ->
  docs (acquire_and_gate env cfg url st).2 = docs st.
Proof.
  intros Hp Hm Hr. unfold acquire_and_gate, bind.
  pose proof (download_snapshot_keeps_docs env url (file cfg) st Hp Hm) as Hd.
  destruct (download_snapshot env url (file cfg) st) as [[[]| | |] st0]; try exact Hd.
  rewrite (check_integrity_keeps_docs env cfg url Hr st0). exact Hd.
Qed.

Lemma with_temporary_directory_usable {A} env args (body : M A) st :
  temporary_directory_usable env args st = true ->
  with_temporary_directory env args body st =
    (let '(o, st') := body (set_staging TempEmpty st) in (o, set_staging NoTemp st')).
Proof.
  unfold temporary_directory_usable, with_temporary_directory.
  destruct (tempdir st), (snapshots_dir_exists st), (anchored env args);
    cbn; intros H; try discriminate H; reflexivity.
Qed.

(** ** The release orchestrator *)




Lemma feedback_keeps_docs env args title body urgency :
  preserves docs (feedback env args title body urgency).
Proof. unfold feedback, notify, mail. frame. Qed.
#[local] Hint Resolve feedback_keeps_docs : frame.

Lemma move_staged_keeps_docs to : preserves docs (move_staged to).
Proof. unfold move_staged. frame. Qed.
Lemma move_slot_keeps_docs from to : preserves docs (move_slot from to).
Proof. unfold move_slot. frame. Qed.
Lemma rmtree_slot_keeps_docs s : preserves docs (rmtree_slot s).
Proof. unfold rmtree_slot. frame. Qed.
Lemma slot_paths_keeps_docs env args : preserves docs (slot_paths env args).
Proof. unfold slot_paths. frame. Qed.
#[local] Hint Resolve move_staged_keeps_docs move_slot_keeps_docs rmtree_slot_keeps_docs
  slot_paths_keeps_docs : frame.

Lemma rotate_keeps_docs : preserves docs rotate.
Proof. unfold rotate. frame. Qed.
#[local] Hint Resolve rotate_keeps_docs : frame.

Lemma same_pipeline_keeps_docs env : preserves docs (same_pipeline env).
Proof. unfold same_pipeline. frame. Qed.

Lemma snapshot_pipeline_keeps_docs env args cfg url status st :
  Fs.plain_name (file cfg) = true ->
  flat_manifest env (length (trace st)) (urljoin env url (file cfg)) ->
  flat_reports env ->
  docs (snapshot_pipeline env args cfg url status st).2 = docs st.
Proof.
  intros Hp Hm Hr.
  assert (Hbody : forall rest : bool -> M unit,
            (forall b, preserves docs (rest b)) ->
            docs (with_temporary_directory env args
                    (bind (acquire_and_gate env cfg url) rest) st).2 = docs st).
  { intros rest Hrest. unfold with_temporary_directory.
    destruct (tempdir st && negb (snapshots_dir_exists st)); [reflexivity|].
    destruct (tempdir st && negb (anchored env args)); [reflexivity|].
    pose proof (acquire_and_gate_keeps_docs env cfg url (set_staging TempEmpty st) Hp Hm Hr) as Hg.
    unfold bind.
    destruct (acquire_and_gate env cfg url (set_staging TempEmpty st)) as [[b| | |] st1];
      cbn [snd] in Hg; try exact Hg.
    specialize (Hrest b st1).
    destruct (rest b st1) as [o st2]. cbn [snd docs set_staging] in *. congruence. }
  destruct status; cbn [snapshot_pipeline].
  - apply Hbody. intros b. unfold upgrade_available. frame.
  - apply same_pipeline_keeps_docs.
  - apply Hbody. intros b. unfold upgrade_available. frame.
Qed.

Lemma get_update_info_returns env url st status changes st' :
  get_update_info env url st = (Ret (status, changes), st') ->
  let doc_name := PyStr.last_field PyStr.slash url in
  exists lines,
    fetch_lines env (length (trace st)) url = Some lines /\
    st' = match status with
          | same => add_event (GetDocument url true) st
          | _ => set_docs (<[doc_name := PyStr.join lines]> (docs st))
                   (add_event (GetDocument url true) st)
          end.
Proof.
  unfold get_update_info, get_document. run.
  destruct (fetch_lines env (length (trace st)) url) as [lines|]; cbn;
    [|destruct (fails env _ _); discriminate].
  destruct (cache_name (PyStr.last_field PyStr.slash url)); cbn; [|discriminate].
  destruct (docs st !! PyStr.last_field PyStr.slash url) as [previous|]; cbn.
  - destruct (String.eqb (get_document_changes env previous lines url) "");
      cbn; intros [= <- <- <-]; exists lines; auto.
  - intros [= <- <- <-]. exists lines. auto.
Qed.




(** the run of the witness above: the new snapshot is not intact and is
    dropped, the upgrade slot keeps the older snapshot, and the cache
    already holds the new document *)
Example cache_rewritten_though_not_intact :
  let env := with_document ["Build date: 2"] mirror_in_sync in
  let r := snapshot_check env snapshot_only main_signify "m/"
             (at_start earlier_build (Some waiting_upgrade)) in
  r.1 = Ret tt /\ snaps r.2 = Some waiting_upgrade /\ staging r.2 = NoTemp /\
  docs r.2 !! "BUILDINFO" = Some "Build date: 2" /\
  invocations (trace r.2) = 2%nat.
Proof. vm_compute. auto. Qed.

(** ** Failed requests *)

Lemma clean_not_in tr u : clean tr -> ~ In (Urlopen u false) tr.
Proof.
  unfold clean. intros Hc Hin.
  assert (H : existsb failed_fetch tr = true).
  { apply existsb_exists. exists (Urlopen u false). split; [exact Hin | reflexivity]. }
  congruence.
Qed.

Lemma no_failure_app tr1 tr2 :
  existsb failed_network (tr1 ++ tr2) = false <->
  existsb failed_network tr1 = false /\ existsb failed_network tr2 = false.
Proof. rewrite existsb_app, orb_false_iff. reflexivity. Qed.

Lemma no_failure_not_in tr e :
  existsb failed_network tr = false -> failed_network e = true -> ~ In e tr.
Proof.
  intros Hc He Hin.
  assert (H : existsb failed_network tr = true).
  { apply existsb_exists. exists e. split; [exact Hin | exact He]. }
  congruence.
Qed.

Lemma aftermath_not_returned env t e report how :
  aftermath env t e report how -> how <> Returned.
Proof.
  unfold aftermath. destruct (fails env t (request_url e)); intros [H1 H2]; congruence.
Qed.

Lemma aftermath_reports env t e report how :
  aftermath env t e report how -> existsb failed_network report = false.
Proof.
  unfold aftermath. destruct (fails env t (request_url e)).
  - intros [-> _]. reflexivity.
  - intros [-> _]. reflexivity.
  - intros [_ [->|[message ->]]]; reflexivity.
Qed.

Lemma ends_of_filter {A} env (m : M A) :
  emits_only (fun e => negb (failed_network e)) m -> ends_after_failure env m.
Proof.
  intros H st. destruct (H st) as (tr & Htr & Hall). exists tr. split; [exact Htr|]. left.
  destruct (existsb failed_network tr) eqn:Hex; [|reflexivity].
  apply existsb_exists in Hex as (e & Hin & He).
  rewrite forallb_forall in Hall. apply Hall in Hin. rewrite He in Hin. discriminate.
Qed.

Lemma ends_bind {A B} env (m : M A) (k : A -> M B) :
  ends_after_failure env m -> (forall a, ends_after_failure env (k a)) ->
  ends_after_failure env (bind m k).
Proof.
  intros Hm Hk st. unfold bind.
  destruct (Hm st) as (tr1 & H1 & Hd1).
  destruct (m st) as [o st1]. cbn [fst snd] in *.
  destruct Hd1 as [Hc1 | (tr0 & e & report & -> & He & Hc0 & Haft)].
  2:{ pose proof (aftermath_not_returned _ _ _ _ _ Haft) as Hnr.
      destruct o as [a| | |]; [destruct (Hnr eq_refl) | | |];
        (exists (tr0 ++ e :: report); split; [exact H1|]; right;
         exists tr0, e, report; auto). }
  destruct o as [a| | |]; try solve [exists tr1; auto].
  specialize (Hk a). destruct (Hk st1) as (tr2 & H2 & Hd2).
  exists (tr1 ++ tr2). rewrite H2, H1, app_assoc. split; [reflexivity|].
  destruct Hd2 as [Hc2 | (tr0 & e & report & -> & He & Hc0 & Haft)].
  - left. apply no_failure_app. auto.
  - right. exists (tr1 ++ tr0), e, report. rewrite app_assoc. split; [reflexivity|].
    split; [exact He|]. split; [apply no_failure_app; auto|].
    rewrite H1 in Haft. rewrite app_assoc. exact Haft.
Qed.

Lemma ends_for_each {A} env (xs : list A) (body : A -> M unit) :
  (forall x, ends_after_failure env (body x)) ->
  ends_after_failure env (for_each xs body).
Proof.
  intros Hb. induction xs as [|x xs IH].
  - apply ends_of_filter, emits_only_still. reflexivity.
  - cbn [for_each]. apply ends_bind; [apply Hb | intros _; exact IH].
Qed.

Lemma ends_with_temporary_directory {A} env args (body : M A) :
  ends_after_failure env body ->
  ends_after_failure env (with_temporary_directory env args body).
Proof.
  intros Hb st. unfold with_temporary_directory.
  destruct (tempdir st && negb (snapshots_dir_exists st));
    [exists []; rewrite app_nil_r; split; [reflexivity | left; reflexivity]|].
  destruct (tempdir st && negb (anchored env args));
    [exists []; rewrite app_nil_r; split; [reflexivity | left; reflexivity]|].
  destruct (Hb (set_staging TempEmpty st)) as (tr & H & Hd).
  destruct (body (set_staging TempEmpty st)) as [o st1]. exists tr.
  split; [exact H | exact Hd].
Qed.

(** what opening the output file adds to the trace: nothing, or the
    report of a name that cannot be a file name, with exit status -2 *)
Lemma open_write_report f mtime data st :
  trace (open_write f mtime data st).2 = trace st \/
  (exists message, trace (open_write f mtime data st).2 = trace st ++ [Stderr message]) /\
  (open_write f mtime data st).1 = Exit (-2).
Proof.
  unfold open_write. destruct (PyStr.mem "000"%char f).
  - right. split; [eexists|]; reflexivity.
  - left. run. destruct (staging st); cbn; try reflexivity.
    destruct (locate (tempdir st) f); cbn; try reflexivity.
    + destruct (Fs.entry name d) as [[|]|]; reflexivity.
    + destruct (slot_of s (slots st)) as [[|inside]|]; cbn; try reflexivity.
      destruct (Fs.entry name inside) as [[|]|]; reflexivity.
    + destruct (slot_of s (slots st)) as [[|inside]|]; reflexivity.
    + destruct (String.eqb name "snapshots"); reflexivity.
Qed.

Lemma ends_get_binary env url f : ends_after_failure env (get_binary env url f).
Proof.
  intros st. unfold get_binary, bind, tick, emit.
  destruct (urlopen env (length (trace st)) url) as [body|].
  - destruct (open_write_report f (clock env (length (trace st))) body
                (add_event (Urlopen url true) st)) as [Htr | [[message Htr] _]].
    + exists [Urlopen url true]. split; [exact Htr | left; reflexivity].
    + exists [Urlopen url true; Stderr message]. split; [|left; reflexivity].
      rewrite Htr. cbn. rewrite <- app_assoc. reflexivity.
  - assert (Hlen : length (trace st ++ []) = length (trace st)) by (rewrite app_nil_r; reflexivity).
    destruct (fails env (length (trace st)) url) as [message|x|x] eqn:Hf.
    + exists [Urlopen url false; Stderr message]. split; [cbn; rewrite <- app_assoc; reflexivity|].
      right. exists [], (Urlopen url false), [Stderr message].
      split; [reflexivity|]. split; [reflexivity|]. split; [reflexivity|].
      unfold aftermath. rewrite Hlen. cbn [request_url]. rewrite Hf. split; reflexivity.
    + exists [Urlopen url false]. split; [reflexivity|].
      right. exists [], (Urlopen url false), [].
      split; [reflexivity|]. split; [reflexivity|]. split; [reflexivity|].
      unfold aftermath. rewrite Hlen. cbn [request_url]. rewrite Hf. split; reflexivity.
    + destruct (open_write_report f (clock env (length (trace st))) EmptyString
                  (add_event (Urlopen url false) st)) as [Htr | [[message Htr] Hexit]].
      * exists [Urlopen url false]. split.
        { destruct (open_write _ _ _ _) as [[[]| | |] st1]; exact Htr. }
        right. exists [], (Urlopen url false), [].
        split; [reflexivity|]. split; [reflexivity|]. split; [reflexivity|].
        unfold aftermath. rewrite Hlen. cbn [request_url]. rewrite Hf.
        split; [|left; reflexivity].
        destruct (open_write _ _ _ _) as [[[]| | |] st1]; discriminate.
      * exists [Urlopen url false; Stderr message]. split.
        { destruct (open_write _ _ _ _) as [[[]| | |] st1]; unfold raise; cbn [snd] in *;
            rewrite Htr; cbn; rewrite <- app_assoc; reflexivity. }
        right. exists [], (Urlopen url false), [Stderr message].
        split; [reflexivity|]. split; [reflexivity|]. split; [reflexivity|].
        unfold aftermath. rewrite Hlen. cbn [request_url]. rewrite Hf.
        split; [|right; eexists; reflexivity].
        destruct (open_write _ _ _ _) as [[[]| | |] st1]; discriminate.
Qed.

Lemma ends_get_document env url : ends_after_failure env (get_document env url).
Proof.
  intros st. unfold get_document, bind, tick, emit.
  destruct (fetch_lines env (length (trace st)) url) as [lines|].
  - exists [GetDocument url true]. split; [reflexivity | left; reflexivity].
  - assert (Hlen : length (trace st ++ []) = length (trace st)) by (rewrite app_nil_r; reflexivity).
    destruct (fails env (length (trace st)) url) as [message|x|x] eqn:Hf.
    + exists [GetDocument url false; Stderr message].
      split; [cbn; rewrite <- app_assoc; reflexivity|].
      right. exists [], (GetDocument url false), [Stderr message].
      split; [reflexivity|]. split; [reflexivity|]. split; [reflexivity|].
      unfold aftermath. rewrite Hlen. cbn [request_url]. rewrite Hf. split; reflexivity.
    + exists [GetDocument url false]. split; [reflexivity|].
      right. exists [], (GetDocument url false), [].
      split; [reflexivity|]. split; [reflexivity|]. split; [reflexivity|].
      unfold aftermath. rewrite Hlen. cbn [request_url]. rewrite Hf. split; reflexivity.
    + exists [GetDocument url false]. split; [reflexivity|].
      right. exists [], (GetDocument url false), [].
      split; [reflexivity|]. split; [reflexivity|]. split; [reflexivity|].
      unfold aftermath. rewrite Hlen. cbn [request_url]. rewrite Hf.
      split; [discriminate | left; reflexivity].
Qed.

Create HintDb fatal.
#[local] Hint Resolve ends_get_binary ends_get_document : fatal.

Ltac fatal :=
  repeat first
    [ solve [ eauto with fatal ]
    | solve [ apply ends_of_filter; filtered ]
    | apply ends_for_each
    | apply ends_with_temporary_directory
    | apply ends_bind
    | progress intros
    | progress cbv zeta
    | match goal with
      | |- ends_after_failure _ (match ?x with _ => _ end) => destruct x
      | |- ends_after_failure _ (let '(_, _) := ?x in _) => destruct x
      | |- ends_after_failure _ (when ?c _) => unfold when; destruct c
      | |- ends_after_failure _ (if ?c then _ else _) => destruct c
      end ].

Lemma ends_feedback env args title body urgency :
  ends_after_failure env (feedback env args title body urgency).
Proof. apply ends_of_filter. unfold feedback, notify, mail. filtered. Qed.
#[local] Hint Resolve ends_feedback : fatal.

Lemma ends_get_update_info env url : ends_after_failure env (get_update_info env url).
Proof. unfold get_update_info. fatal. Qed.
#[local] Hint Resolve ends_get_update_info : fatal.

Lemma ends_resolve_mirror env args : ends_after_failure env (resolve_mirror env args).
Proof. apply ends_of_filter. unfold resolve_mirror. filtered. Qed.

Lemma ends_document_checks env args mirror_url :
  ends_after_failure env (document_checks env args mirror_url).
Proof. unfold document_checks. fatal. Qed.

Lemma ends_snapshot_check env args cfg mirror_url :
  ends_after_failure env (snapshot_check env args cfg mirror_url).
Proof.
  unfold snapshot_check, snapshot_pipeline, bootstrap_pipeline, same_pipeline,
    new_pipeline, acquire_and_gate, upgrade_available, download_snapshot, read_text,
    check_integrity, verify, slot_paths, rotate, move_staged, move_slot, rmtree_slot.
  fatal.
Qed.
#[local] Hint Resolve ends_resolve_mirror ends_document_checks ends_snapshot_check : fatal.

Lemma ends_main env args : ends_after_failure env (main env args).
Proof. unfold main. fatal. Qed.

Lemma get_update_info_keeps_snaps env url : preserves snaps (get_update_info env url).
Proof. unfold get_update_info, get_document. frame. Qed.
Lemma get_update_info_keeps_staging env url : preserves staging (get_update_info env url).
Proof. unfold get_update_info, get_document. frame. Qed.
Lemma feedback_keeps_snaps env args title body urgency :
  preserves snaps (feedback env args title body urgency).
Proof. unfold feedback, notify, mail. frame. Qed.
Lemma feedback_keeps_staging env args title body urgency :
  preserves staging (feedback env args title body urgency).
Proof. unfold feedback, notify, mail. frame. Qed.
#[local] Hint Resolve get_update_info_keeps_snaps get_update_info_keeps_staging
  feedback_keeps_snaps feedback_keeps_staging : frame.
Lemma resolve_mirror_keeps_snaps env args : preserves snaps (resolve_mirror env args).
Proof. unfold resolve_mirror. frame. Qed.
Lemma resolve_mirror_keeps_staging env args : preserves staging (resolve_mirror env args).
Proof. unfold resolve_mirror. frame. Qed.
Lemma document_checks_keeps_snaps env args mirror_url :
  preserves snaps (document_checks env args mirror_url).
Proof. unfold document_checks. frame. Qed.
Lemma document_checks_keeps_staging env args mirror_url :
  preserves staging (document_checks env args mirror_url).
Proof. unfold document_checks. frame. Qed.
Lemma same_pipeline_keeps_staging env : preserves staging (same_pipeline env).
Proof. unfold same_pipeline, rotate, move_slot, rmtree_slot. frame. Qed.

Lemma document_checks_no_snapshot_work env args mirror_url :
  emits_only (fun e => negb (snapshot_work e)) (document_checks env args mirror_url).
Proof. unfold document_checks, get_update_info, get_document, feedback, notify, mail. filtered. Qed.

Lemma resolve_mirror_no_snapshot_work env args :
  emits_only (fun e => negb (snapshot_work e)) (resolve_mirror env args).
Proof. unfold resolve_mirror. filtered. Qed.

Lemma snapshot_pipeline_leaves_no_staging env args cfg url status st :
  staging st = NoTemp ->
  staging (snapshot_pipeline env args cfg url status st).2 = NoTemp.
Proof.
  intros Hs.
  assert (Hwith : forall body : M unit,
            staging (with_temporary_directory env args body st).2 = NoTemp).
  { intros body. unfold with_temporary_directory.
    destruct (tempdir st && negb (snapshots_dir_exists st)); [exact Hs|].
    destruct (tempdir st && negb (anchored env args)); [exact Hs|].
    destruct (body (set_staging TempEmpty st)). reflexivity. }
  destruct status; cbn [snapshot_pipeline].
  - apply Hwith.
  - rewrite same_pipeline_keeps_staging. exact Hs.
  - apply Hwith.
Qed.

Lemma main_leaves_no_staging env args st :
  staging st = NoTemp -> staging (main env args st).2 = NoTemp.
Proof.
  intros Hs. unfold main, bind.
  pose proof (resolve_mirror_keeps_staging env args st) as H1.
  destruct (resolve_mirror env args st) as [[mirror_url| | |] st1];
    cbn [snd] in *; try congruence.
  unfold lift. destruct (working_dir_absolute env args) as [b| | |];
    cbn [snd]; try congruence.
  pose proof (document_checks_keeps_staging env args mirror_url st1) as H2.
  destruct (document_checks env args mirror_url st1) as [[[]| | |] st2];
    cbn [snd] in *; try congruence.
  unfold when. destruct (snapshot_opt args); [|cbn; congruence].
  unfold snapshot_check, bind.
  pose proof (get_update_info_keeps_staging env (buildinfo_url env mirror_url) st2) as H3.
  destruct (get_update_info env (buildinfo_url env mirror_url) st2)
    as [[[status changes]| | |] st3]; cbn [snd] in *; try congruence.
  unfold modify. apply snapshot_pipeline_leaves_no_staging. cbn. congruence.
Qed.




(** the same run over a connection that breaks while the checksum file
    is read: the exception propagates, and the process ends with a
    traceback instead of status -2 *)
Example main_raises_on_interrupted_fetch :
  let r := main (with_failure (Interrupted IncompleteRead) quiet_env) errata_and_snapshot
             (at_start ∅ None) in
  r.1 = Raise IncompleteRead /\
  trace r.2 = [GetDocument "https://www.openbsd.org/errata63.html" true;
               GetDocument "m/snapshots/amd64/BUILDINFO" true;
               Urlopen "m/snapshots/amd64/SHA256.sig" false] /\
  staging r.2 = NoTemp.
Proof. vm_compute. auto. Qed.

(** ** End-to-end runs *)

(** Rotation with all three slots occupied: the oldest generation goes. *)
Example rotate_drops_oldest :
  let g0 := Dir [("bsd.rd", File 0 "kernel-0")] in
  let g1 := Dir [("bsd.rd", File 1 "kernel-1")] in
  let g2 := Dir [("bsd.rd", File 2 "kernel-2")] in
  rotate (at_start ∅ (Some {| previous := Some g0; current := Some g1; upgrade := Some g2 |})) =
    (Ret tt,
     at_start ∅ (Some {| previous := Some g1; current := Some g2; upgrade := None |})).
Proof. reflexivity. Qed.

(** Without an upgrade to promote, the last move of [rotate] fails
    after the first two steps were carried out. *)
Example rotate_without_upgrade :
  let g0 := Dir [("bsd.rd", File 0 "kernel-0")] in
  let g1 := Dir [("bsd.rd", File 1 "kernel-1")] in
  rotate (at_start ∅ (Some {| previous := Some g0; current := Some g1; upgrade := None |})) =
    (Raise FileNotFoundError,
     at_start ∅ (Some {| previous := Some g1; current := None; upgrade := None |})).
Proof. reflexivity. Qed.

(** No cached document, the snapshot verifies and its boot image is the
    one of the running system: the snapshot goes straight to [current]. *)
Example bootstrap_already_running :
  let env := with_root (Some (File 0 "member")) sound_mirror in
  let r := snapshot_check env snapshot_only main_signify "m/" (at_start ∅ None) in
  r.1 = Ret tt /\
  option_map previous (snaps r.2) = Some None /\
  option_map upgrade (snaps r.2) = Some None /\
  option_map (fun sl => Fs.is_dir (current sl)) (snaps r.2) = Some true /\
  staging r.2 = NoTemp /\
  List.filter (fun e => match e with Stdout _ => true | _ => false end) (trace r.2) = [].
Proof. vm_compute. repeat split. Qed.

(** The document changed and the upgrade slot is occupied: the older
    upgrade is dropped, the new snapshot takes the slot, and the user is
    told. *)
Example changed_replaces_waiting_upgrade :
  let r := snapshot_check sound_mirror snapshot_only main_signify "m/"
             (at_start earlier_build (Some waiting_upgrade)) in
  r.1 = Ret tt /\
  option_map current (snaps r.2) = Some (current waiting_upgrade) /\
  option_map (fun sl => stat_in (upgrade sl) "base63.tgz") (snaps r.2)
    = Some (Ret (File 2 "member")) /\
  List.filter (fun e => match e with Stdout _ => true | _ => false end) (trace r.2)
    = [Stdout ("New Snapshot set available to upgrade." +:+ String PyStr.nl EmptyString)].
Proof. vm_compute. repeat split. Qed.

(** The document is unchanged and the waiting upgrade is now the
    running system: the generations rotate. *)
Example unchanged_rotates_installed_upgrade :
  let env := with_root (Some (File 9 "kernel-2")) (with_document ["Build date: 1"] quiet_env) in
  let r := snapshot_check env snapshot_only main_signify "m/"
             (at_start earlier_build (Some waiting_upgrade)) in
  r.1 = Ret tt /\
  snaps r.2 = Some {| previous := current waiting_upgrade;
                      current := upgrade waiting_upgrade;
                      upgrade := None |}.
Proof. vm_compute. repeat split. Qed.

(** * Further properties of the script *)

(** ** What the user is told *)

Lemma feedback_allowed env args title body urgency :
  emits_only (allowed env args) (feedback env args title body urgency).
Proof.
  unfold feedback, notify, mail, when.
  destruct (notify_opt args) eqn:Hn, (has_notify_send env) eqn:Hh,
    (mail_opt args) eqn:Hm, (quiet args) eqn:Hq; cbn [negb];
    repeat first
      [ apply emits_only_bind; [|intros _]
      | solve [ apply emits_only_emit; cbn; rewrite ?Hn, ?Hh, ?Hm, ?Hq; reflexivity ]
      | solve [ apply emits_only_still; intros st; reflexivity ] ].
Qed.
#[local] Hint Resolve feedback_allowed : filtered.

Lemma main_allowed env args : emits_only (allowed env args) (main env args).
Proof. open_main. filtered. Qed.

(** The options of the command line bound what the user is told, over
    a whole run: nothing goes to standard output under [--quiet], no
    mail is sent without [--mail], and no popup is shown without
    [--notify] or without [notify-send] installed. *)
Theorem main_respects_feedback_options env args st :
  exists tr,
    trace (main env args st).2 = trace st ++ tr /\
    (quiet args = true -> forall text, ~ In (Stdout text) tr) /\
    (mail_opt args = false -> forall subject body, ~ In (Mail subject body) tr) /\
    (notify_opt args && has_notify_send env = false ->
       forall header body urgency, ~ In (NotifySend header body urgency) tr).
Proof.
  destruct (main_allowed env args st) as (tr & Htr & Hall).
  exists tr. split; [exact Htr|]. rewrite forallb_forall in Hall.
  repeat split; intros Hopt; intros; intros Hin; apply Hall in Hin; cbn in Hin;
    rewrite Hopt in Hin; discriminate.
Qed.

Lemma main_respects_feedback_options_witness :
  exists tr,
    trace (main sound_mirror snapshot_only (at_start earlier_build (Some waiting_upgrade))).2
      = [] ++ tr /\
    (forall subject body, ~ In (Mail subject body) tr) /\
    (forall header body urgency, ~ In (NotifySend header body urgency) tr) /\
    In (Stdout ("New Snapshot set available to upgrade." +:+ String PyStr.nl EmptyString)) tr.
Proof.
  destruct (main_respects_feedback_options sound_mirror snapshot_only
              (at_start earlier_build (Some waiting_upgrade)))
    as (tr & Htr & _ & Hmail & Hnotify).
  exists tr. split; [exact Htr|]. split; [exact (Hmail eq_refl)|].
  split; [exact (Hnotify eq_refl)|].
  assert (Hrun : trace (main sound_mirror snapshot_only
                          (at_start earlier_build (Some waiting_upgrade))).2 = tr)
    by exact Htr.
  rewrite <- Hrun. vm_compute. tauto.
Defined.

(** *** Runs that do not ask for the snapshot *)

(** Without [--snapshot] a run fetches no binary, runs no verifier,
    waits no cool-down, and leaves the slots and the temporary
    directory as they were, however the document checks end. *)
Theorem documents_only_run_leaves_snapshots_alone env args st :
  snapshot_opt args = false ->
  snaps (main env args st).2 = snaps st /\
  staging (main env args st).2 = staging st /\
  forall e, In e (trace (main env args st).2) -> snapshot_work e = true -> In e (trace st).
Proof.
  intros Hopt.
  assert (Hmain : main env args =
            bind (resolve_mirror env args)
              (fun mirror_url =>
                 bind (lift (working_dir_absolute env args))
                   (fun _ => bind (document_checks env args mirror_url) (fun _ => ret tt)))).
  { unfold main, when. rewrite Hopt. reflexivity. }
  rewrite Hmain. split; [|split].
  - apply preserves_bind; [apply resolve_mirror_keeps_snaps|]. intros mirror_url.
    apply preserves_bind; [intros s; reflexivity|]. intros _.
    apply preserves_bind; [apply document_checks_keeps_snaps|]. intros _ s. reflexivity.
  - apply preserves_bind; [apply resolve_mirror_keeps_staging|]. intros mirror_url.
    apply preserves_bind; [intros s; reflexivity|]. intros _.
    apply preserves_bind; [apply document_checks_keeps_staging|]. intros _ s. reflexivity.
  - intros e Hin Hwork.
    refine (emits_only_not_in (fun e => negb (snapshot_work e)) _ st e _ _ Hin).
    + apply emits_only_bind; [apply resolve_mirror_no_snapshot_work|]. intros mirror_url.
      apply emits_only_bind; [apply emits_only_still; reflexivity|]. intros _.
      apply emits_only_bind; [apply document_checks_no_snapshot_work|]. intros _.
      apply emits_only_still. reflexivity.
    + rewrite Hwork. reflexivity.
Qed.

Lemma documents_only_run_leaves_snapshots_alone_witness :
  let r := main sound_mirror documents_only (at_start ∅ (Some waiting_upgrade)) in
  snaps r.2 = Some waiting_upgrade /\
  staging r.2 = NoTemp /\
  forall e, In e (trace r.2) -> snapshot_work e = true -> In e [].
Proof.
  exact (documents_only_run_leaves_snapshots_alone sound_mirror documents_only
           (at_start ∅ (Some waiting_upgrade)) eq_refl).
Defined.

(** ** Network failures *)

(** A request that fails, for a document as for a binary, is fatal: it
    is the last request of the run, and nothing follows it but the
    report of the error.  An error the script catches is printed and the
    process exits with status -2; an error [urlopen] raises and nothing
    catches propagates at once; an error while the response is read does
    not let [main] return either.  Neither the topics after the request
    nor the snapshot are looked at. *)
Theorem network_failure_is_fatal env args st e :
  existsb failed_network (trace st) = false ->
  failed_network e = true ->
  In e (trace (main env args st).2) ->
  exists tr report,
    trace (main env args st).2 = trace st ++ tr ++ e :: report /\
    existsb failed_network tr = false /\
    match fails env (length (trace st ++ tr)) (request_url e) with
    | Reported message => report = [Stderr message] /\ (main env args st).1 = Exit (-2)
    | Uncaught x => report = [] /\ (main env args st).1 = Raise x
    | Interrupted x =>
        (main env args st).1 <> Ret tt /\
        (report = [] \/ exists message, report = [Stderr message])
    end.
Proof.
  intros Hclean He Hin.
  destruct (ends_main env args st) as (tr & Htr & Hd).
  assert (Hin' : In e tr).
  { rewrite Htr in Hin. apply in_app_or in Hin as [Hin|Hin]; [|exact Hin].
    exfalso. exact (no_failure_not_in _ _ Hclean He Hin). }
  destruct Hd as [Hc | (tr0 & e' & report & -> & He' & Hc0 & Haft)];
    [exfalso; exact (no_failure_not_in _ _ Hc He Hin')|].
  assert (e' = e) as ->.
  { apply in_app_or in Hin' as [Hin'|[Hin'|Hin']];
      [exfalso; exact (no_failure_not_in _ _ Hc0 He Hin')
      | exact Hin'
      | exfalso; exact (no_failure_not_in _ _ (aftermath_reports _ _ _ _ _ Haft) He Hin')]. }
  exists tr0, report. split; [exact Htr|]. split; [exact Hc0|].
  unfold aftermath in Haft.
  destruct (fails env (length (trace st ++ tr0)) (request_url e));
    destruct (main env args st).1 as [[]| | |]; cbn [ending_of] in Haft;
    destruct Haft as [H1 H2]; split; congruence.
Qed.

Lemma network_failure_is_fatal_witness :
  let r := main (down_after 1) errata_and_snapshot (at_start ∅ (Some waiting_upgrade)) in
  let e := GetDocument "m/snapshots/amd64/BUILDINFO" false in
  exists tr report,
    trace r.2 = [] ++ tr ++ e :: report /\
    existsb failed_network tr = false /\
    match fails (down_after 1) (length ([] ++ tr)) (request_url e) with
    | Reported message => report = [Stderr message] /\ r.1 = Exit (-2)
    | Uncaught x => report = [] /\ r.1 = Raise x
    | Interrupted x =>
        r.1 <> Ret tt /\ (report = [] \/ exists message, report = [Stderr message])
    end.
Proof.
  refine (network_failure_is_fatal (down_after 1) errata_and_snapshot
            (at_start ∅ (Some waiting_upgrade))
            (GetDocument "m/snapshots/amd64/BUILDINFO" false) eq_refl eq_refl _).
  vm_compute. tauto.
Defined.

Lemma returned_without_failure {A} env (m : M A) st a :
  ends_after_failure env m ->
  (m st).1 = Ret a ->
  existsb failed_network (trace st) = false ->
  existsb failed_network (trace (m st).2) = false.
Proof.
  intros Hm Hret Hclean.
  destruct (Hm st) as (tr & Htr & [Hc | (tr0 & e & report & _ & _ & _ & Haft)]).
  - rewrite Htr. apply no_failure_app. auto.
  - apply aftermath_not_returned in Haft. rewrite Hret in Haft. destruct (Haft eq_refl).
Qed.

Lemma get_update_info_no_snapshot_work env url :
  emits_only (fun e => negb (snapshot_work e)) (get_update_info env url).
Proof. unfold get_update_info, get_document. filtered. Qed.

Lemma snapshot_pipeline_fetches_no_document env args cfg url status :
  emits_only (fun e => negb (is_document_failure e))
    (snapshot_pipeline env args cfg url status).
Proof.
  unfold snapshot_pipeline, bootstrap_pipeline, same_pipeline,
    new_pipeline, acquire_and_gate, upgrade_available, download_snapshot, read_text,
    check_integrity, verify, slot_paths, rotate, move_staged, move_slot, rmtree_slot,
    get_binary, open_write, feedback, notify, mail.
  filtered.
Qed.

(** When the fetch of a document fails, the snapshot is not looked at
    in that run: no binary is fetched, no verifier is run, and the slots
    and the temporary directory stay as they were, whatever was asked
    for on the command line. *)
Theorem failed_document_fetch_skips_the_snapshot env args st u :
  existsb failed_network (trace st) = false ->
  In (GetDocument u false) (trace (main env args st).2) ->
  snaps (main env args st).2 = snaps st /\
  staging (main env args st).2 = staging st /\
  forall e, In e (trace (main env args st).2) -> snapshot_work e = true -> In e (trace st).
Proof.
  intros Hclean. unfold main, bind.
  pose proof (resolve_mirror_keeps_snaps env args st) as Hs1.
  pose proof (resolve_mirror_keeps_staging env args st) as Hg1.
  pose proof (fun e => emits_only_not_in _ _ st e (resolve_mirror_no_snapshot_work env args)) as He1.
  pose proof (fun a => returned_without_failure env _ st a (ends_resolve_mirror env args)) as Hr1.
  destruct (resolve_mirror env args st) as [[mirror_url| | |] st1]; cbn [fst snd] in *;
    try (intros _; split; [exact Hs1|]; split; [exact Hg1|];
         intros ev Hin Hw; apply He1; [rewrite Hw; reflexivity | exact Hin]).
  specialize (Hr1 _ eq_refl Hclean).
  unfold lift. destruct (working_dir_absolute env args) as [anchored_path| | |]; cbn [fst snd];
    try (intros _; split; [exact Hs1|]; split; [exact Hg1|];
         intros ev Hin Hw; apply He1; [rewrite Hw; reflexivity | exact Hin]).
  pose proof (document_checks_keeps_snaps env args mirror_url st1) as Hs2.
  pose proof (document_checks_keeps_staging env args mirror_url st1) as Hg2.
  pose proof (fun e => emits_only_not_in _ _ st1 e
                         (document_checks_no_snapshot_work env args mirror_url)) as He2.
  pose proof (fun a => returned_without_failure env _ st1 a
                         (ends_document_checks env args mirror_url)) as Hr2.
  destruct (document_checks env args mirror_url st1) as [[[]| | |] st2]; cbn [fst snd] in *;
    try (intros _; split; [congruence|]; split; [congruence|];
         intros ev Hin Hw; apply He1; [rewrite Hw; reflexivity|];
         apply He2; [rewrite Hw; reflexivity | exact Hin]).
  specialize (Hr2 _ eq_refl Hr1).
  unfold when. destruct (snapshot_opt args).
  2:{ cbn. intros _. split; [congruence|]. split; [congruence|].
      intros ev Hin Hw. apply He1; [rewrite Hw; reflexivity|].
      apply He2; [rewrite Hw; reflexivity | exact Hin]. }
  unfold snapshot_check, bind.
  pose proof (get_update_info_keeps_snaps env (buildinfo_url env mirror_url) st2) as Hs3.
  pose proof (get_update_info_keeps_staging env (buildinfo_url env mirror_url) st2) as Hg3.
  pose proof (fun e => emits_only_not_in _ _ st2 e
                (get_update_info_no_snapshot_work env (buildinfo_url env mirror_url))) as He3.
  pose proof (fun a => returned_without_failure env _ st2 a
                (ends_get_update_info env (buildinfo_url env mirror_url))) as Hr3.
  destruct (get_update_info env (buildinfo_url env mirror_url) st2)
    as [[[status changes]| | |] st3]; cbn [fst snd] in *;
    try (intros _; split; [congruence|]; split; [congruence|];
         intros ev Hin Hw; apply He1; [rewrite Hw; reflexivity|];
         apply He2; [rewrite Hw; reflexivity|];
         apply He3; [rewrite Hw; reflexivity | exact Hin]).
  specialize (Hr3 _ eq_refl Hr2).
  unfold modify. intros Hin. exfalso.
  apply (emits_only_not_in _ _ (set_tempdir (no_temp args) st3) (GetDocument u false)
           (snapshot_pipeline_fetches_no_document env args main_signify
              (snapshots_url env mirror_url) status) eq_refl) in Hin.
  exact (no_failure_not_in _ (GetDocument u false) Hr3 eq_refl Hin).
Qed.

Lemma failed_document_fetch_skips_the_snapshot_witness :
  let r := main (down_after 1) errata_and_snapshot (at_start ∅ (Some waiting_upgrade)) in
  snaps r.2 = Some waiting_upgrade /\
  staging r.2 = NoTemp /\
  forall e, In e (trace r.2) -> snapshot_work e = true -> In e [].
Proof.
  refine (failed_document_fetch_skips_the_snapshot (down_after 1) errata_and_snapshot
            (at_start ∅ (Some waiting_upgrade)) "m/snapshots/amd64/BUILDINFO" eq_refl _).
  vm_compute. tauto.
Defined.

(** ** The mirror URL *)

Lemma endswith_app suffix s : PyStr.endswith suffix (s +:+ suffix) = true.
Proof.
  induction s as [|c s IH].
  - change (EmptyString +:+ suffix) with suffix. destruct suffix; cbn [PyStr.endswith];
      rewrite String.eqb_refl; reflexivity.
  - change (String c s +:+ suffix) with (String c (s +:+ suffix)).
    cbn [PyStr.endswith]. rewrite IH. apply orb_true_r.
Qed.

Lemma with_final_slash_ends base : PyStr.endswith "/" (with_final_slash base) = true.
Proof.
  unfold with_final_slash. destruct (PyStr.endswith "/" base) eqn:H; [exact H|].
  apply endswith_app.
Qed.

(** Whenever [main] gets past the choice of the mirror, the URL it goes
    on with ends in a slash and is not empty; it is the [--mirror]
    option when that is given and not empty, and the contents of
    [/etc/installurl] without trailing white space otherwise; nothing
    was recorded on the way. *)
Theorem resolve_mirror_gives_directory_url env args st url st' :
  resolve_mirror env args st = (Ret url, st') ->
  st' = st /\
  PyStr.endswith "/" url = true /\
  exists base,
    url = with_final_slash base /\ base <> EmptyString /\
    if truthy (mirror args) then mirror args = Some base
    else exists text, installurl env = Some text /\
                      base = PyStr.rstrip_space (PyStr.universal_newlines text).
Proof.
  unfold resolve_mirror, bind. fold with_final_slash.
  destruct (truthy (mirror args)) eqn:Ht.
  - cbn. intros [= <- <-]. split; [reflexivity|]. split; [apply with_final_slash_ends|].
    destruct (mirror args) as [base|]; [|discriminate]. exists base.
    split; [reflexivity|]. split; [|reflexivity].
    intros ->. discriminate.
  - destruct (installurl env) as [text|]; [|cbn; discriminate].
    destruct (String.eqb (PyStr.rstrip_space (PyStr.universal_newlines text)) "") eqn:He;
      [cbn; discriminate|].
    cbn. intros [= <- <-]. split; [reflexivity|]. split; [apply with_final_slash_ends|].
    eexists. split; [reflexivity|]. split; [|eauto].
    apply String.eqb_neq. exact He.
Qed.

Lemma resolve_mirror_gives_directory_url_witness :
  let env := with_installurl (Some ("https://cdn.openbsd.org/pub/OpenBSD" +:+ String PyStr.nl EmptyString)) quiet_env in
  let st := at_start ∅ None in
  resolve_mirror env no_mirror_option st = (Ret "https://cdn.openbsd.org/pub/OpenBSD/", st) /\
  st = st /\
  PyStr.endswith "/" "https://cdn.openbsd.org/pub/OpenBSD/" = true /\
  exists base,
    "https://cdn.openbsd.org/pub/OpenBSD/" = with_final_slash base /\ base <> EmptyString /\
    exists text, installurl env = Some text /\
                 base = PyStr.rstrip_space (PyStr.universal_newlines text).
Proof.
  intros env st. split; [reflexivity|].
  exact (resolve_mirror_gives_directory_url env no_mirror_option st
           "https://cdn.openbsd.org/pub/OpenBSD/" st eq_refl).
Defined.

Lemma all_space_universal_newlines s :
  all_space s = true -> all_space (PyStr.universal_newlines s) = true.
Proof.
  assert (H : forall n s, (String.length s <= n)%nat -> all_space s = true ->
                          all_space (PyStr.universal_newlines s) = true).
  { clear s. induction n as [|n IH]; intros s Hlen Hs.
    - destruct s; [reflexivity | cbn in Hlen; lia].
    - destruct s as [|c s]; [reflexivity|].
      cbn [all_space] in Hs. apply andb_true_iff in Hs as [Hc Hs].
      cbn [String.length] in Hlen. cbn [PyStr.universal_newlines].
      destruct (Ascii.eqb c PyStr.cr).
      + destruct s as [|d s'].
        * reflexivity.
        * cbn [all_space] in Hs. apply andb_true_iff in Hs as [Hd Hs'].
          cbn [String.length] in Hlen.
          destruct (Ascii.eqb d PyStr.nl); cbn [all_space].
          -- rewrite (IH s') by (try lia; exact Hs'). reflexivity.
          -- rewrite (IH (String d s')); [reflexivity | cbn [String.length]; lia |].
             cbn [all_space]. rewrite Hd, Hs'. reflexivity.
      + cbn [all_space]. rewrite Hc. rewrite (IH s) by (try lia; exact Hs). reflexivity. }
  apply (H (String.length s)). lia.
Qed.

Lemma rstrip_space_blank s : all_space s = true -> PyStr.rstrip_space s = EmptyString.
Proof.
  induction s as [|c s IH]; [reflexivity|].
  cbn [all_space PyStr.rstrip_space]. intros H. apply andb_true_iff in H as [Hc Hs].
  rewrite (IH Hs), Hc. reflexivity.
Qed.

(** Without a usable [--mirror] option and with [/etc/installurl]
    missing, empty or blank, the process reports it on the standard
    error and exits with status -2 before any request is made: nothing
    is fetched and nothing on disk changes. *)
Theorem main_exits_without_mirror env args st :
  truthy (mirror args) = false ->
  match installurl env with
  | Some text => all_space text = true
  | None => True
  end ->
  exists message,
    main env args st = (Exit (-2), add_event (Stderr message) st).
Proof.
  intros Ht Hurl. unfold main, resolve_mirror, bind. rewrite Ht.
  destruct (installurl env) as [text|].
  - rewrite (rstrip_space_blank _ (all_space_universal_newlines _ Hurl)).
    cbn. eexists. reflexivity.
  - cbn. eexists. reflexivity.
Qed.

Lemma main_exits_without_mirror_witness :
  let env := with_installurl (Some (String " " (String PyStr.nl EmptyString))) sound_mirror in
  exists message,
    main env no_mirror_option (at_start ∅ None) =
      (Exit (-2), add_event (Stderr message) (at_start ∅ None)).
Proof.
  exact (main_exits_without_mirror
           (with_installurl (Some (String " " (String PyStr.nl EmptyString))) sound_mirror)
           no_mirror_option (at_start ∅ None) eq_refl eq_refl).
Defined.

(** ** The release token of numeric releases *)

Lemma is_digit_outside c chars :
  is_digit c = true ->
  forallb (fun d => negb (is_digit d)) (list_ascii_of_string chars) = true ->
  PyStr.mem c chars = false.
Proof.
  intros Hc. induction chars as [|d chars IH]; [reflexivity|].
  cbn [list_ascii_of_string forallb PyStr.mem]. intros H.
  apply andb_true_iff in H as [Hd H]. rewrite (IH H), orb_false_r.
  destruct (Ascii.eqb c d) eqn:Hcd; [|reflexivity].
  apply Ascii.eqb_eq in Hcd as ->. rewrite Hc in Hd. discriminate.
Qed.

Lemma all_digits_last s c :
  all_digits s = true -> last_char s = Some c -> is_digit c = true.
Proof.
  induction s as [|d s IH]; [discriminate|].
  cbn [all_digits]. intros H. apply andb_true_iff in H as [Hd Hs].
  cbn [last_char]. destruct s; [intros [= <-]; exact Hd | exact (IH Hs)].
Qed.

(** For a base archive named after a release number, as the sets of
    the mirrors are, the two strips give exactly that number, the
    empty one included. *)
Theorem snapshot_release_of_number token :
  all_digits token = true ->
  snapshot_release ("base" +:+ token +:+ ".tgz") = token /\
  PyStr.matches_base_tgz ("base" +:+ token +:+ ".tgz") = true.
Proof.
  intros Hd. split.
  - apply snapshot_release_of_safe_token.
    + destruct token as [|c token]; [exact I|]. cbn [first_char outside].
      cbn [all_digits] in Hd. apply andb_true_iff in Hd as [Hc _].
      apply is_digit_outside; [exact Hc | reflexivity].
    + destruct (last_char token) as [c|] eqn:Hl; [|exact I]. cbn [outside].
      apply is_digit_outside; [exact (all_digits_last _ _ Hd Hl) | reflexivity].
  - unfold PyStr.matches_base_tgz, PyStr.startswith.
    assert (Hp : String.prefix "base" ("base" +:+ token +:+ ".tgz") = true).
    { change ("base" +:+ token +:+ ".tgz")
        with (String "b" (String "a" (String "s" (String "e" (token +:+ ".tgz"))))).
      destruct (token +:+ ".tgz"); reflexivity. }
    assert (He : PyStr.endswith ".tgz" ("base" +:+ token +:+ ".tgz") = true).
    { replace ("base" +:+ token +:+ ".tgz") with (("base" +:+ token) +:+ ".tgz") by reflexivity.
      apply endswith_app. }
    assert (Hl : (8 <=? String.length ("base" +:+ token +:+ ".tgz"))%nat = true).
    { apply Nat.leb_le. clear.
      change ("base" +:+ token +:+ ".tgz")
        with (String "b" (String "a" (String "s" (String "e" (token +:+ ".tgz"))))).
      cbn [String.length].
      assert (4 <= String.length (token +:+ ".tgz"))%nat; [|lia].
      induction token as [|c token IH]; [vm_compute; lia|].
      change (String c token +:+ ".tgz") with (String c (token +:+ ".tgz")).
      cbn [String.length]. lia. }
    rewrite Hp, He, Hl. reflexivity.
Qed.

Lemma snapshot_release_of_number_witness :
  snapshot_release ("base" +:+ "74" +:+ ".tgz") = "74" /\
  PyStr.matches_base_tgz ("base" +:+ "74" +:+ ".tgz") = true.
Proof. exact (snapshot_release_of_number "74" eq_refl). Defined.

(** ** The installed-state comparator and the rotator at their edges *)

(** When the boot image is missing from the snapshot or from the
    running system, the comparison does not answer: the missing file
    raises [FileNotFoundError]. *)
Theorem is_installed_needs_both_files env snapshot :
  Fs.entry "bsd.rd" snapshot = None \/ root_bsd_rd env = None ->
  is_installed env (Some (Dir snapshot)) = Raise FileNotFoundError.
Proof.
  unfold is_installed, stat_in, cmp. intros [H|H]; rewrite H.
  - reflexivity.
  - destruct (Fs.entry "bsd.rd" snapshot) as [[m data|inside]|]; reflexivity.
Qed.

Lemma is_installed_needs_both_files_witness :
  is_installed (with_root None quiet_env) (Some (Dir [("bsd.rd", File 1 "kernel")]))
    = Raise FileNotFoundError.
Proof.
  exact (is_installed_needs_both_files (with_root None quiet_env)
           [("bsd.rd", File 1 "kernel")] (or_intror eq_refl)).
Defined.

(** Called without a snapshot in the upgrade slot, [rotate] fails on
    its last move only: by then the previous generation is deleted and
    the current one has taken its place, so the current slot is left
    empty. *)
Theorem rotate_without_upgrade_empties_current st sl :
  snaps st = Some sl ->
  upgrade sl = None ->
  not_a_file (previous sl) ->
  rotate st =
    (Raise FileNotFoundError,
     set_snaps (Some {| previous := current sl; current := None; upgrade := None |}) st).
Proof.
  intros Hsn Hup Hprev. destruct st as [dc sn stg tr td]. cbn in Hsn. subst sn.
  destruct sl as [p c u]. cbn in Hup. subst u.
  unfold rotate, bind, gets, when, slots. cbn.
  destruct p as [[m data|inside]|]; [destruct Hprev| |];
    destruct c as [x|]; reflexivity.
Qed.

Lemma rotate_without_upgrade_empties_current_witness :
  let g0 := Dir [("bsd.rd", File 0 "kernel-0")] in
  let g1 := Dir [("bsd.rd", File 1 "kernel-1")] in
  let st := at_start ∅ (Some {| previous := Some g0; current := Some g1; upgrade := None |}) in
  rotate st =
    (Raise FileNotFoundError,
     set_snaps (Some {| previous := Some g1; current := None; upgrade := None |}) st).
Proof.
  intros g0 g1 st.
  exact (rotate_without_upgrade_empties_current st
           {| previous := Some g0; current := Some g1; upgrade := None |}
           eq_refl eq_refl I).
Defined.

(** ** The three pipelines *)

Lemma check_integrity_returns_staged env cfg url st b st1 :
  check_integrity env cfg url st = (Ret b, st1) ->
  exists d, staging st1 = TempSnapshot d.
Proof.
  unfold check_integrity, bind.
  destruct (verify env cfg "" st) as [[[whole failed]| | |] st0] eqn:Hv; try discriminate.
  destruct failed as [|f fs].
  - intros [= <- <-]. apply verify_returns in Hv as (d & base & rest & Hs & _ & _ & ->).
    exists d. exact Hs.
  - unfold emit at 1.
    destruct (for_each (f :: fs) _ _) as [[[]| | |] st2]; try discriminate.
    destruct (verify env cfg "" st2) as [[[whole' failed']| | |] st3] eqn:Hv2; try discriminate.
    intros [= <- <-]. apply verify_returns in Hv2 as (d & base & rest & Hs & _ & _ & ->).
    exists d. exact Hs.
Qed.

Lemma acquire_and_gate_returns_staged env cfg url st b st1 :
  acquire_and_gate env cfg url st = (Ret b, st1) ->
  exists d, staging st1 = TempSnapshot d.
Proof.
  unfold acquire_and_gate, bind.
  destruct (download_snapshot env url (file cfg) st) as [[[]| | |] st0]; try discriminate.
  apply check_integrity_returns_staged.
Qed.

Lemma acquire_and_gate_keeps_slots env cfg url st o st1 :
  Fs.plain_name (file cfg) = true ->
  flat_manifest env (length (trace st)) (urljoin env url (file cfg)) ->
  flat_reports env ->
  acquire_and_gate env cfg url (set_staging TempEmpty st) = (o, st1) ->
  slots st1 = slots st /\ docs st1 = docs st.
Proof.
  intros Hp Hm Hr Hgate.
  pose proof (acquire_and_gate_keeps_snaps env cfg url (set_staging TempEmpty st) Hp Hm Hr) as Hsn.
  pose proof (acquire_and_gate_keeps_docs env cfg url (set_staging TempEmpty st) Hp Hm Hr) as Hdc.
  rewrite Hgate in Hsn, Hdc. cbn in Hsn, Hdc. unfold slots. rewrite Hsn. auto.
Qed.

Lemma move_staged_runs to st d :
  staging st = TempSnapshot d ->
  receives (slot_of to (slots st)) ->
  move_staged to st =
    (Ret tt,
     set_staging TempEmpty
       (set_snaps (Some (with_slot to (Some (received (slot_of to (slots st)) d)) (slots st)))
          st)).
Proof.
  intros Hstg Hrecv. unfold move_staged, bind, gets. rewrite Hstg.
  destruct (slot_of to (slots st)) as [[m data|inside]|] eqn:Hold;
    [destruct Hrecv| |]; unfold shutil_move.
  - cbn [receives] in Hrecv. rewrite Hrecv. reflexivity.
  - reflexivity.
Qed.



Lemma upgrade_available_runs env args s :
  exists s', upgrade_available env args s = (Ret tt, s') /\
             snaps s' = snaps s /\ staging s' = staging s /\ docs s' = docs s.
Proof.
  unfold upgrade_available, feedback, notify, mail, when, bind, emit, ret.
  destruct (notify_opt args), (has_notify_send env), (mail_opt args), (quiet args);
    cbn; eexists; repeat split.
Qed.



(** When the document is unchanged, the state on disk changes only if
    the waiting upgrade is the running system: in every other case,
    an empty upgrade slot and a failing comparison included, nothing is
    moved and nothing is recorded. *)
Theorem unchanged_document_rests_unless_installed env st :
  is_installed env (upgrade (slots st)) <> Ret true ->
  (same_pipeline env st).2 = st.
Proof.
  intros Hne. unfold same_pipeline, bind, gets, when, lift.
  destruct (upgrade (slots st)) as [up|]; cbn [Fs.exists_]; [|reflexivity].
  destruct (is_installed env (Some up)) as [[|]| | |]; try reflexivity.
  contradiction.
Qed.

Lemma unchanged_document_rests_unless_installed_witness :
  (same_pipeline quiet_env (at_start earlier_build (Some waiting_upgrade))).2 =
    at_start earlier_build (Some waiting_upgrade).
Proof.
  refine (unchanged_document_rests_unless_installed quiet_env
            (at_start earlier_build (Some waiting_upgrade)) _).
  vm_compute. discriminate.
Defined.

(** When the document is unchanged and the boot image of the waiting
    upgrade has the bytes of the one of the running system, the
    generations rotate: the upgrade becomes current, the old current
    becomes previous, and the old previous generation is deleted. *)
Theorem unchanged_document_rotates_installed_upgrade env st sl inside m1 m2 data :
  snaps st = Some sl ->
  upgrade sl = Some (Dir inside) ->
  Fs.entry "bsd.rd" inside = Some (File m1 data) ->
  root_bsd_rd env = Some (File m2 data) ->
  not_a_file (previous sl) ->
  same_pipeline env st =
    (Ret tt,
     set_snaps (Some {| previous := current sl; current := Some (Dir inside);
                        upgrade := None |}) st).
Proof.
  intros Hsn Hup Hrd Hroot Hprev.
  assert (Hinst : is_installed env (Some (Dir inside)) = Ret true).
  { unfold is_installed, stat_in, cmp. rewrite Hrd, Hroot.
    rewrite Nat.eqb_refl. cbn [andb negb]. rewrite String.eqb_refl.
    destruct (m1 =? m2); reflexivity. }
  assert (Hsl : slots st = sl) by (unfold slots; rewrite Hsn; reflexivity).
  assert (Hsame : same_pipeline env st = rotate st).
  { unfold same_pipeline, bind at 1, gets at 1. rewrite Hsl, Hup.
    cbn [Fs.exists_]. unfold when at 1, bind at 1, lift at 1. rewrite Hinst.
    reflexivity. }
  rewrite Hsame. clear Hsame Hsl Hinst.
  destruct st as [dc sn stg tr td]. cbn in Hsn. subst sn.
  destruct sl as [p c u]. cbn in Hup. subst u.
  unfold rotate, bind, gets, when, slots. cbn.
  destruct p as [[m d0|ins]|]; [destruct Hprev| |]; destruct c as [x|]; reflexivity.
Qed.

Lemma unchanged_document_rotates_installed_upgrade_witness :
  let st := at_start earlier_build (Some waiting_upgrade) in
  same_pipeline (with_root (Some (File 9 "kernel-2")) quiet_env) st =
    (Ret tt,
     set_snaps (Some {| previous := current waiting_upgrade;
                        current := Some (Dir [("bsd.rd", File 2 "kernel-2")]);
                        upgrade := None |}) st).
Proof.
  intros st.
  exact (unchanged_document_rotates_installed_upgrade
           (with_root (Some (File 9 "kernel-2")) quiet_env) st waiting_upgrade
           [("bsd.rd", File 2 "kernel-2")] 2 9 "kernel-2"
           eq_refl eq_refl eq_refl eq_refl I).
Defined.

(** ** Cached documents *)

Lemma keepends_line l t :
  lf_line l = true -> PyStr.keepends (l +:+ t) = l :: PyStr.keepends t.
Proof.
  induction l as [|c l IH]; [discriminate|].
  change (String c l +:+ t) with (String c (l +:+ t)).
  destruct l as [|d l'].
  - cbn [lf_line]. intros Hc. change (EmptyString +:+ t) with t.
    cbn [PyStr.keepends]. rewrite Hc. apply Ascii.eqb_eq in Hc as ->. reflexivity.
  - cbn [lf_line]. intros H. apply andb_true_iff in H as [H Hl].
    apply andb_true_iff in H as [Hnl _]. apply negb_true_iff in Hnl.
    cbn [PyStr.keepends]. rewrite Hnl. rewrite (IH Hl). reflexivity.
Qed.

Lemma universal_newlines_line l t :
  lf_line l = true ->
  PyStr.universal_newlines (l +:+ t) = l +:+ PyStr.universal_newlines t.
Proof.
  induction l as [|c l IH]; [discriminate|].
  change (String c l +:+ t) with (String c (l +:+ t)).
  change (String c l +:+ PyStr.universal_newlines t)
    with (String c (l +:+ PyStr.universal_newlines t)).
  destruct l as [|d l'].
  - cbn [lf_line]. intros Hc. apply Ascii.eqb_eq in Hc as ->.
    change (EmptyString +:+ t) with t. reflexivity.
  - cbn [lf_line]. intros H. apply andb_true_iff in H as [H Hl].
    apply andb_true_iff in H as [_ Hcr]. apply negb_true_iff in Hcr.
    cbn [PyStr.universal_newlines]. rewrite Hcr. rewrite (IH Hl). reflexivity.
Qed.

(** what [writelines] stored is what [readlines] gives back *)
Lemma readlines_join lines :
  forallb lf_line lines = true -> PyStr.readlines (PyStr.join lines) = lines.
Proof.
  unfold PyStr.readlines, PyStr.join. intros H.
  assert (Hu : PyStr.universal_newlines (fold_right String.append EmptyString lines)
               = fold_right String.append EmptyString lines).
  { induction lines as [|l lines IH]; [reflexivity|].
    cbn [forallb] in H. apply andb_true_iff in H as [Hl H].
    cbn [fold_right]. rewrite (universal_newlines_line _ _ Hl), (IH H). reflexivity. }
  rewrite Hu. clear Hu.
  induction lines as [|l lines IH]; [reflexivity|].
  cbn [forallb] in H. apply andb_true_iff in H as [Hl H].
  cbn [fold_right]. rewrite (keepends_line _ _ Hl), (IH H). reflexivity.
Qed.

Lemma unchanged_document_reports_same_aux env url st lines :
  fetch_lines env (length (trace st)) url = Some lines ->
  cache_name (PyStr.last_field PyStr.slash url) = true ->
  forallb lf_line lines = true ->
  docs st !! PyStr.last_field PyStr.slash url = Some (PyStr.join lines) ->
  context_diff env lines lines = [] ->
  get_update_info env url st =
    (Ret (same, Some EmptyString), add_event (GetDocument url true) st).
Proof.
  intros Hf Hn Hl Hc Hd. unfold get_update_info, get_document. run.
  rewrite Hf. cbn. rewrite Hn. cbn. rewrite Hc.
  unfold get_document_changes. rewrite (readlines_join _ Hl), Hd. reflexivity.
Qed.

(** A document whose cached copy holds the lines just fetched is
    reported as the same, and neither the cache nor anything else on
    disk is written: for lines that end in a line feed and hold no
    carriage return, reading the cache back gives the lines that were
    stored, and the diff of equal lists is empty. *)
Theorem unchanged_document_reports_same env url st lines :
  fetch_lines env (length (trace st)) url = Some lines ->
  cache_name (PyStr.last_field PyStr.slash url) = true ->
  forallb lf_line lines = true ->
  docs st !! PyStr.last_field PyStr.slash url = Some (PyStr.join lines) ->
  context_diff env lines lines = [] ->
  get_update_info env url st =
    (Ret (same, Some EmptyString), add_event (GetDocument url true) st).
Proof. apply unchanged_document_reports_same_aux. Qed.

Lemma unchanged_document_reports_same_witness :
  let env := with_document [String "a" (String PyStr.nl EmptyString);
                            String "b" (String PyStr.nl EmptyString)] quiet_env in
  let st := at_start {[ "BUILDINFO" := String "a" (String PyStr.nl (String "b" (String PyStr.nl EmptyString))) ]} None in
  get_update_info env "m/snapshots/amd64/BUILDINFO" st =
    (Ret (same, Some EmptyString),
     add_event (GetDocument "m/snapshots/amd64/BUILDINFO" true) st).
Proof.
  intros env st.
  exact (unchanged_document_reports_same env "m/snapshots/amd64/BUILDINFO" st
           [String "a" (String PyStr.nl EmptyString); String "b" (String PyStr.nl EmptyString)]
           eq_refl eq_refl eq_refl eq_refl eq_refl).
Defined.

Lemma same_pipeline_records_nothing env st :
  trace (same_pipeline env st).2 = trace st /\
  staging (same_pipeline env st).2 = staging st /\
  docs (same_pipeline env st).2 = docs st.
Proof.
  split; [|split].
  - assert (H : emits_only (fun _ => false) (same_pipeline env)).
    { unfold same_pipeline, rotate, move_slot, rmtree_slot. filtered. }
    destruct (H st) as (tr & Htr & Hall). rewrite Htr.
    destruct tr; [apply app_nil_r | discriminate].
  - apply same_pipeline_keeps_staging.
  - apply same_pipeline_keeps_docs.
Qed.

(** Once the snapshot document is cached, a snapshot is not acquired
    again before the document changes: with the fetched lines equal to
    the cached ones, the run fetches the document and nothing else, runs
    no verifier and stages nothing, also when the snapshot acquired for
    that document was dropped as not intact. *)
Theorem cached_snapshot_document_is_not_acquired_again env args cfg mirror_url st lines :
  let url := buildinfo_url env mirror_url in
  fetch_lines env (length (trace st)) url = Some lines ->
  cache_name (PyStr.last_field PyStr.slash url) = true ->
  forallb lf_line lines = true ->
  docs st !! PyStr.last_field PyStr.slash url = Some (PyStr.join lines) ->
  context_diff env lines lines = [] ->
  trace (snapshot_check env args cfg mirror_url st).2 = trace st ++ [GetDocument url true] /\
  staging (snapshot_check env args cfg mirror_url st).2 = staging st /\
  docs (snapshot_check env args cfg mirror_url st).2 = docs st.
Proof.
  intros url Hf Hn Hl Hc Hd.
  pose proof (same_pipeline_records_nothing env
                (set_tempdir (no_temp args) (add_event (GetDocument url true) st)))
    as (Ht & Hs & Hdc).
  assert (Heq : snapshot_check env args cfg mirror_url st =
                same_pipeline env
                  (set_tempdir (no_temp args) (add_event (GetDocument url true) st))).
  { unfold snapshot_check, bind. fold url.
    rewrite (unchanged_document_reports_same_aux env url st lines Hf Hn Hl Hc Hd). reflexivity. }
  rewrite Heq, Ht, Hs, Hdc. auto.
Qed.

Lemma cached_snapshot_document_is_not_acquired_again_witness :
  let env := with_document [String "a" (String PyStr.nl EmptyString)] mirror_in_sync in
  let st := at_start {[ "BUILDINFO" := String "a" (String PyStr.nl EmptyString) ]}
              (Some waiting_upgrade) in
  let r := snapshot_check env snapshot_only main_signify "m/" st in
  trace r.2 = [] ++ [GetDocument "m/snapshots/amd64/BUILDINFO" true] /\
  staging r.2 = NoTemp /\
  docs r.2 = docs st.
Proof.
  intros env st.
  exact (cached_snapshot_document_is_not_acquired_again env snapshot_only main_signify "m/" st
           [String "a" (String PyStr.nl EmptyString)] eq_refl eq_refl eq_refl eq_refl eq_refl).
Defined.

(** ** The report of the verifier and the checksum file *)

Lemma append_assoc_string a b c : (a +:+ b) +:+ c = a +:+ (b +:+ c).
Proof.
  induction a as [|x a IH]; [reflexivity|].
  change (String x ((a +:+ b) +:+ c) = String x (a +:+ (b +:+ c))). rewrite IH. reflexivity.
Qed.

Lemma mem_append c a b : PyStr.mem c (a +:+ b) = PyStr.mem c a || PyStr.mem c b.
Proof.
  induction a as [|x a IH]; [reflexivity|].
  change (String x a +:+ b) with (String x (a +:+ b)).
  cbn [PyStr.mem]. rewrite IH, orb_assoc. reflexivity.
Qed.

Lemma split_at_sep sep l t :
  PyStr.mem sep l = false ->
  PyStr.split sep (l +:+ String sep t) = l :: PyStr.split sep t.
Proof.
  induction l as [|c l IH].
  - intros _. change (EmptyString +:+ String sep t) with (String sep t).
    cbn [PyStr.split]. rewrite Ascii.eqb_refl. reflexivity.
  - change (String c l +:+ String sep t) with (String c (l +:+ String sep t)).
    cbn [PyStr.mem PyStr.split]. intros H. apply orb_false_iff in H as [Hc Hl].
    rewrite Ascii.eqb_sym, Hc, (IH Hl). reflexivity.
Qed.

Lemma split_join_nl l ls :
  Forall (fun x => PyStr.mem PyStr.nl x = false) (l :: ls) ->
  PyStr.split PyStr.nl (join_nl (l :: ls)) = l :: ls.
Proof.
  revert l. induction ls as [|l' ls IH]; intros l H; inversion H as [|? ? Hl Hls]; subst.
  - apply split_whole. exact Hl.
  - change (join_nl (l :: l' :: ls)) with (l +:+ String PyStr.nl (join_nl (l' :: ls))).
    rewrite (split_at_sep _ _ _ Hl), (IH l' Hls). reflexivity.
Qed.

Lemma endswith_last_char suffix s :
  suffix <> EmptyString ->
  PyStr.endswith suffix s = true -> last_char s = last_char suffix.
Proof.
  intros Hne. induction s as [|c s IH]; cbn [PyStr.endswith].
  - rewrite orb_false_r. intros H. apply String.eqb_eq in H. subst. contradiction.
  - intros H. apply orb_true_iff in H as [H|H].
    + apply String.eqb_eq in H. rewrite H. reflexivity.
    + destruct s as [|d s'].
      * cbn [PyStr.endswith] in H. rewrite orb_false_r in H.
        apply String.eqb_eq in H. subst. contradiction.
      * rewrite <- (IH H). reflexivity.
Qed.

Lemma report_line_read name ok :
  PyStr.mem PyStr.colon name = false ->
  PyStr.endswith "FAIL" (report_line (name, ok)) = negb ok /\
  PyStr.first_field PyStr.colon (report_line (name, ok)) = name.
Proof.
  intros Hc. unfold report_line. cbn [fst snd]. split.
  - destruct ok; cbn [negb].
    + destruct (PyStr.endswith "FAIL" (name +:+ ": OK")) eqn:He; [|reflexivity].
      apply endswith_last_char in He; [|discriminate].
      rewrite last_char_app_nonempty in He by discriminate. discriminate.
    + replace (name +:+ ": FAIL") with ((name +:+ ": ") +:+ "FAIL")
        by (rewrite append_assoc_string; reflexivity).
      apply endswith_app.
  - unfold PyStr.first_field.
    assert (H : forall rest, PyStr.split PyStr.colon (name +:+ String PyStr.colon rest)
                             = name :: PyStr.split PyStr.colon rest)
      by (intros rest; apply split_at_sep; exact Hc).
    destruct ok; [exact (f_equal (fun l => match l with [] => EmptyString | h :: _ => h end)
                           (H " OK"))
                 | exact (f_equal (fun l => match l with [] => EmptyString | h :: _ => h end)
                           (H " FAIL"))].
Qed.

Lemma report_lines_read results :
  forallb (fun r => negb (PyStr.mem PyStr.colon r.1) && negb (PyStr.mem PyStr.nl r.1))
          results = true ->
  map (PyStr.first_field PyStr.colon)
      (List.filter (PyStr.endswith "FAIL") (map report_line results)) =
    map fst (List.filter (fun r => negb r.2) results).
Proof.
  induction results as [|[name ok] rs IH]; [reflexivity|].
  cbn [forallb]. intros Hall. apply andb_true_iff in Hall as [Hr Hall].
  apply andb_true_iff in Hr as [Hc _]. apply negb_true_iff in Hc. cbn [fst] in Hc.
  destruct (report_line_read name ok Hc) as [He Hf].
  cbn [map List.filter snd]. rewrite He.
  destruct ok; cbn [negb map fst]; rewrite (IH Hall); [reflexivity|].
  rewrite Hf. reflexivity.
Qed.

Lemma report_lines_without_line_feed results :
  forallb (fun r => negb (PyStr.mem PyStr.colon r.1) && negb (PyStr.mem PyStr.nl r.1))
          results = true ->
  Forall (fun x => PyStr.mem PyStr.nl x = false) (map report_line results).
Proof.
  induction results as [|[name ok] rs IH]; [constructor|].
  cbn [forallb]. intros Hall. apply andb_true_iff in Hall as [Hr Hall].
  apply andb_true_iff in Hr as [_ Hn]. apply negb_true_iff in Hn. cbn [fst] in Hn.
  cbn [map]. constructor; [|exact (IH Hall)].
  unfold report_line. cbn [fst snd]. rewrite mem_append, Hn.
  destruct ok; reflexivity.
Qed.

(** From the report signify prints, a line per member with its name, a
    colon and OK or FAIL, [verify] reads back exactly the members that
    failed, in the order of the report, as long as no name holds a colon
    or a line feed. *)
Theorem failed_members_of_report results :
  forallb (fun r => negb (PyStr.mem PyStr.colon r.1) && negb (PyStr.mem PyStr.nl r.1))
          results = true ->
  failed_members (signify_report results) =
    map fst (List.filter (fun r => negb r.2) results).
Proof.
  intros Hall. unfold failed_members, signify_report.
  pose proof (report_lines_without_line_feed results Hall) as Hnl.
  rewrite <- (report_lines_read results Hall).
  destruct (map report_line results) as [|l ls]; [reflexivity|].
  rewrite (split_join_nl l ls Hnl). reflexivity.
Qed.

Lemma failed_members_of_report_witness :
  failed_members (signify_report [("base63.tgz", true); ("bsd.rd", false); ("bsd", false)])
    = map fst (List.filter (fun r => negb r.2)
                 [("base63.tgz", true); ("bsd.rd", false); ("bsd", false)]).
Proof.
  exact (failed_members_of_report
           [("base63.tgz", true); ("bsd.rd", false); ("bsd", false)] eq_refl).
Defined.

Lemma after_first_open_none s :
  PyStr.mem PyStr.lparen s = false -> PyStr.after_first_open s = None.
Proof.
  induction s as [|c s IH]; [reflexivity|].
  cbn [PyStr.mem PyStr.after_first_open]. intros H. apply orb_false_iff in H as [Hc Hs].
  rewrite Ascii.eqb_sym, Hc. exact (IH Hs).
Qed.

Lemma upto_last_close_none s :
  PyStr.mem PyStr.rparen s = false -> PyStr.upto_last_close s = None.
Proof.
  induction s as [|c s IH]; [reflexivity|].
  cbn [PyStr.mem PyStr.upto_last_close]. intros H. apply orb_false_iff in H as [Hc Hs].
  rewrite (IH Hs), Ascii.eqb_sym, Hc. reflexivity.
Qed.

Lemma upto_last_close_at name rest :
  PyStr.mem PyStr.rparen rest = false ->
  PyStr.upto_last_close (name +:+ String PyStr.rparen rest) = Some name.
Proof.
  intros Hr. induction name as [|c name IH].
  - change (EmptyString +:+ String PyStr.rparen rest) with (String PyStr.rparen rest).
    cbn [PyStr.upto_last_close]. rewrite (upto_last_close_none _ Hr). reflexivity.
  - change (String c name +:+ String PyStr.rparen rest)
      with (String c (name +:+ String PyStr.rparen rest)).
    cbn [PyStr.upto_last_close]. rewrite IH. reflexivity.
Qed.

Lemma member_line_read name digest :
  PyStr.mem PyStr.rparen digest = false ->
  PyStr.paren_group (member_line (name, digest)) = Some name.
Proof.
  intros Hd. unfold PyStr.paren_group, member_line. cbn [fst snd].
  change (PyStr.after_first_open ("SHA256 (" +:+ name +:+ ") = " +:+ digest))
    with (Some (name +:+ ") = " +:+ digest)).
  change (name +:+ ") = " +:+ digest)
    with (name +:+ String PyStr.rparen (" = " +:+ digest)).
  apply upto_last_close_at.
  change (" = " +:+ digest) with (String " " (String "=" (String " " digest))).
  cbn [PyStr.mem]. rewrite Hd. reflexivity.
Qed.

(** From a checksum file in the format of the mirrors (signature lines
    without parenthesis, then one line per member with its name in
    parentheses and its digest, then the final line feed) the acquirer
    reads back exactly the member names, in order and with their
    repetitions, also when a name itself holds parentheses. *)
Theorem findall_parens_of_manifest header members :
  forallb (fun h => negb (PyStr.mem PyStr.nl h) && negb (PyStr.mem PyStr.lparen h))
          header = true ->
  forallb (fun m => negb (PyStr.mem PyStr.nl m.1) && negb (PyStr.mem PyStr.nl m.2)
                    && negb (PyStr.mem PyStr.rparen m.2)) members = true ->
  PyStr.findall_parens (manifest_text header members) = map fst members.
Proof.
  intros Hh Hm. unfold PyStr.findall_parens, manifest_text.
  assert (Hnl : Forall (fun x => PyStr.mem PyStr.nl x = false)
                  (header ++ map member_line members ++ [EmptyString])).
  { apply Forall_app. split; [|apply Forall_app; split; [|repeat constructor]].
    - clear Hm. induction header as [|h header IH]; [constructor|].
      cbn [forallb] in Hh. apply andb_true_iff in Hh as [H Hh].
      apply andb_true_iff in H as [H _]. apply negb_true_iff in H.
      constructor; [exact H | exact (IH Hh)].
    - clear Hh. induction members as [|[name digest] members IH]; [constructor|].
      cbn [forallb] in Hm. apply andb_true_iff in Hm as [H Hm].
      apply andb_true_iff in H as [H _]. apply andb_true_iff in H as [H1 H2].
      apply negb_true_iff in H1, H2. cbn [fst snd] in H1, H2.
      cbn [map]. constructor; [|exact (IH Hm)].
      unfold member_line. cbn [fst snd].
      rewrite !mem_append, H1, H2. reflexivity. }
  assert (Hsplit : PyStr.split PyStr.nl
                     (join_nl (header ++ map member_line members ++ [EmptyString]))
                   = header ++ map member_line members ++ [EmptyString]).
  { destruct (header ++ map member_line members ++ [EmptyString]) as [|l ls] eqn:Hl.
    - destruct header; [destruct (map member_line members)|]; discriminate.
    - apply split_join_nl. exact Hnl. }
  rewrite Hsplit, !omap_app.
  assert (H1 : omap PyStr.paren_group header = []).
  { clear Hm Hnl Hsplit. induction header as [|h header IH]; [reflexivity|].
    cbn [forallb] in Hh. apply andb_true_iff in Hh as [H Hh].
    apply andb_true_iff in H as [_ H]. apply negb_true_iff in H.
    cbn [omap list_omap]. unfold PyStr.paren_group at 1.
    rewrite (after_first_open_none _ H). exact (IH Hh). }
  assert (H2 : omap PyStr.paren_group (map member_line members) = map fst members).
  { clear Hh Hnl Hsplit H1. induction members as [|[name digest] members IH]; [reflexivity|].
    cbn [forallb] in Hm. apply andb_true_iff in Hm as [H Hm].
    apply andb_true_iff in H as [_ H]. apply negb_true_iff in H. cbn [snd] in H.
    cbn [map omap list_omap]. rewrite (member_line_read name digest H).
    cbn [fst]. f_equal. exact (IH Hm). }
  rewrite H1, H2. cbn. apply app_nil_r.
Qed.

Lemma findall_parens_of_manifest_witness :
  PyStr.findall_parens
    (manifest_text ["untrusted comment: verify with openbsd-63-base.pub"; "RWRVWzAM"]
       [("base63.tgz", "ab"); ("bsd (mp).rd", "cd"); ("base63.tgz", "ab")])
    = map fst [("base63.tgz", "ab"); ("bsd (mp).rd", "cd"); ("base63.tgz", "ab")].
Proof.
  exact (findall_parens_of_manifest
           ["untrusted comment: verify with openbsd-63-base.pub"; "RWRVWzAM"]
           [("base63.tgz", "ab"); ("bsd (mp).rd", "cd"); ("base63.tgz", "ab")]
           eq_refl eq_refl).
Defined.

(** ** The acquirer at its edges *)

Lemma for_each_app {A} (xs ys : list A) (body : A -> M unit) st :
  for_each (xs ++ ys) body st =
    match for_each xs body st with
    | (Ret _, st') => for_each ys body st'
    | other => other
    end.
Proof.
  revert st. induction xs as [|x xs IH]; intros st; [reflexivity|].
  cbn [app for_each]. unfold bind.
  destruct (body x st) as [[[]| | |] st1]; [apply IH | reflexivity..].
Qed.

Lemma staged_manifest_writable signify_file m body f :
  Fs.plain_name f = true ->
  writable_in (Fs.write signify_file (File m body) []) f.
Proof.
  intros Hf. split; [exact Hf|]. cbn. destruct (String.eqb signify_file f); reflexivity.
Qed.

(** The acquirer stops at the first member whose fetch fails with an
    error the script catches: the members before it were fetched in
    order, the error is printed and the process exits with status -2 on
    the failed one, and no member after it is asked for. *)
Theorem download_snapshot_stops_at_first_failure env url signify_file st body k f message :
  let t0 := length (trace st) in
  let files := PyStr.findall_parens (PyStr.universal_newlines body) in
  staging st = TempEmpty ->
  Fs.plain_name signify_file = true ->
  urlopen env t0 (urljoin env url signify_file) = Some body ->
  files !! k = Some f ->
  Forall (fun g => Fs.plain_name g = true) (take k files) ->
  (forall i g, take k files !! i = Some g ->
     urlopen env (t0 + 1 + i) (urljoin env url g) <> None) ->
  urlopen env (t0 + 1 + k) (urljoin env url f) = None ->
  fails env (t0 + 1 + k) (urljoin env url f) = Reported message ->
  (download_snapshot env url signify_file st).1 = Exit (-2) /\
  trace (download_snapshot env url signify_file st).2 =
    trace st ++ Urlopen (urljoin env url signify_file) true
             :: map (fun g => Urlopen (urljoin env url g) true) (take k files)
             ++ [Urlopen (urljoin env url f) false; Stderr message].
Proof.
  intros t0 files Hs Hp Hb Hk Hplain Hnet Hfail Hhow.
  assert (Hlen : length (take k files) = k).
  { apply length_take_le. apply lookup_lt_Some in Hk. lia. }
  assert (Hsplit : files = take k files ++ f :: drop (S k) files).
  { rewrite <- (take_drop k files) at 1. f_equal. apply drop_S. exact Hk. }
  remember (take k files) as fetched eqn:Hfetched. clear Hfetched.
  set (st1 := set_staging (TempSnapshot []) st).
  set (d1 := Fs.write signify_file (File (clock env (length (trace st1))) body) []).
  set (st2 := set_staging (TempSnapshot d1)
                (add_event (Urlopen (urljoin env url signify_file) true) st1)).
  assert (Ht2 : length (trace st2) = (t0 + 1)%nat).
  { unfold st2, st1, t0. cbn. rewrite length_app. reflexivity. }
  assert (Hrun : download_snapshot env url signify_file st =
            (Exit (-2),
             add_event (Stderr message)
               (add_event (Urlopen (urljoin env url f) false)
                  (after_fetches env url fetched d1 st2)))).
  { unfold download_snapshot.
    unfold bind at 1. unfold gets at 1. rewrite Hs.
    unfold bind at 1. unfold modify at 1. fold st1.
    unfold bind at 1.
    rewrite (get_binary_writes env _ signify_file st1 [] body);
      [| exact Hb | reflexivity | split; [exact Hp | reflexivity]].
    fold d1. fold st2.
    unfold bind at 1.
    rewrite (read_text_file signify_file st2 d1 (clock env (length (trace st1))) body);
      [| reflexivity | unfold d1; cbn; rewrite String.eqb_refl; reflexivity].
    fold files. rewrite Hsplit, for_each_app.
    rewrite (for_each_fetches env url fetched st2 d1).
    - cbn [for_each]. unfold bind.
      assert (Hnow : length (trace (after_fetches env url fetched d1 st2)) = (t0 + 1 + k)%nat).
      { cbn [after_fetches trace]. rewrite length_app, length_map, Ht2, Hlen. reflexivity. }
      rewrite (get_binary_fails _ _ _ _ message); [reflexivity | |]; rewrite Hnow; assumption.
    - reflexivity.
    - eapply Forall_impl; [exact Hplain|]. intros g Hg.
      apply staged_manifest_writable. exact Hg.
    - intros i g Hi. rewrite Ht2. apply Hnet. exact Hi. }
  rewrite Hrun. split; [reflexivity|].
  cbn [snd add_event after_fetches trace]. unfold st2, st1.
  cbn [add_event set_staging trace]. rewrite <- ?app_assoc. reflexivity.
Qed.

Lemma download_snapshot_stops_at_first_failure_witness :
  let r := download_snapshot (fails_from 2) "m/" "SHA256.sig" fresh_tmp in
  r.1 = Exit (-2) /\
  trace r.2 = [] ++ Urlopen "m/SHA256.sig" true
                 :: map (fun g => Urlopen (String.append "m/" g) true) ["base63.tgz"]
                 ++ [Urlopen "m/bsd.rd" false; Stderr "<urlopen error timed out>"].
Proof.
  refine (download_snapshot_stops_at_first_failure (fails_from 2) "m/" "SHA256.sig" fresh_tmp
            sample_manifest 1 "bsd.rd" "<urlopen error timed out>"
            eq_refl eq_refl eq_refl eq_refl _ _ eq_refl eq_refl).
  - repeat constructor.
  - intros i g Hi. destruct i as [|i].
    + vm_compute in Hi. injection Hi as <-. vm_compute. discriminate.
    + vm_compute in Hi. discriminate.
Defined.

Lemma glob_base_write_none d n x :
  glob_base d = [] -> PyStr.matches_base_tgz n = false -> glob_base (Fs.write n x d) = [].
Proof.
  unfold glob_base, Fs.names. intros Hd Hn.
  induction d as [|[m y] d IH]; cbn; [rewrite Hn; reflexivity|].
  cbn in Hd. destruct (String.eqb m n); cbn.
  - exact Hd.
  - destruct (PyStr.matches_base_tgz m); [discriminate|]. exact (IH Hd).
Qed.

Lemma glob_base_refetched_none env url names : forall t d,
  glob_base d = [] ->
  forallb (fun n => negb (PyStr.matches_base_tgz n)) names = true ->
  glob_base (refetched env url t names d) = [].
Proof.
  induction names as [|g names IH]; intros t d Hd Hn; [exact Hd|].
  cbn [forallb] in Hn. apply andb_true_iff in Hn as [Hg Hn]. apply negb_true_iff in Hg.
  cbn [refetched]. apply IH; [|exact Hn].
  apply glob_base_write_none; assumption.
Qed.





(** ** The loop over the documents *)

Lemma get_update_info_runs env url st lines :
  fetch_lines env (length (trace st)) url = Some lines ->
  cache_name (PyStr.last_field PyStr.slash url) = true ->
  exists status changes st',
    get_update_info env url st = (Ret (status, changes), st') /\
    trace st' = trace st ++ [GetDocument url true] /\
    (docs st !! PyStr.last_field PyStr.slash url = None -> changes = None) /\
    is_Some (docs st' !! PyStr.last_field PyStr.slash url) /\
    (forall n, n <> PyStr.last_field PyStr.slash url -> docs st' !! n = docs st !! n).
Proof.
  intros Hf Hn. unfold get_update_info, get_document. run. rewrite Hf. cbn. rewrite Hn. cbn.
  destruct (docs st !! PyStr.last_field PyStr.slash url) as [previous|] eqn:Hc; cbn.
  - destruct (String.eqb (get_document_changes env previous lines url) "");
      cbn; eexists _, _, _; (split; [reflexivity|]); cbn;
      (split; [reflexivity|]); (split; [discriminate|]); split.
    + rewrite Hc. eauto.
    + auto.
    + rewrite lookup_insert_eq. eauto.
    + intros n Hne. apply lookup_insert_ne. congruence.
  - eexists _, _, _. split; [reflexivity|]. cbn. split; [reflexivity|].
    split; [reflexivity|]. split.
    + rewrite lookup_insert_eq. eauto.
    + intros n Hne. apply lookup_insert_ne. congruence.
Qed.

Lemma feedback_runs env args title body urgency s :
  exists s' tr,
    feedback env args title body urgency s = (Ret tt, s') /\
    docs s' = docs s /\
    trace s' = trace s ++ tr /\
    List.filter (fun e => negb (is_feedback e)) tr = [].
Proof.
  unfold feedback, notify, mail, when, bind, emit, ret.
  destruct (notify_opt args), (has_notify_send env), (mail_opt args), (quiet args);
    cbn; eexists _, _; (split; [reflexivity|]); (split; [reflexivity|]); cbn;
    rewrite <- ?app_assoc; (split; [try reflexivity; symmetry; apply app_nil_r|]);
    reflexivity.
Qed.

Lemma document_loop_fetches env args mirror_url ks : forall st,
  (forall t url, fetch_lines env t url <> None) ->
  (forall k, In k ks -> cache_name (topic_cache_name env mirror_url k) = true) ->
  exists final tr,
    for_each ks
      (fun k =>
         bind (get_update_info env (topic_url env mirror_url k))
           (fun x => let '(status, changes) := x in
              when (truthy changes)
                (feedback env args (topic_title k)
                   (if truthy (topic_body env k) then default "" (topic_body env k)
                    else default "" changes)
                   (topic_level k)))) st = (Ret tt, final) /\
    trace final = trace st ++ tr /\
    List.filter (fun e => negb (is_feedback e)) tr =
      map (fun k => GetDocument (topic_url env mirror_url k) true) ks.
Proof.
  induction ks as [|k ks IH]; intros st Hnet Hname.
  - exists st, []. cbn. rewrite app_nil_r. auto.
  - destruct (fetch_lines env (length (trace st)) (topic_url env mirror_url k)) as [lines|] eqn:Hf;
      [|destruct (Hnet _ _ Hf)].
    destruct (get_update_info_runs env _ st lines Hf (Hname k (or_introl eq_refl)))
      as (status & changes & st1 & Hrun & Htr1 & _).
    cbn [for_each]. unfold bind at 1, bind at 1. rewrite Hrun.
    assert (Hfb : exists s2 tr2,
              when (truthy changes)
                (feedback env args (topic_title k)
                   (if truthy (topic_body env k) then default "" (topic_body env k)
                    else default "" changes) (topic_level k)) st1 = (Ret tt, s2) /\
              trace s2 = trace st1 ++ tr2 /\
              List.filter (fun e => negb (is_feedback e)) tr2 = []).
    { unfold when. destruct (truthy changes).
      - destruct (feedback_runs env args (topic_title k)
                    (if truthy (topic_body env k) then default "" (topic_body env k)
                     else default "" changes) (topic_level k) st1)
          as (s2 & tr2 & H1 & _ & H2 & H3). eauto.
      - exists st1, []. rewrite app_nil_r. auto. }
    destruct Hfb as (s2 & tr2 & Hrun2 & Htr2 & Hfil2). rewrite Hrun2.
    destruct (IH s2 Hnet (fun k' Hk' => Hname k' (or_intror Hk'))) as (final & tr & Hrun3 & Htr3 & Hfil3).
    exists final, ([GetDocument (topic_url env mirror_url k) true] ++ tr2 ++ tr).
    split; [exact Hrun3|]. split.
    + rewrite Htr3, Htr2, Htr1, <- !app_assoc. reflexivity.
    + rewrite !List.filter_app, Hfil2, Hfil3. reflexivity.
Qed.



Lemma first_document_loop env args mirror_url ks : forall st,
  (forall t url, fetch_lines env t url <> None) ->
  (forall k, In k ks -> cache_name (topic_cache_name env mirror_url k) = true) ->
  List.NoDup (map (topic_cache_name env mirror_url) ks) ->
  (forall k, In k ks -> docs st !! topic_cache_name env mirror_url k = None) ->
  exists final,
    for_each ks
      (fun k =>
         bind (get_update_info env (topic_url env mirror_url k))
           (fun x => let '(status, changes) := x in
              when (truthy changes)
                (feedback env args (topic_title k)
                   (if truthy (topic_body env k) then default "" (topic_body env k)
                    else default "" changes)
                   (topic_level k)))) st = (Ret tt, final) /\
    trace final = trace st ++ map (fun k => GetDocument (topic_url env mirror_url k) true) ks /\
    (forall n, is_Some (docs st !! n) -> is_Some (docs final !! n)) /\
    (forall k, In k ks -> is_Some (docs final !! topic_cache_name env mirror_url k)).
Proof.
  induction ks as [|k ks IH]; intros st Hnet Hname Hdup Hnew.
  - exists st. cbn. rewrite app_nil_r. repeat split; [auto | intros k []].
  - destruct (fetch_lines env (length (trace st)) (topic_url env mirror_url k)) as [lines|] eqn:Hf;
      [|destruct (Hnet _ _ Hf)].
    destruct (get_update_info_runs env _ st lines Hf (Hname k (or_introl eq_refl)))
      as (status & changes & st1 & Hrun & Htr1 & Hnone & Hsome & Hother).
    rewrite (Hnone (Hnew k (or_introl eq_refl))) in Hrun.
    cbn [for_each]. unfold bind at 1, bind at 1. rewrite Hrun. cbn [truthy when]. unfold ret at 1.
    inversion Hdup as [|? ? Hnotin Hdup']; subst.
    destruct (IH st1 Hnet (fun k' Hk' => Hname k' (or_intror Hk')) Hdup') as (final & Hrun3 & Htr3 & Hmono & Hall).
    { intros k' Hk'. rewrite Hother; [apply Hnew; right; exact Hk'|].
      intros Heq. apply Hnotin.
      change (PyStr.last_field PyStr.slash (topic_url env mirror_url k))
        with (topic_cache_name env mirror_url k) in Heq.
      rewrite <- Heq. apply in_map. exact Hk'. }
    exists final. split; [exact Hrun3|]. split; [|split].
    + rewrite Htr3, Htr1, <- app_assoc. reflexivity.
    + intros n Hn. apply Hmono.
      destruct (String.eqb_spec n (PyStr.last_field PyStr.slash (topic_url env mirror_url k)))
        as [->|Hne]; [exact Hsome | rewrite Hother; assumption].
    + intros k' [<-|Hk']; [apply Hmono; exact Hsome | apply Hall; exact Hk'].
Qed.



(** ** Carriage returns in a document *)

Lemma universal_newlines_without_cr s :
  PyStr.mem PyStr.cr (PyStr.universal_newlines s) = false.
Proof.
  assert (H : forall n s, (String.length s <= n)%nat ->
                          PyStr.mem PyStr.cr (PyStr.universal_newlines s) = false).
  { clear s. induction n as [|n IH]; intros s Hlen.
    - destruct s; [reflexivity | cbn in Hlen; lia].
    - destruct s as [|c s]; [reflexivity|].
      cbn [String.length] in Hlen. cbn [PyStr.universal_newlines].
      destruct (Ascii.eqb c PyStr.cr) eqn:Hc.
      + destruct s as [|d s']; [reflexivity|].
        cbn [String.length] in Hlen.
        destruct (Ascii.eqb d PyStr.nl); cbn [PyStr.mem].
        * rewrite (IH s') by lia. reflexivity.
        * rewrite (IH (String d s')) by (cbn [String.length]; lia). reflexivity.
      + cbn [PyStr.mem]. rewrite Ascii.eqb_sym, Hc. rewrite (IH s) by lia. reflexivity. }
  apply (H (String.length s)). lia.
Qed.

Lemma keepends_keeps_out c t :
  PyStr.mem c t = false -> Forall (fun l => PyStr.mem c l = false) (PyStr.keepends t).
Proof.
  induction t as [|x t IH]; [constructor|].
  cbn [PyStr.mem PyStr.keepends]. intros H. apply orb_false_iff in H as [Hx Ht].
  specialize (IH Ht).
  destruct (Ascii.eqb x PyStr.nl).
  - constructor; [cbn; rewrite Hx; reflexivity | exact IH].
  - destruct (PyStr.keepends t) as [|h rest].
    + constructor; [cbn; rewrite Hx; reflexivity | constructor].
    + inversion IH as [|? ? Hh Hrest]; subst.
      constructor; [cbn; rewrite Hx, Hh; reflexivity | exact Hrest].
Qed.

Lemma readlines_without_cr data :
  Forall (fun l => PyStr.mem PyStr.cr l = false) (PyStr.readlines data).
Proof. apply keepends_keeps_out, universal_newlines_without_cr. Qed.

(** A document with a carriage return in one of its lines is reported
    as new on every check, also when the cache holds exactly the lines
    that are fetched: the cache is read back with its line endings
    translated, so the two lists of lines differ, and a diff of
    different lists is not empty. *)
Theorem document_with_carriage_return_is_always_new env url st lines :
  fetch_lines env (length (trace st)) url = Some lines ->
  cache_name (PyStr.last_field PyStr.slash url) = true ->
  docs st !! PyStr.last_field PyStr.slash url = Some (PyStr.join lines) ->
  existsb (PyStr.mem PyStr.cr) lines = true ->
  (forall a b, a <> b -> PyStr.join (context_diff env a b) <> EmptyString) ->
  exists changes st',
    get_update_info env url st = (Ret (new, Some changes), st') /\
    changes <> EmptyString /\
    docs st' !! PyStr.last_field PyStr.slash url = Some (PyStr.join lines).
Proof.
  intros Hf Hn Hc Hcr Hdiff.
  assert (Hne : PyStr.readlines (PyStr.join lines) <> lines).
  { intros Heq. pose proof (readlines_without_cr (PyStr.join lines)) as Hall.
    rewrite Heq in Hall. apply existsb_exists in Hcr as (l & Hin & Hl).
    rewrite List.Forall_forall in Hall. rewrite (Hall l Hin) in Hl. discriminate. }
  specialize (Hdiff _ _ Hne).
  unfold get_update_info, get_document. run. rewrite Hf. cbn. rewrite Hn. cbn. rewrite Hc.
  unfold get_document_changes.
  destruct (PyStr.join (context_diff env (PyStr.readlines (PyStr.join lines)) lines))
    as [|c changes]; [contradiction|].
  cbn. eexists _, _. split; [reflexivity|]. split.
  - discriminate.
  - cbn. apply lookup_insert_eq.
Qed.

Lemma document_with_carriage_return_is_always_new_witness :
  let env := with_document crlf_page quiet_env in
  let st := at_start {[ "events.html" := PyStr.join crlf_page ]} None in
  exists changes st',
    get_update_info env "https://www.openbsd.org/events.html" st = (Ret (new, Some changes), st') /\
    changes <> EmptyString /\
    docs st' !! "events.html" = Some (PyStr.join crlf_page).
Proof.
  intros env st.
  refine (document_with_carriage_return_is_always_new env "https://www.openbsd.org/events.html"
            st crlf_page eq_refl eq_refl eq_refl eq_refl _).
  intros a b Hne. cbn. destruct (decide (a = b)); [contradiction | discriminate].
Defined.

(** ** What reaches a slot *)

Lemma check_integrity_passed env cfg url st st1 :
  check_integrity env cfg url st = (Ret true, st1) ->
  exists d command tr,
    staging st1 = TempSnapshot d /\
    trace st1 = tr ++ [Signify command] /\
    (getstatusoutput env (length tr) command d).1 = 0.
Proof.
  unfold check_integrity, bind.
  destruct (verify env cfg "" st) as [[[whole failed]| | |] st0] eqn:Hv; try discriminate.
  destruct failed as [|f fs].
  - intros [= -> <-]. apply verify_returns in Hv as (d & base & rest & Hs & _ & Hres & ->).
    cbn zeta in Hres. injection Hres as Hres _. symmetry in Hres. apply Z.eqb_eq in Hres.
    exists d, (signify_command cfg (snapshot_release base) ""), (trace st).
    split; [exact Hs|]. split; [reflexivity | exact Hres].
  - unfold emit at 1.
    destruct (for_each (f :: fs) _ _) as [[[]| | |] st2]; try discriminate.
    destruct (verify env cfg "" st2) as [[[whole' failed']| | |] st3] eqn:Hv2; try discriminate.
    intros [= -> <-]. apply verify_returns in Hv2 as (d & base & rest & Hs & _ & Hres & ->).
    cbn zeta in Hres. injection Hres as Hres _. symmetry in Hres. apply Z.eqb_eq in Hres.
    exists d, (signify_command cfg (snapshot_release base) ""), (trace st2).
    split; [exact Hs|]. split; [reflexivity | exact Hres].
Qed.




